(** * flare: a Cloudflare tunnel wrapper -- model of [src/flare/core.py]

    The program talks to the Cloudflare API over HTTP, to the file system
    and to a [cloudflared] child process.  Every such call is modelled as a
    primitive whose answer is chosen by an environment ([env]) that may
    look at everything that happened before; the primitive appends one
    [event] to the trace.  Python exceptions are explicit ([result]).

    Not modelled: [print] (stdout is not observed, and every expression
    evaluated only for printing either cannot raise or sits under a handler
    that catches what it raises), [time.sleep], and signals arriving
    anywhere but during the blocking [process.wait()].  The legacy
    [create_tunnel], which [main] never calls, is modelled apart, in
    [Legacy].  JSON numbers are integers. *)

From Stdlib Require Import String Ascii List ZArith QArith Bool Lia.
From Stdlib Require Import DecimalString DecimalZ.
Import ListNotations.
Open Scope string_scope.
Open Scope Z_scope.
Set Warnings "-register-all".

(* ================================================================== *)
(** ** Python values and exceptions *)

(** What [response.json()] can return.  A [JObj] is the parsed dict: keys
    are looked up from the left. *)
Inductive json :=
| JNull
| JBool (b : bool)
| JNum (z : Z)
| JStr (s : string)
| JArr (l : list json)
| JObj (l : list (string * json)).

Inductive exc_kind :=
| ValueError | KeyError | IndexError | TypeError | AttributeError
| UnboundLocalError | JSONDecodeError | RequestException
| FileNotFoundError | OSError.

(** [SystemExit] and [KeyboardInterrupt] derive from [BaseException] only:
    [except Exception] lets them through. *)
Inductive exn :=
| SystemExit (code : Z)
| KeyboardInterrupt
| Error (k : exc_kind).

Inductive result (A : Type) :=
| Ok (a : A)
| Raise (e : exn).
Arguments Ok {A} a.
Arguments Raise {A} e.

Definition exc_kind_eqb (a b : exc_kind) : bool :=
  match a, b with
  | ValueError, ValueError | KeyError, KeyError | IndexError, IndexError
  | TypeError, TypeError | AttributeError, AttributeError
  | UnboundLocalError, UnboundLocalError
  | JSONDecodeError, JSONDecodeError | RequestException, RequestException
  | FileNotFoundError, FileNotFoundError | OSError, OSError => true
  | _, _ => false
  end.

(** Handler clauses used by the source. *)
Definition is_Exception (e : exn) : bool :=
  match e with Error _ => true | _ => false end.

Definition is_kind (k : exc_kind) (e : exn) : bool :=
  match e with Error k' => exc_kind_eqb k k' | _ => false end.

Definition is_KeyboardInterrupt (e : exn) : bool :=
  match e with KeyboardInterrupt => true | _ => false end.

(* ------------------------------------------------------------------ *)
(** *** Strings *)

(** [c in s] for a one-character [c]. *)
Fixpoint contains (c : ascii) (s : string) : bool :=
  match s with
  | EmptyString => false
  | String a s' => Ascii.eqb a c || contains c s'
  end.

(** [s.split(c)]: never returns the empty list. *)
Fixpoint split (c : ascii) (s : string) : list string :=
  match s with
  | EmptyString => [EmptyString]
  | String a s' =>
      if Ascii.eqb a c then EmptyString :: split c s'
      else match split c s' with
           | h :: t => String a h :: t
           | [] => [String a EmptyString]
           end
  end.

(** [s.startswith(p)]. *)
Definition startswith (s p : string) : bool := String.prefix p s.

(** [str(n)] for an int. *)
Definition str_int (z : Z) : string := NilZero.string_of_int (Z.to_int z).

(** [int(x)] for a float [x], which is a rational: truncation towards
    zero. *)
Definition py_int (x : Q) : Z := Z.quot (Qnum x) (Zpos (Qden x)).

Definition is_space (a : ascii) : bool :=
  let n := nat_of_ascii a in
  (Nat.eqb n 32 || (Nat.leb 9 n && Nat.leb n 13) || (Nat.leb 28 n && Nat.leb n 31))%bool.

Fixpoint lstrip (s : string) : string :=
  match s with
  | String a s' => if is_space a then lstrip s' else s
  | EmptyString => EmptyString
  end.

Fixpoint rstrip (s : string) : string :=
  match s with
  | String a s' =>
      match rstrip s' with
      | EmptyString => if is_space a then EmptyString else String a EmptyString
      | r => String a r
      end
  | EmptyString => EmptyString
  end.

(** [s.strip()], for ASCII white space. *)
Definition strip (s : string) : string := rstrip (lstrip s).

Fixpoint join (sep : string) (l : list string) : string :=
  match l with
  | [] => ""
  | [x] => x
  | x :: rest => x ++ sep ++ join sep rest
  end.

(* ------------------------------------------------------------------ *)
(** *** JSON values as Python objects *)

Fixpoint lookup (k : string) (l : list (string * json)) : option json :=
  match l with
  | [] => None
  | (k', v) :: rest => if String.eqb k k' then Some v else lookup k rest
  end.

(** [bool(v)], as [if v:] and [not v] use it. *)
Definition truthy (v : json) : bool :=
  match v with
  | JNull => false
  | JBool b => b
  | JNum z => negb (Z.eqb z 0)
  | JStr s => negb (String.eqb s "")
  | JArr l => match l with [] => false | _ => true end
  | JObj l => match l with [] => false | _ => true end
  end.

(** [v.get(k, default)]: only a dict has [get]. *)
Definition py_get (v : json) (k : string) (default : json) : result json :=
  match v with
  | JObj l => Ok (match lookup k l with Some x => x | None => default end)
  | _ => Raise (Error AttributeError)
  end.

(** [v[k]] for a string key [k]. *)
Definition py_item (v : json) (k : string) : result json :=
  match v with
  | JObj l => match lookup k l with
              | Some x => Ok x
              | None => Raise (Error KeyError)
              end
  | _ => Raise (Error TypeError)
  end.

(** [v[0]]. *)
Definition py_item0 (v : json) : result json :=
  match v with
  | JArr (x :: _) => Ok x
  | JArr [] => Raise (Error IndexError)
  | JStr (String a _) => Ok (JStr (String a EmptyString))
  | JStr EmptyString => Raise (Error IndexError)
  | JObj _ => Raise (Error KeyError)
  | _ => Raise (Error TypeError)
  end.

Fixpoint chars (s : string) : list json :=
  match s with
  | EmptyString => []
  | String a s' => JStr (String a EmptyString) :: chars s'
  end.

(** The items [for x in v] runs over. *)
Definition py_iter (v : json) : result (list json) :=
  match v with
  | JArr l => Ok l
  | JObj l => Ok (map (fun kv => JStr (fst kv)) l)
  | JStr s => Ok (chars s)
  | _ => Raise (Error TypeError)
  end.

(** [repr(v)] inside a container; quotes inside nested strings are not
    escaped. *)
Fixpoint py_repr (v : json) : string :=
  match v with
  | JNull => "None"
  | JBool true => "True"
  | JBool false => "False"
  | JNum z => str_int z
  | JStr s => "'" ++ s ++ "'"
  | JArr l => "[" ++ join ", " (map py_repr l) ++ "]"
  | JObj l =>
      "{" ++ join ", " (map (fun kv => "'" ++ fst kv ++ "': " ++ py_repr (snd kv)) l) ++ "}"
  end.

(** [str(v)], which an f-string applies to [{v}]. *)
Definition py_str (v : json) : string :=
  match v with
  | JStr s => s
  | _ => py_repr v
  end.

(* ================================================================== *)
(** ** The outside world *)

Inductive method := GET | POST | PUT | DELETE.

Definition CLOUDFLARE_API_URL : string := "https://api.cloudflare.com/client/v4".

(** The URLs the program builds.  The ids are kept as the values the
    f-string formats; [url_of] is the string sent. *)
Inductive endpoint :=
| Accounts
| AccountZones (account_id : json)
| CfdTunnels (account_id : json)
| CfdTunnel (account_id tunnel_id : json)
| CfdTunnelToken (account_id tunnel_id : json)
| CfdTunnelConfigurations (account_id tunnel_id : json)
| ZoneDnsRecords (zone_id : json)
| ZoneDnsRecordsNamed (zone_id : json) (name : string)
| ZoneDnsRecord (zone_id dns_id : json).

Definition url_of (ep : endpoint) : string :=
  CLOUDFLARE_API_URL ++
  match ep with
  | Accounts => "/accounts"
  | AccountZones a => "/accounts/" ++ py_str a ++ "/zones"
  | CfdTunnels a => "/accounts/" ++ py_str a ++ "/cfd_tunnel"
  | CfdTunnel a t => "/accounts/" ++ py_str a ++ "/cfd_tunnel/" ++ py_str t
  | CfdTunnelToken a t =>
      "/accounts/" ++ py_str a ++ "/cfd_tunnel/" ++ py_str t ++ "/token"
  | CfdTunnelConfigurations a t =>
      "/accounts/" ++ py_str a ++ "/cfd_tunnel/" ++ py_str t ++ "/configurations"
  | ZoneDnsRecords z => "/zones/" ++ py_str z ++ "/dns_records"
  | ZoneDnsRecordsNamed z n => "/zones/" ++ py_str z ++ "/dns_records?name=" ++ n
  | ZoneDnsRecord z d => "/zones/" ++ py_str z ++ "/dns_records/" ++ py_str d
  end.

Definition headers := list (string * string).

Record response := { status_code : Z; body : option json }.

(** What one [requests] call does: it returns a response or raises. *)
Inductive http_answer :=
| Responds (r : response)
| HttpRaises (k : exc_kind).

(** What a file-system or child-process call does. *)
Inductive os_answer :=
| OsOk
| OsRaises (k : exc_kind).

Inductive read_answer :=
| ReadOk (content : string)
| ReadRaises (k : exc_kind).

(** [process.wait()] ends because the child exits, or is cut short by
    SIGINT. *)
Inductive wait_answer :=
| Exited (returncode : Z)
| Sigint.

Inductive event :=
| EHttp (m : method) (ep : endpoint) (h : headers) (data : option json)
        (ans : http_answer)
| EVersionProbe (ans : os_answer)
| EChoices (picked : string)
| EUrandom (hex : string)
| ETime (t : Q)
| EWrite (path content : string) (ans : os_answer)
| ERead (path : string) (ans : read_answer)
| EPopen (cmd : list string) (ans : os_answer)
| EExists (path : string) (ans : bool)
| ERemove (path : string) (ans : os_answer)
| EPoll (ans : option Z)
| ETerminate (ans : os_answer)
| ECommunicate (ans : os_answer)
| EWait (ans : wait_answer).

(** The environment answers every call, knowing the trace so far. *)
Record env := {
  env_api_key : option string;
  env_http : list event -> method -> endpoint -> headers -> option json -> http_answer;
  env_version_probe : list event -> os_answer;
  env_random : list event -> nat -> nat;
  env_urandom : list event -> string;
  env_time : list event -> Q;
  env_write : list event -> string -> string -> os_answer;
  env_read : list event -> string -> read_answer;
  env_popen : list event -> list string -> os_answer;
  env_exists : list event -> string -> bool;
  env_remove : list event -> string -> os_answer;
  env_poll : list event -> option Z;
  env_terminate : list event -> os_answer;
  env_communicate : list event -> os_answer;
  env_wait : list event -> wait_answer
}.

(** What the nested [cleanup] of [run_cloudflared] closes over. *)
Record closure := {
  c_token_file : string;
  c_account_id : json;
  c_tunnel_id : json;
  c_tunnel_name : string;
  c_debug : bool
}.

(** The interpreter's state: what happened, the [atexit] handlers (last
    registered first) and the SIGINT handler. *)
Record world := {
  w_trace : list event;
  w_atexit : list closure;
  w_sigint : option closure
}.

Definition log (ev : event) (w : world) : world :=
  {| w_trace := w_trace w ++ [ev];
     w_atexit := w_atexit w;
     w_sigint := w_sigint w |}.

Definition initial_world : world :=
  {| w_trace := []; w_atexit := []; w_sigint := None |}.

(* ------------------------------------------------------------------ *)
(** *** State and exceptions *)

Definition M (St A : Type) : Type := St -> result A * St.

Definition ret {St A} (a : A) : M St A := fun s => (Ok a, s).

Definition raise {St A} (e : exn) : M St A := fun s => (Raise e, s).

Definition bind {St A B} (m : M St A) (f : A -> M St B) : M St B :=
  fun s =>
    match m s with
    | (Ok a, s') => f a s'
    | (Raise e, s') => (Raise e, s')
    end.

(** [try: m except <catches> as e: h e]; the state changes made by [m]
    before it raised stay. *)
Definition try_except {St A} (m : M St A) (catches : exn -> bool)
    (h : exn -> M St A) : M St A :=
  fun s =>
    match m s with
    | (Ok a, s') => (Ok a, s')
    | (Raise e, s') => if catches e then h e s' else (Raise e, s')
    end.

Definition lift {St A} (r : result A) : M St A := fun s => (r, s).

Definition sys_exit {St A} (code : Z) : M St A := raise (SystemExit code).

Declare Scope py_scope.
Delimit Scope py_scope with py.
Notation "x <- m ;; k" := (bind m (fun x => k))
  (at level 61, m at next level, right associativity) : py_scope.
Notation "m ;; k" := (bind m (fun _ => k))
  (at level 61, right associativity) : py_scope.
Open Scope py_scope.

(** A statement on the world, run by a function that has locals [F]. *)
Definition in_world {F A} (m : M world A) : M (F * world) A :=
  fun s =>
    let (r, w') := m (snd s) in (r, (fst s, w')).

Definition get_locals {F W} : M (F * W) F := fun s => (Ok (fst s), s).

Definition set_locals {F W} (g : F -> F) : M (F * W) unit :=
  fun s => (Ok tt, (g (fst s), snd s)).

(** A call: the callee runs on fresh locals, which are dropped when it
    returns or raises. *)
Definition call {F A} (init : F) (m : M (F * world) A) : M world A :=
  fun w =>
    let (r, s') := m (init, w) in (r, snd s').

(** [response.json()]. *)
Definition response_json (r : response) : result json :=
  match body r with
  | Some j => Ok j
  | None => Raise (Error JSONDecodeError)
  end.

(* ================================================================== *)
(** ** The program *)

Section Program.

Variable E : env.

(** *** Primitives: one call, one event *)

Definition request (m : method) (ep : endpoint) (h : headers)
    (data : option json) : M world response :=
  fun w =>
    let ans := env_http E (w_trace w) m ep h data in
    let w' := log (EHttp m ep h data ans) w in
    match ans with
    | Responds r => (Ok r, w')
    | HttpRaises k => (Raise (Error k), w')
    end.

Definition os_step (ans : os_answer) (ev : event) : M world unit :=
  fun w =>
    match ans with
    | OsOk => (Ok tt, log ev w)
    | OsRaises k => (Raise (Error k), log ev w)
    end.

(** [subprocess.run(["cloudflared", "--version"], ...)]. *)
Definition version_probe : M world unit :=
  fun w => let ans := env_version_probe E (w_trace w) in os_step ans (EVersionProbe ans) w.

Definition ascii_lowercase : string := "abcdefghijklmnopqrstuvwxyz".

Definition pick (population : string) (n : nat) : string :=
  match String.get (n mod String.length population) population with
  | Some a => String a EmptyString
  | None => EmptyString
  end.

(** [''.join(random.choices(population, k=k))]. *)
Definition random_choices (population : string) (k : nat) : M world string :=
  fun w =>
    let s := String.concat "" (map (fun i => pick population (env_random E (w_trace w) i)) (seq 0 k)) in
    (Ok s, log (EChoices s) w).

(** [os.urandom(32).hex()]. *)
Definition urandom_hex : M world string :=
  fun w => let s := env_urandom E (w_trace w) in (Ok s, log (EUrandom s) w).

(** [time.time()]. *)
Definition time_time : M world Q :=
  fun w => let t := env_time E (w_trace w) in (Ok t, log (ETime t) w).

(** [with open(path, "w") as f: f.write(content)]. *)
Definition open_write (path content : string) : M world unit :=
  fun w => let ans := env_write E (w_trace w) path content in
           os_step ans (EWrite path content ans) w.

(** [with open(path, "r") as f: f.read()]. *)
Definition open_read (path : string) : M world string :=
  fun w =>
    let ans := env_read E (w_trace w) path in
    let w' := log (ERead path ans) w in
    match ans with
    | ReadOk s => (Ok s, w')
    | ReadRaises k => (Raise (Error k), w')
    end.

Definition popen (cmd : list string) : M world unit :=
  fun w => let ans := env_popen E (w_trace w) cmd in os_step ans (EPopen cmd ans) w.

Definition path_exists (path : string) : M world bool :=
  fun w => let b := env_exists E (w_trace w) path in (Ok b, log (EExists path b) w).

Definition os_remove (path : string) : M world unit :=
  fun w => let ans := env_remove E (w_trace w) path in os_step ans (ERemove path ans) w.

(** [process.poll()]: [None] while the child runs. *)
Definition process_poll : M world (option Z) :=
  fun w => let p := env_poll E (w_trace w) in (Ok p, log (EPoll p) w).

Definition process_terminate : M world unit :=
  fun w => let ans := env_terminate E (w_trace w) in os_step ans (ETerminate ans) w.

(** [process.communicate()] and the decoding of what it captured. *)
Definition process_communicate : M world unit :=
  fun w => let ans := env_communicate E (w_trace w) in os_step ans (ECommunicate ans) w.

Definition atexit_register (c : closure) : M world unit :=
  fun w => (Ok tt, {| w_trace := w_trace w;
                      w_atexit := c :: w_atexit w;
                      w_sigint := w_sigint w |}).

Definition signal_sigint (c : closure) : M world unit :=
  fun w => (Ok tt, {| w_trace := w_trace w;
                      w_atexit := w_atexit w;
                      w_sigint := Some c |}).

Fixpoint for_each {St A} (l : list A) (body : A -> M St unit) : M St unit :=
  match l with
  | [] => ret tt
  | x :: rest => body x ;; for_each rest body
  end.

(** *** Credentials *)

Definition get_api_key : result string :=
  match env_api_key E with
  | Some api_key =>
      if String.eqb api_key "" then Raise (SystemExit 1) else Ok api_key
  | None => Raise (SystemExit 1)
  end.

Definition get_headers : result headers :=
  match get_api_key with
  | Raise e => Raise e
  | Ok api_key =>
      if contains "@" api_key || contains "." api_key then
        match split ":" api_key with
        | [email; key] =>
            Ok [("X-Auth-Email", email);
                ("X-Auth-Key", key);
                ("Content-Type", "application/json")]
        | _ => Raise (Error ValueError)
        end
      else
        Ok [("Authorization", "Bearer " ++ api_key);
            ("Content-Type", "application/json")]
  end.

(** *** Provisioning *)

Definition get_account_id : M world json :=
  headers <- lift get_headers ;;
  response <- request GET Accounts headers None ;;
  if negb (status_code response =? 200) then sys_exit 1
  else
    j <- lift (response_json response) ;;
    accounts <- lift (py_get j "result" (JArr [])) ;;
    if negb (truthy accounts) then sys_exit 1
    else
      first <- lift (py_item0 accounts) ;;
      lift (py_item first "id").

(** [with open(token_file, "w") as f: f.write(tunnel_token)]: the file is
    opened, and emptied, before [write] rejects a value that is no [str]. *)
Definition save_token (token_file : string) (tunnel_token : json) : M world unit :=
  match tunnel_token with
  | JStr s => open_write token_file s
  | _ => open_write token_file "" ;; raise (Error TypeError)
  end.

Definition create_tunnel_with_credentials (account_id : json)
    (tunnel_name : string) (debug : bool) : M world (json * string) :=
  headers <- lift get_headers ;;
  tunnel_secret <- urandom_hex ;;
  let data := JObj [("name", JStr tunnel_name);
                    ("tunnel_secret", JStr tunnel_secret)] in
  response <- request POST (CfdTunnels account_id) headers (Some data) ;;
  if negb (status_code response =? 200) then sys_exit 1
  else
    j <- lift (response_json response) ;;
    result <- lift (py_get j "result" (JObj [])) ;;
    tunnel_id <- lift (py_get result "id" JNull) ;;
    if negb (truthy tunnel_id) then sys_exit 1
    else
      token_response <-
        request GET (CfdTunnelToken account_id tunnel_id) headers None ;;
      if negb (status_code token_response =? 200) then sys_exit 1
      else
        tj <- lift (response_json token_response) ;;
        tunnel_token <- lift (py_get tj "result" JNull) ;;
        if negb (truthy tunnel_token) then sys_exit 1
        else
          let token_file :=
            "/tmp/cloudflared_token_" ++ py_str tunnel_id ++ ".txt" in
          save_token token_file tunnel_token ;;
          ret (tunnel_id, token_file).

Definition default_domain : json := JStr "trycloudflare.com".

Definition get_account_domain (account_id : json) (debug : bool) : M world json :=
  headers <- lift get_headers ;;
  response <- request GET (AccountZones account_id) headers None ;;
  let domain := default_domain in
  try_except
    (if status_code response =? 200 then
       result <- lift (response_json response) ;;
       zones <- lift (py_get result "result" (JArr [])) ;;
       if truthy zones then
         first <- lift (py_item0 zones) ;;
         domain <- lift (py_item first "name") ;;
         ret domain
       else ret domain
     else ret domain)
    is_Exception
    (fun _ => ret domain).

(** The zone id written into the source. *)
Definition hardcoded_zone_id : string := "a2dbaff918c783a734197864e6cb7190".

Definition ingress_config (hostname local_addr : string) (port : Z) : json :=
  JObj [("config",
    JObj [("ingress",
      JArr [JObj [("hostname", JStr hostname);
                  ("service", JStr ("http://" ++ local_addr ++ ":" ++ str_int port))];
            JObj [("service", JStr "http_status:404")]])])].

Definition dns_data (tunnel_id : json) (tunnel_name : string) : json :=
  JObj [("type", JStr "CNAME");
        ("name", JStr tunnel_name);
        ("content", JStr (py_str tunnel_id ++ ".cfargotunnel.com"));
        ("ttl", JNum 1);
        ("proxied", JBool true)].

Definition create_tunnel_config (account_id tunnel_id : json)
    (tunnel_name : string) (port : Z) (local_addr : string)
    (custom_domain : option string) (debug : bool) : M world (string * option string) :=
  domain <- get_account_domain account_id debug ;;
  let hostname := tunnel_name ++ "." ++ py_str domain in
  headers <- lift get_headers ;;
  let config_data := ingress_config hostname local_addr port in
  response <- request PUT (CfdTunnelConfigurations account_id tunnel_id)
                headers (Some config_data) ;;
  let zone_id := hardcoded_zone_id in
  try_except
    (dns_response <- request POST (ZoneDnsRecords (JStr zone_id)) headers
                       (Some (dns_data tunnel_id tunnel_name)) ;;
     ret tt)
    is_Exception
    (fun _ => ret tt) ;;
  ret (hostname, None).

(** *** Teardown *)

(** The locals of [delete_tunnel_and_dns] that are assigned under a
    [try]; [all_zones] is unbound until its first assignment. *)
Record locals := {
  all_zones : option json;
  dns_records_deleted : nat;
  tunnel_deleted : bool
}.

Definition no_locals : locals :=
  {| all_zones := None; dns_records_deleted := 0%nat; tunnel_deleted := false |}.

Definition assign_all_zones {W} (v : json) : M (locals * W) unit :=
  set_locals (fun l => {| all_zones := Some v;
                          dns_records_deleted := dns_records_deleted l;
                          tunnel_deleted := tunnel_deleted l |}).

Definition read_all_zones {W} : M (locals * W) json :=
  l <- get_locals ;;
  match all_zones l with
  | Some v => ret v
  | None => raise (Error UnboundLocalError)
  end.

Definition count_deleted {W} : M (locals * W) unit :=
  set_locals (fun l => {| all_zones := all_zones l;
                          dns_records_deleted := S (dns_records_deleted l);
                          tunnel_deleted := tunnel_deleted l |}).

Definition assign_tunnel_deleted {W} (b : bool) : M (locals * W) unit :=
  set_locals (fun l => {| all_zones := all_zones l;
                          dns_records_deleted := dns_records_deleted l;
                          tunnel_deleted := b |}).

(** [if zone_id:] for the optional argument. *)
Definition given (zone_id : option string) : bool :=
  match zone_id with
  | Some z => negb (String.eqb z "")
  | None => false
  end.

Definition single_zone (zone_id : option string) : json :=
  JArr [JObj [("id", match zone_id with Some z => JStr z | None => JNull end);
              ("name", JStr "unknown")]].

(** Step 1: the account's zones, or the one zone given. *)
Definition list_zones (account_id : json) (zone_id : option string)
    (headers : headers) : M (locals * world) unit :=
  try_except
    (zones_response <- in_world (request GET (AccountZones account_id) headers None) ;;
     assign_all_zones (JArr []) ;;
     if status_code zones_response =? 200 then
       zones_data <- lift (response_json zones_response) ;;
       r <- lift (py_get zones_data "result" (JArr [])) ;;
       assign_all_zones r
     else if given zone_id then assign_all_zones (single_zone zone_id)
     else ret tt)
    is_Exception
    (fun _ => if given zone_id then assign_all_zones (single_zone zone_id)
              else ret tt) ;;
  zones <- read_all_zones ;;
  if negb (truthy zones) && given zone_id
  then assign_all_zones (single_zone zone_id)
  else ret tt.

(** One DELETE of a DNS record, counted when it is answered 200. *)
Definition delete_record (current_zone_id dns_id : json) (headers : headers)
  : M (locals * world) unit :=
  delete_dns_response <-
    in_world (request DELETE (ZoneDnsRecord current_zone_id dns_id) headers None) ;;
  if status_code delete_dns_response =? 200 then count_deleted else ret tt.

(** [record_name.startswith(f"{tunnel_name}.") or record_name == tunnel_name]. *)
Definition begins_with_tunnel_name (record_name : json) (tunnel_name : string)
  : result bool :=
  match record_name with
  | JStr s => Ok (startswith s (tunnel_name ++ ".") || String.eqb s tunnel_name)
  | _ => Raise (Error AttributeError)
  end.

(** The records the name query returned. *)
Definition delete_exact (current_zone_id : json) (tunnel_name : string)
    (headers : headers) : M (locals * world) unit :=
  dns_list_response <-
    in_world (request GET (ZoneDnsRecordsNamed current_zone_id tunnel_name) headers None) ;;
  if status_code dns_list_response =? 200 then
    j <- lift (response_json dns_list_response) ;;
    dns_records <- lift (py_get j "result" (JArr [])) ;;
    if truthy dns_records then
      records <- lift (py_iter dns_records) ;;
      for_each records (fun record =>
        dns_id <- lift (py_item record "id") ;;
        record_name <- lift (py_get record "name" (JStr "unknown")) ;;
        delete_record current_zone_id dns_id headers)
    else ret tt
  else ret tt.

(** The records of the zone that begin with the tunnel name. *)
Definition delete_prefixed (current_zone_id : json) (tunnel_name : string)
    (headers : headers) : M (locals * world) unit :=
  if negb (contains "." tunnel_name) then
    dns_list_response <-
      in_world (request GET (ZoneDnsRecords current_zone_id) headers None) ;;
    if status_code dns_list_response =? 200 then
      j <- lift (response_json dns_list_response) ;;
      all_dns_records <- lift (py_get j "result" (JArr [])) ;;
      records <- lift (py_iter all_dns_records) ;;
      for_each records (fun record =>
        record_name <- lift (py_get record "name" (JStr "")) ;;
        b <- lift (begins_with_tunnel_name record_name tunnel_name) ;;
        if b : bool then
          dns_id <- lift (py_item record "id") ;;
          delete_record current_zone_id dns_id headers
        else ret tt)
    else ret tt
  else ret tt.

(** The body of [for zone in all_zones]. *)
Definition scan_zone (tunnel_name : string) (headers : headers) (zone : json)
  : M (locals * world) unit :=
  current_zone_id <- lift (py_item zone "id") ;;
  zone_name <- lift (py_get zone "name" (JStr "unknown")) ;;
  try_except
    (delete_exact current_zone_id tunnel_name headers ;;
     delete_prefixed current_zone_id tunnel_name headers)
    is_Exception
    (fun _ => ret tt).

(** Step 3: the tunnel itself. *)
Definition delete_tunnel (account_id tunnel_id : json) (headers : headers)
  : M (locals * world) unit :=
  try_except
    (delete_tunnel_response <-
       in_world (request DELETE (CfdTunnel account_id tunnel_id) headers None) ;;
     if status_code delete_tunnel_response =? 200
     then assign_tunnel_deleted true
     else ret tt)
    is_Exception
    (fun _ => ret tt).

Definition delete_tunnel_and_dns_body (account_id tunnel_id : json)
    (tunnel_name : string) (zone_id : option string) (debug : bool)
  : M (locals * world) nat :=
  headers <- lift get_headers ;;
  list_zones account_id zone_id headers ;;
  zones <- read_all_zones ;;
  items <- lift (py_iter zones) ;;
  for_each items (scan_zone tunnel_name headers) ;;
  delete_tunnel account_id tunnel_id headers ;;
  l <- get_locals ;;
  ret (dns_records_deleted l).

Definition delete_tunnel_and_dns (account_id tunnel_id : json)
    (tunnel_name : string) (zone_id : option string) (debug : bool)
  : M world nat :=
  call no_locals
    (delete_tunnel_and_dns_body account_id tunnel_id tunnel_name zone_id debug).

(** The nested [cleanup] of [run_cloudflared]. *)
Definition cleanup (c : closure) : M world unit :=
  present <- path_exists (c_token_file c) ;;
  (if present : bool then os_remove (c_token_file c) else ret tt) ;;
  running <- process_poll ;;
  (match running with
   | None => process_terminate
   | Some _ => ret tt
   end) ;;
  dns_records_deleted <-
    delete_tunnel_and_dns (c_account_id c) (c_tunnel_id c) (c_tunnel_name c)
      (Some hardcoded_zone_id) (c_debug c) ;;
  ret tt.

Definition signal_handler (c : closure) : M world unit :=
  cleanup c ;;
  sys_exit 0.

(** *** The tunnel client *)

Definition run_cloudflared (token_file : string) (config_file : option string)
    (tunnel_id account_id : json) (tunnel_name : string) (debug : bool)
  : M world unit :=
  content <- open_read token_file ;;
  let token := strip content in
  let cmd := ["cloudflared"; "tunnel"; "run"; "--token"; token] in
  popen cmd ;;
  let c := {| c_token_file := token_file;
              c_account_id := account_id;
              c_tunnel_id := tunnel_id;
              c_tunnel_name := tunnel_name;
              c_debug := debug |} in
  atexit_register c ;;
  signal_sigint c ;;
  (if debug then
     running <- process_poll ;;
     match running with
     | Some _ => process_communicate
     | None => ret tt
     end
   else ret tt).

(** [process.wait()]: a SIGINT that arrives meanwhile runs the installed
    handler inside the call. *)
Definition process_wait : M world unit :=
  fun w =>
    let ans := env_wait E (w_trace w) in
    let w' := log (EWait ans) w in
    match ans with
    | Exited _ => (Ok tt, w')
    | Sigint =>
        match w_sigint w' with
        | Some c => signal_handler c w'
        | None => (Raise KeyboardInterrupt, w')
        end
    end.

Definition check_cloudflared_installed : M world bool :=
  try_except
    (version_probe ;; ret true)
    (is_kind FileNotFoundError)
    (fun _ => ret false).

Definition install_instructions {A} : M world A := sys_exit 1.

(** *** main *)

Record args := {
  arg_tunnel_name : option string;
  arg_port : Z;
  arg_domain : option string;
  arg_debug : bool;
  arg_local_addr : string;
  arg_no_timestamp : bool
}.

(** [try: m except c1: h1 except c2: h2]: what a handler raises is not
    offered to the other clause. *)
Definition try_except2 {St A} (m : M St A)
    (c1 : exn -> bool) (h1 : exn -> M St A)
    (c2 : exn -> bool) (h2 : exn -> M St A) : M St A :=
  fun s =>
    match m s with
    | (Ok a, s') => (Ok a, s')
    | (Raise e, s') =>
        if c1 e then h1 e s'
        else if c2 e then h2 e s'
        else (Raise e, s')
    end.

(** The name of the tunnel: [(base_name, tunnel_name)]. *)
Definition choose_name (a : args) : M world (string * string) :=
  match arg_tunnel_name a with
  | None =>
      random_name <- random_choices ascii_lowercase 8 ;;
      ret (random_name, random_name)
  | Some base_name =>
      if arg_no_timestamp a then ret (base_name, base_name)
      else
        now <- time_time ;;
        let timestamp := py_int now in
        ret (base_name, base_name ++ "-" ++ str_int timestamp)
  end.

Definition provision_and_run (a : args) (tunnel_name : string) : M world unit :=
  let debug := arg_debug a in
  api_key <- lift get_api_key ;;
  account_id <- get_account_id ;;
  created <- create_tunnel_with_credentials account_id tunnel_name debug ;;
  let tunnel_id := fst created in
  let token_file := snd created in
  configured <- create_tunnel_config account_id tunnel_id tunnel_name
                  (arg_port a) (arg_local_addr a) (arg_domain a) debug ;;
  run_cloudflared token_file None tunnel_id account_id tunnel_name debug ;;
  try_except process_wait is_KeyboardInterrupt (fun _ => sys_exit 0).

Definition main (a : args) : M world unit :=
  installed <- check_cloudflared_installed ;;
  (if negb installed then install_instructions else ret tt) ;;
  names <- choose_name a ;;
  let tunnel_name := snd names in
  try_except2 (provision_and_run a tunnel_name)
    (is_kind RequestException) (fun _ => sys_exit 1)
    is_Exception (fun _ => sys_exit 1).

(** *** The process *)

(** The handlers registered with [atexit] run when the interpreter exits;
    what they raise is reported and dropped. *)
Fixpoint run_atexit (handlers : list closure) (w : world) : world :=
  match handlers with
  | [] => w
  | c :: rest => run_atexit rest (snd (cleanup c w))
  end.

Definition exit_code (r : result unit) : Z :=
  match r with
  | Ok _ => 0
  | Raise (SystemExit code) => code
  | Raise KeyboardInterrupt => 130
  | Raise (Error _) => 1
  end.

(** One run of the tool: its exit code and everything it did. *)
Definition run (a : args) : Z * world :=
  let (r, w) := main a initial_world in
  (exit_code r, run_atexit (w_atexit w) w).

End Program.

(* ================================================================== *)
(** ** Concrete environments *)

Module Scenario.

(** Has the trace a successful DELETE of a DNS record, of the tunnel? *)
Definition dns_deleted (tr : list event) : bool :=
  existsb (fun ev =>
    match ev with
    | EHttp DELETE (ZoneDnsRecord _ _) _ _ (Responds r) => status_code r =? 200
    | _ => false
    end) tr.

Definition tunnel_gone (tr : list event) : bool :=
  existsb (fun ev =>
    match ev with
    | EHttp DELETE (CfdTunnel _ _) _ _ (Responds r) => status_code r =? 200
    | _ => false
    end) tr.

Definition terminated (tr : list event) : bool :=
  existsb (fun ev => match ev with ETerminate _ => true | _ => false end) tr.

Fixpoint file_content (tr : list event) (path : string) (now : option string)
  : option string :=
  match tr with
  | [] => now
  | EWrite p c OsOk :: rest =>
      file_content rest path (if String.eqb p path then Some c else now)
  | ERemove p OsOk :: rest =>
      file_content rest path (if String.eqb p path then None else now)
  | _ :: rest => file_content rest path now
  end.

Definition ok (j : json) : http_answer :=
  Responds {| status_code := 200; body := Some j |}.

Definition not_found : http_answer :=
  Responds {| status_code := 404; body := Some (JObj [("success", JBool false)]) |}.

(** An account with one zone, [zone_name], holding the records [records]
    until one of them has been deleted; the name query finds nothing. *)
Definition cloudflare (zone_name : string) (records : list json)
    (tr : list event) (m : method) (ep : endpoint) (h : headers)
    (data : option json) : http_answer :=
  match m, ep with
  | GET, Accounts => ok (JObj [("result", JArr [JObj [("id", JStr "acc1")]])])
  | POST, CfdTunnels _ => ok (JObj [("result", JObj [("id", JStr "tun1")])])
  | GET, CfdTunnelToken _ _ => ok (JObj [("result", JStr "eyJhIjoi")])
  | GET, AccountZones _ =>
      ok (JObj [("result", JArr [JObj [("id", JStr "z1"); ("name", JStr zone_name)]])])
  | PUT, CfdTunnelConfigurations _ _ => ok (JObj [("success", JBool true)])
  | POST, ZoneDnsRecords _ => ok (JObj [("success", JBool true)])
  | GET, ZoneDnsRecordsNamed _ _ => ok (JObj [("result", JArr [])])
  | GET, ZoneDnsRecords _ =>
      ok (JObj [("result", JArr (if dns_deleted tr then [] else records))])
  | DELETE, ZoneDnsRecord _ _ => if dns_deleted tr then not_found else ok (JObj [])
  | DELETE, CfdTunnel _ _ => if tunnel_gone tr then not_found else ok (JObj [])
  | _, _ => not_found
  end.

Definition make_env (key : option string)
    (http : list event -> method -> endpoint -> headers -> option json -> http_answer)
    (now : Q) (wait : wait_answer) : env :=
  {| env_api_key := key;
     env_http := http;
     env_version_probe := fun _ => OsOk;
     env_random := fun _ i => (7 * i + 3)%nat;
     env_urandom := fun _ => "00112233445566778899aabbccddeeff00112233445566778899aabbccddeeff";
     env_time := fun _ => now;
     env_write := fun _ _ _ => OsOk;
     env_read := fun tr path =>
       match file_content tr path None with
       | Some c => ReadOk c
       | None => ReadRaises FileNotFoundError
       end;
     env_popen := fun _ _ => OsOk;
     env_exists := fun tr path =>
       match file_content tr path None with Some _ => true | None => false end;
     env_remove := fun _ _ => OsOk;
     env_poll := fun tr => if terminated tr then Some (-15) else None;
     env_terminate := fun _ => OsOk;
     env_communicate := fun _ => OsOk;
     env_wait := fun _ => wait |}.

(** An environment in which only the key matters. *)
Definition with_key (key : string) : env :=
  make_env (Some key) (fun _ _ _ _ _ => not_found) 0 (Exited 0).

(** The zones request answered by [ans], everything else as [cloudflare]. *)
Definition zones_answer (ans : http_answer) : env :=
  make_env (Some "tok")
    (fun tr m ep h d =>
       match m, ep with
       | GET, AccountZones _ => ans
       | _, _ => cloudflare "example.com" [] tr m ep h d
       end) 0 (Exited 0).

Definition demo_args (name : option string) (no_timestamp : bool) : args :=
  {| arg_tunnel_name := name;
     arg_port := 8080;
     arg_domain := None;
     arg_debug := false;
     arg_local_addr := "localhost";
     arg_no_timestamp := no_timestamp |}.

(** A run named "demo" at time [now], interrupted by Ctrl-C. *)
Definition interrupted (now : Q) : env :=
  make_env (Some "tok")
    (cloudflare "example.com"
       [JObj [("id", JStr "r1"); ("name", JStr "demo-1700000000.example.com")]])
    now Sigint.

End Scenario.

(* ================================================================== *)
(** ** Vocabulary of the statements *)

(** *** Credentials, names, domains *)

Definition is_lower (a : ascii) : bool :=
  let n := nat_of_ascii a in (Nat.leb 97 n && Nat.leb n 122)%bool.

Fixpoint all_chars (p : ascii -> bool) (s : string) : bool :=
  match s with
  | EmptyString => true
  | String a s' => p a && all_chars p s'
  end.

Definition auth_key_headers (email key : string) : headers :=
  [("X-Auth-Email", email); ("X-Auth-Key", key);
   ("Content-Type", "application/json")].

Definition bearer_headers (api_key : string) : headers :=
  [("Authorization", "Bearer " ++ api_key);
   ("Content-Type", "application/json")].

Definition has_at_or_dot (s : string) : bool := contains "@" s || contains "." s.

(** The rule as the specification words it, for the secret [s]: with an
    [@] or a [.], two non-empty parts give the key headers and anything
    else is a failure; without, the bearer header. *)
Definition resolver_rule (E : env) (s : string) : Prop :=
  (has_at_or_dot s = true ->
     (forall email key, split ":" s = [email; key] -> email <> "" -> key <> "" ->
        get_headers E = Ok (auth_key_headers email key)) /\
     ((forall email key, split ":" s = [email; key] -> email = "" \/ key = "") ->
        exists e, get_headers E = Raise e)) /\
  (has_at_or_dot s = false -> get_headers E = Ok (bearer_headers s)).

(** The tunnel name [main] goes on with. *)
Definition tunnel_name_of (E : env) (a : args) (w : world) : result string :=
  match fst (choose_name E a w) with
  | Ok names => Ok (snd names)
  | Raise e => Raise e
  end.

(** The clock reading of a run that starts in [w]. *)
Definition started_at (E : env) (w : world) : Q := env_time E (w_trace w).

(** The naming rule as the specification words it, for two runs [E1] and
    [E2] of the same command line. *)
Definition naming_rule (E1 E2 : env) (a : args) : Prop :=
  let w := initial_world in
  (forall base, arg_tunnel_name a = Some base -> arg_no_timestamp a = false ->
     tunnel_name_of E1 a w
       = Ok (base ++ "-" ++ str_int (py_int (started_at E1 w))) /\
     (~ (started_at E1 w == started_at E2 w)%Q ->
      tunnel_name_of E1 a w <> tunnel_name_of E2 a w)) /\
  (forall base, arg_tunnel_name a = Some base -> arg_no_timestamp a = true ->
     tunnel_name_of E1 a w = Ok base) /\
  (arg_tunnel_name a = None ->
     exists s, tunnel_name_of E1 a w = Ok s /\
       String.length s = 8%nat /\ all_chars is_lower s = true).

(** Totality as the specification words it: whatever the zones request is
    answered, the result is a non-empty domain string. *)
Definition domain_always_nonempty (E : env) (account_id : json) (w : world)
  : Prop :=
  forall h r,
    get_headers E = Ok h ->
    env_http E (w_trace w) GET (AccountZones account_id) h None = Responds r ->
    exists d, fst (get_account_domain E account_id false w) = Ok (JStr d) /\
              d <> "".

(** *** Properties of statements *)

Class Traced (St : Type) := trace_of : St -> list event.

#[export] Instance traced_world : Traced world := w_trace.

#[export] Instance traced_locals (F : Type) : Traced (F * world) :=
  fun s => w_trace (snd s).

(** [m] only appends events, and each of them satisfies [P]. *)
Definition emits {St : Type} {T : Traced St} (P : event -> Prop) {A}
    (m : M St A) : Prop :=
  forall s, exists evs,
    trace_of (snd (m s)) = (trace_of s ++ evs)%list /\ Forall P evs.

(** *** The events a part of the program can add *)

(** Before a tunnel exists. *)
Inductive startup_event : event -> Prop :=
| su_probe ans : startup_event (EVersionProbe ans)
| su_choices s : startup_event (EChoices s)
| su_time t : startup_event (ETime t)
| su_accounts h ans : startup_event (EHttp GET Accounts h None ans).

(** [create_tunnel_with_credentials]. *)
Inductive create_event (account_id : json) : event -> Prop :=
| cr_urandom s : create_event account_id (EUrandom s)
| cr_post h d ans :
    create_event account_id (EHttp POST (CfdTunnels account_id) h (Some d) ans)
| cr_token t h ans :
    create_event account_id (EHttp GET (CfdTunnelToken account_id t) h None ans)
| cr_write p c ans : create_event account_id (EWrite p c ans).

(** [create_tunnel_config]. *)
Inductive config_event (account_id tunnel_id : json) (tunnel_name : string)
    (port : Z) (local_addr : string) : event -> Prop :=
| cf_zones h ans :
    config_event account_id tunnel_id tunnel_name port local_addr
      (EHttp GET (AccountZones account_id) h None ans)
| cf_put domain h ans :
    config_event account_id tunnel_id tunnel_name port local_addr
      (EHttp PUT (CfdTunnelConfigurations account_id tunnel_id) h
         (Some (ingress_config (tunnel_name ++ "." ++ py_str domain) local_addr port))
         ans)
| cf_dns h ans :
    config_event account_id tunnel_id tunnel_name port local_addr
      (EHttp POST (ZoneDnsRecords (JStr hardcoded_zone_id)) h
         (Some (dns_data tunnel_id tunnel_name)) ans).

(** [run_cloudflared]. *)
Inductive launch_event : event -> Prop :=
| la_read p ans : launch_event (ERead p ans)
| la_popen cmd ans : launch_event (EPopen cmd ans)
| la_poll p : launch_event (EPoll p)
| la_communicate ans : launch_event (ECommunicate ans).

(** [cleanup], for what it closed over. *)
Inductive teardown_event (c : closure) : event -> Prop :=
| td_exists b : teardown_event c (EExists (c_token_file c) b)
| td_remove ans : teardown_event c (ERemove (c_token_file c) ans)
| td_poll p : teardown_event c (EPoll p)
| td_terminate ans : teardown_event c (ETerminate ans)
| td_zones h ans :
    teardown_event c (EHttp GET (AccountZones (c_account_id c)) h None ans)
| td_named z h ans :
    teardown_event c
      (EHttp GET (ZoneDnsRecordsNamed z (c_tunnel_name c)) h None ans)
| td_records z h ans :
    teardown_event c (EHttp GET (ZoneDnsRecords z) h None ans)
| td_delete_record z d h ans :
    teardown_event c (EHttp DELETE (ZoneDnsRecord z d) h None ans)
| td_delete_tunnel h ans :
    teardown_event c
      (EHttp DELETE (CfdTunnel (c_account_id c) (c_tunnel_id c)) h None ans).

(** After the launch: the wait, and teardown for some closure. *)
Inductive wait_event : event -> Prop :=
| wa_wait ans : wait_event (EWait ans)
| wa_teardown c ev : teardown_event c ev -> wait_event ev.

(** Everything a run can do, for the command line [a]. *)
Inductive run_event (a : args) : event -> Prop :=
| re_startup ev : startup_event ev -> run_event a ev
| re_create account_id ev : create_event account_id ev -> run_event a ev
| re_config account_id tunnel_id tunnel_name ev :
    config_event account_id tunnel_id tunnel_name (arg_port a) (arg_local_addr a) ev ->
    run_event a ev
| re_launch ev : launch_event ev -> run_event a ev
| re_wait ev : wait_event ev -> run_event a ev.

Definition pure {St A} (m : M St A) : Prop := forall s, snd (m s) = s.

(** The ingress configuration with its two rules written out. *)
Definition two_rules (hostname target : string) : json :=
  JObj [("config",
    JObj [("ingress",
      JArr [JObj [("hostname", JStr hostname); ("service", JStr target)];
            JObj [("service", JStr "http_status:404")]])])].

(** The events a statement added between [w] and [w']. *)
Definition added (w w' : world) : list event :=
  skipn (List.length (w_trace w)) (w_trace w').

Definition is_dns_create (ev : event) : bool :=
  match ev with
  | EHttp POST (ZoneDnsRecords _) _ _ _ => true
  | _ => false
  end.

(** The DNS record as the specification words it: one CNAME record,
    proxied, with automatic TTL, pointing at the tunnel, and named by the
    public hostname that [create_tunnel_config] returns. *)
Definition dns_record_rule (E : env) (account_id tunnel_id : json)
    (tunnel_name : string) (a : args) (w : world) : Prop :=
  forall hostname config_file w',
    create_tunnel_config E account_id tunnel_id tunnel_name (arg_port a)
      (arg_local_addr a) (arg_domain a) (arg_debug a) w
      = (Ok (hostname, config_file), w') ->
    exists zone h d ans,
      filter is_dns_create (added w w')
        = [EHttp POST (ZoneDnsRecords zone) h (Some d) ans] /\
      py_item d "type" = Ok (JStr "CNAME") /\
      py_item d "proxied" = Ok (JBool true) /\
      py_item d "ttl" = Ok (JNum 1) /\
      py_item d "content" = Ok (JStr (py_str tunnel_id ++ ".cfargotunnel.com")) /\
      py_item d "name" = Ok (JStr hostname).

(** The token request was answered, with a status other than 200. *)
Definition bad_token_fetch (ev : event) : Prop :=
  match ev with
  | EHttp GET (CfdTunnelToken _ _) _ _ (Responds r) => status_code r <> 200
  | _ => False
  end.

(** Neither a write of a file nor a launch of the tunnel client. *)
Definition no_launch (ev : event) : Prop :=
  match ev with
  | EWrite _ _ _ | EPopen _ _ => False
  | _ => True
  end.

(** What follows the creation of the tunnel. *)
Inductive after_create_event : event -> Prop :=
| ac_config account_id tunnel_id tunnel_name port local_addr ev :
    config_event account_id tunnel_id tunnel_name port local_addr ev ->
    after_create_event ev
| ac_launch ev : launch_event ev -> after_create_event ev
| ac_wait ev : wait_event ev -> after_create_event ev.

(** The token request refused with 403; otherwise as [cloudflare]. *)
Definition token_refused : env :=
  Scenario.make_env (Some "tok")
    (fun tr m ep h d =>
       match m, ep with
       | GET, CfdTunnelToken _ _ =>
           Responds {| status_code := 403; body := None |}
       | _, _ => Scenario.cloudflare "example.com" [] tr m ep h d
       end) 0 (Exited 0).

(** [m] raises nothing but exceptions in [Q]. *)
Definition raises {St A} (Q : exn -> Prop) (m : M St A) : Prop :=
  forall s e, fst (m s) = Raise e -> Q e.

(** Derived from [Exception]: what [except Exception] catches. *)
Definition ordinary (e : exn) : Prop := is_Exception e = true.

(** Nothing at all. *)
Definition nothing (e : exn) : Prop := False.

(** A zone, or a record, that carries an id. *)
Definition has_id (v : json) : Prop := exists id, py_item v "id" = Ok id.

(** The zones the server lists are objects with an id. *)
Definition zones_carry_ids (E : env) : Prop :=
  forall tr account_id h r j zones,
    env_http E tr GET (AccountZones account_id) h None = Responds r ->
    status_code r = 200 -> body r = Some j ->
    py_get j "result" (JArr []) = Ok zones -> truthy zones = true ->
    exists items, zones = JArr items /\ Forall has_id items.

(** As [E], but the token file cannot be removed. *)
Definition removal_denied (E : env) : env :=
  {| env_api_key := env_api_key E;
     env_http := env_http E;
     env_version_probe := env_version_probe E;
     env_random := env_random E;
     env_urandom := env_urandom E;
     env_time := env_time E;
     env_write := env_write E;
     env_read := env_read E;
     env_popen := env_popen E;
     env_exists := env_exists E;
     env_remove := fun _ _ => OsRaises OSError;
     env_poll := env_poll E;
     env_terminate := env_terminate E;
     env_communicate := env_communicate E;
     env_wait := env_wait E |}.

Definition is_tunnel_delete (ev : event) : bool :=
  match ev with
  | EHttp DELETE (CfdTunnel _ _) _ _ _ => true
  | _ => false
  end.

(** Best effort as the specification words it, for a run that launched
    the client and was interrupted: whatever step fails, the tunnel is
    still asked to be deleted, and the exit code stays 0. *)
Definition best_effort (E : env) (a : args) : Prop :=
  In (EWait Sigint) (w_trace (snd (run E a))) ->
  existsb is_tunnel_delete (w_trace (snd (run E a))) = true /\
  fst (run E a) = 0.

(** Every DNS listing fails on the network and the tunnel DELETE is
    answered 500. *)
Definition dns_down : env :=
  Scenario.make_env (Some "tok")
    (fun tr m ep h d =>
       match m, ep with
       | GET, ZoneDnsRecordsNamed _ _ => HttpRaises RequestException
       | DELETE, CfdTunnel _ _ => Responds {| status_code := 500; body := None |}
       | _, _ => Scenario.cloudflare "example.com" [] tr m ep h d
       end) 0 Sigint.

Definition demo_closure : closure :=
  {| c_token_file := "/tmp/cloudflared_token_tun1.txt";
     c_account_id := JStr "acc1";
     c_tunnel_id := JStr "tun1";
     c_tunnel_name := "demo-1700000000";
     c_debug := false |}.

(** No DELETE is sent twice to the same URL. *)
Definition deletes_once (tr : list event) : Prop :=
  forall i j ep h1 d1 a1 h2 d2 a2,
    (i < j)%nat ->
    nth_error tr i = Some (EHttp DELETE ep h1 d1 a1) ->
    nth_error tr j = Some (EHttp DELETE ep h2 d2 a2) ->
    False.

(** At most once, as the specification words it, for an interrupted
    run. *)
Definition teardown_once (E : env) (a : args) : Prop :=
  In (EWait Sigint) (w_trace (snd (run E a))) ->
  deletes_once (w_trace (snd (run E a))).

(** How many events of [evs] satisfy [f]. *)
Definition occurrences (f : event -> bool) (evs : list event) : nat :=
  List.length (filter f evs).

Definition tunnel_deletes (evs : list event) : nat :=
  occurrences is_tunnel_delete evs.

Definition never (f : event -> bool) (ev : event) : Prop := f ev = false.

(** [m] adds at most one event that satisfies [f], and one when it
    returns. *)
Definition once {St : Type} {T : Traced St} (f : event -> bool) {A}
    (m : M St A) : Prop :=
  forall s, exists evs,
    trace_of (snd (m s)) = (trace_of s ++ evs)%list /\
    (occurrences f evs <= 1)%nat /\
    (forall a, fst (m s) = Ok a -> occurrences f evs = 1%nat).

(** The scan of a zone as the specification words it: of the records the
    zone holds, those named by the public hostname, and those whose name
    starts with the tunnel name and a dot, get a DELETE. *)
Definition scan_rule (E : env) (tunnel_name hostname : string) (h : headers)
    (zone : json) (records : list json) : Prop :=
  forall zid,
    py_item zone "id" = Ok zid ->
    (forall tr, env_http E tr GET (ZoneDnsRecords zid) h None
                = Scenario.ok (JObj [("result", JArr records)])) ->
    forall record dns_id record_name,
      In record records ->
      py_item record "id" = Ok dns_id ->
      py_item record "name" = Ok (JStr record_name) ->
      record_name = hostname \/ startswith record_name (tunnel_name ++ ".") = true ->
      exists ans,
        In (EHttp DELETE (ZoneDnsRecord zid dns_id) h None ans)
           (w_trace (snd (snd (scan_zone E tunnel_name h zone
                                 (no_locals, initial_world))))).

(** A zone that holds one record, "my.app.example.com"; a query by
    another name finds nothing. *)
Definition dotted_record : json :=
  JObj [("id", JStr "r1"); ("name", JStr "my.app.example.com")].

Definition dotted : env :=
  Scenario.make_env (Some "tok")
    (fun tr m ep h d =>
       match m, ep with
       | GET, ZoneDnsRecords _ => Scenario.ok (JObj [("result", JArr [dotted_record])])
       | _, _ => Scenario.cloudflare "example.com" [] tr m ep h d
       end) 0 Sigint.

(** Every DELETE of a DNS record is answered. *)
Definition deletes_answered (E : env) : Prop :=
  forall tr zone_id dns_id h,
    exists r, env_http E tr DELETE (ZoneDnsRecord zone_id dns_id) h None = Responds r.

(** A listed record: an object with an id, whose name, if any, is a
    string. *)
Definition listed_record (record : json) : Prop :=
  has_id record /\ exists s, py_get record "name" (JStr "") = Ok (JStr s).

Definition is_deleted_record (ev : event) : bool :=
  match ev with
  | EHttp DELETE (ZoneDnsRecord _ _) _ _ (Responds r) => status_code r =? 200
  | _ => false
  end.

(** The number of DNS records deleted with success. *)
Definition successes (evs : list event) : nat :=
  List.length (filter is_deleted_record evs).

(** [m] keeps the invariant [I] of the state. *)
Definition keeps {St A} (I : St -> Prop) (m : M St A) : Prop :=
  forall s, I s -> I (snd (m s)).

(** The counter counts the successful DELETEs of DNS records since the
    call began, when [k] had been logged. *)
Definition counted (k : nat) (s : locals * world) : Prop :=
  successes (w_trace (snd s)) = (k + dns_records_deleted (fst s))%nat.

(** [m] returns only values and states related by [R]. *)
Definition returns {St A} (R : A -> St -> Prop) (m : M St A) : Prop :=
  forall s a s', m s = (Ok a, s') -> R a s'.

Definition demo_record : json :=
  JObj [("id", JStr "r1"); ("name", JStr "demo-1700000000.example.com")].

(** *** Further vocabulary *)

(** How often [c] occurs in [s]. *)
Fixpoint count_char (c : ascii) (s : string) : nat :=
  match s with
  | EmptyString => 0%nat
  | String a s' => ((if Ascii.eqb a c then 1 else 0) + count_char c s')%nat
  end.

(** The name of the token file of a tunnel. *)
Definition token_path (tunnel_id : json) : string :=
  "/tmp/cloudflared_token_" ++ py_str tunnel_id ++ ".txt".

(** The body of the request that creates a tunnel. *)
Definition tunnel_data (tunnel_name tunnel_secret : string) : json :=
  JObj [("name", JStr tunnel_name); ("tunnel_secret", JStr tunnel_secret)].

(** The handlers registered in [w]. *)
Definition handlers_are (A : list closure) (B : option closure) (w : world)
  : Prop :=
  w_atexit w = A /\ w_sigint w = B.

(** [m] adds one event to the trace and changes nothing else. *)
Definition logs_one {A} (m : M world A) : Prop :=
  forall w, exists ev, snd (m w) = log ev w.

(** The token was read and the tunnel client started. *)
Definition launched (evs : list event) : Prop :=
  exists path content cmd rest,
    evs = ERead path (ReadOk content) :: EPopen cmd OsOk :: rest.

(** What [cleanup] of [run_cloudflared] closes over. *)
Definition closure_of (token_file : string) (tunnel_id account_id : json)
    (tunnel_name : string) (debug : bool) : closure :=
  {| c_token_file := token_file;
     c_account_id := account_id;
     c_tunnel_id := tunnel_id;
     c_tunnel_name := tunnel_name;
     c_debug := debug |}.

(** The same for a function with locals. *)
Definition handlers_below (A : list closure) (B : option closure)
    (s : locals * world) : Prop :=
  handlers_are A B (snd s).

(** The zones request fails on the network; otherwise as [cloudflare]. *)
Definition zones_unreachable : env :=
  Scenario.zones_answer (HttpRaises RequestException).

(** The zones request is refused with 403; the rest as [cloudflare]. *)
Definition zones_refused : env :=
  Scenario.zones_answer (Responds {| status_code := 403; body := None |}).

(** [ev] is the DELETE of a record that the listing [ans] of the zone
    [zid], answered 200, holds and that satisfies [chosen]. *)
Definition deletes_listed (zid : json) (h : headers) (ans : http_answer)
    (chosen : json -> Prop) (ev : event) : Prop :=
  exists r j listing records record dns_id ans',
    ans = Responds r /\ status_code r = 200 /\ body r = Some j /\
    py_get j "result" (JArr []) = Ok listing /\
    py_iter listing = Ok records /\
    In record records /\ chosen record /\
    py_item record "id" = Ok dns_id /\
    ev = EHttp DELETE (ZoneDnsRecord zid dns_id) h None ans'.

Definition any_record (record : json) : Prop := True.

(** The name of the record is the tunnel name, or begins with the tunnel
    name and a dot. *)
Definition named_after (tunnel_name : string) (record : json) : Prop :=
  exists n, py_get record "name" (JStr "") = Ok (JStr n) /\
    startswith n (tunnel_name ++ ".") || String.eqb n tunnel_name = true.

(** The command line of the tunnel client for the content of the token
    file. *)
Definition client_command (content : string) : list string :=
  ["cloudflared"; "tunnel"; "run"; "--token"; strip content].

(** The look at the child that debug mode takes after the launch. *)
Inductive debug_look : list event -> Prop :=
| dl_running : debug_look [EPoll None]
| dl_exited code ans : debug_look [EPoll (Some code); ECommunicate ans].

(** The token file cannot be read; otherwise as [cloudflare]. *)
Definition token_unreadable : env :=
  {| env_api_key := Some "tok";
     env_http := Scenario.cloudflare "example.com" [];
     env_version_probe := fun _ => OsOk;
     env_random := fun _ i => i;
     env_urandom := fun _ => "00";
     env_time := fun _ => 0%Q;
     env_write := fun _ _ _ => OsOk;
     env_read := fun _ _ => ReadRaises OSError;
     env_popen := fun _ _ => OsOk;
     env_exists := fun _ _ => true;
     env_remove := fun _ _ => OsOk;
     env_poll := fun _ => None;
     env_terminate := fun _ => OsOk;
     env_communicate := fun _ => OsOk;
     env_wait := fun _ => Exited 0 |}.

(** *** The outline of a run *)

(** An exception that ends the process with code 1. *)
Definition fatal (e : exn) : Prop :=
  match e with
  | SystemExit code => code = 1
  | KeyboardInterrupt => False
  | Error _ => True
  end.

(** A step of [main] before the launch: it adds events of [P], leaves the
    registered handlers alone, and what it raises is fatal. *)
Definition stage (P : event -> Prop) {A} (m : M world A) : Prop :=
  forall w, exists evs,
    w_trace (snd (m w)) = (w_trace w ++ evs)%list /\
    handlers_are (w_atexit w) (w_sigint w) (snd (m w)) /\
    Forall P evs /\
    forall e, fst (m w) = Raise e -> fatal e.

(** What [main] does before it starts the client. *)
Inductive provision_event (a : args) : event -> Prop :=
| pv_startup ev : startup_event ev -> provision_event a ev
| pv_create account_id ev : create_event account_id ev -> provision_event a ev
| pv_config account_id tunnel_id tunnel_name ev :
    config_event account_id tunnel_id tunnel_name (arg_port a)
      (arg_local_addr a) ev ->
    provision_event a ev.

(** A launch that failed: the token file could not be read, or the client
    could not be started. *)
Inductive launch_failure : list event -> Prop :=
| lf_none : launch_failure []
| lf_read path k : launch_failure [ERead path (ReadRaises k)]
| lf_popen path content k :
    launch_failure [ERead path (ReadOk content);
                    EPopen (client_command content) (OsRaises k)].

(** One execution of [cleanup] for [c]: it begins with the look for the
    token file and sends the tunnel DELETE at most once. *)
Definition teardown_of (c : closure) (t : list event) : Prop :=
  (exists present rest, t = EExists (c_token_file c) present :: rest) /\
  Forall (teardown_event c) t /\
  (tunnel_deletes t <= 1)%nat.

(** Everything up to the launch of a run that got there, for what the
    launch closes over. *)
Definition provisioned (a : args) (c : closure) (pre : list event) : Prop :=
  exists s h r0 secret r1 j1 result r2 token domain a1 a2 a3,
    Forall startup_event s /\
    pre = (s ++
      [EHttp GET Accounts h None (Responds r0);
       EUrandom secret;
       EHttp POST (CfdTunnels (c_account_id c)) h
         (Some (tunnel_data (c_tunnel_name c) secret)) (Responds r1);
       EHttp GET (CfdTunnelToken (c_account_id c) (c_tunnel_id c)) h None
         (Responds r2);
       EWrite (c_token_file c) token OsOk;
       EHttp GET (AccountZones (c_account_id c)) h None a1;
       EHttp PUT (CfdTunnelConfigurations (c_account_id c) (c_tunnel_id c)) h
         (Some (ingress_config (c_tunnel_name c ++ "." ++ py_str domain)
                  (arg_local_addr a) (arg_port a))) a2;
       EHttp POST (ZoneDnsRecords (JStr hardcoded_zone_id)) h
         (Some (dns_data (c_tunnel_id c) (c_tunnel_name c))) a3])%list /\
    c_token_file c = token_path (c_tunnel_id c) /\
    c_debug c = arg_debug a /\
    status_code r0 = 200 /\ status_code r1 = 200 /\ status_code r2 = 200 /\
    body r1 = Some j1 /\ py_get j1 "result" (JObj []) = Ok result /\
    py_get result "id" JNull = Ok (c_tunnel_id c) /\
    token <> "".

(** How a run that started the client ends: its exit code and what
    follows the launch. *)
Inductive ended (c : closure) : Z -> list event -> Prop :=
| en_exited returncode t2 :
    teardown_of c t2 ->
    ended c 0 (EWait (Exited returncode) :: t2)
| en_interrupted t1 t2 :
    teardown_of c t1 -> teardown_of c t2 -> tunnel_deletes t1 = 1%nat ->
    ended c 0 (EWait Sigint :: t1 ++ t2)
| en_interrupted_failed t1 t2 :
    teardown_of c t1 -> teardown_of c t2 ->
    ended c 1 (EWait Sigint :: t1 ++ t2)
| en_debug_failed t2 :
    teardown_of c t2 ->
    ended c 1 t2.

(** The shapes of a run: its exit code and its trace. *)
Inductive outline (a : args) : Z -> list event -> Prop :=
| ol_stopped pre l :
    Forall (provision_event a) pre -> launch_failure l ->
    outline a 1 (pre ++ l)
| ol_launched c pre content rest code after :
    provisioned a c pre ->
    (if c_debug c then debug_look rest else rest = []) ->
    ended c code after ->
    outline a code
      (pre ++ ERead (c_token_file c) (ReadOk content)
           :: EPopen (client_command content) OsOk :: rest ++ after).

(** How [provision_and_run] ends once the client was started: what it
    returns or raises, and what follows the launch. *)
Inductive waited (c : closure) : result unit -> list event -> Prop :=
| wt_exited returncode : waited c (Ok tt) [EWait (Exited returncode)]
| wt_interrupted t1 :
    teardown_of c t1 -> tunnel_deletes t1 = 1%nat ->
    waited c (Raise (SystemExit 0)) (EWait Sigint :: t1)
| wt_interrupted_failed t1 e :
    teardown_of c t1 -> fatal e ->
    waited c (Raise e) (EWait Sigint :: t1)
| wt_debug_failed e : fatal e -> waited c (Raise e) [].

(** An event that takes back what provisioning or the launch set up: a
    DELETE request, the removal of a file, the termination of the child. *)
Definition undoes (ev : event) : bool :=
  match ev with
  | EHttp DELETE _ _ _ _ | ERemove _ _ | ETerminate _ => true
  | _ => false
  end.

(** The file an event is about. *)
Definition file_of (ev : event) : option string :=
  match ev with
  | EWrite p _ _ | ERead p _ | EExists p _ | ERemove p _ => Some p
  | _ => None
  end.

(** The client was started. *)
Definition is_launch (ev : event) : bool :=
  match ev with
  | EPopen _ OsOk => true
  | _ => false
  end.

(** No key is configured; otherwise as [cloudflare]. *)
Definition no_key : env := Scenario.make_env None
  (Scenario.cloudflare "example.com" []) 0 (Exited 0).

(** [cloudflared] is not installed; otherwise as [cloudflare]. *)
Definition no_client : env :=
  {| env_api_key := Some "tok";
     env_http := Scenario.cloudflare "example.com" [];
     env_version_probe := fun _ => OsRaises FileNotFoundError;
     env_random := fun _ i => i;
     env_urandom := fun _ => "00";
     env_time := fun _ => 0%Q;
     env_write := fun _ _ _ => OsOk;
     env_read := fun _ _ => ReadOk "";
     env_popen := fun _ _ => OsOk;
     env_exists := fun _ _ => true;
     env_remove := fun _ _ => OsOk;
     env_poll := fun _ => None;
     env_terminate := fun _ => OsOk;
     env_communicate := fun _ => OsOk;
     env_wait := fun _ => Exited 0 |}.

(* ================================================================== *)
(** ** The earlier creation of a tunnel *)

(** [create_tunnel] is not called by [main].  It lists and creates tunnels
    under another URL than the rest of the program, so it has its own
    events and its own oracle; the key is the one of [env]. *)
Module Legacy.

Definition tunnels_url (account_id : json) : string :=
  CLOUDFLARE_API_URL ++ "/accounts/" ++ py_str account_id ++ "/tunnels".

Inductive call :=
| Http (m : method) (url : string) (h : headers) (data : option json)
       (ans : http_answer)
| Choices (picked : string).

Record oracle := {
  o_env : env;
  o_http : list call -> method -> string -> headers -> option json -> http_answer;
  o_random : list call -> nat -> nat
}.

Definition ascii_letters : string :=
  "abcdefghijklmnopqrstuvwxyzABCDEFGHIJKLMNOPQRSTUVWXYZ".

Definition digits : string := "0123456789".

Section Create.

Variable O : oracle.

Definition request (m : method) (url : string) (h : headers)
    (data : option json) : M (list call) response :=
  fun tr =>
    let ans := o_http O tr m url h data in
    let tr' := (tr ++ [Http m url h data ans])%list in
    match ans with
    | Responds r => (Ok r, tr')
    | HttpRaises k => (Raise (Error k), tr')
    end.

(** [''.join(random.choices(population, k=k))]. *)
Definition random_choices (population : string) (k : nat)
  : M (list call) string :=
  fun tr =>
    let s := String.concat ""
               (map (fun i => pick population (o_random O tr i)) (seq 0 k)) in
    (Ok s, (tr ++ [Choices s])%list).

(** [v == tunnel_name] for what [tunnel.get("name")] gave. *)
Definition named (v : json) (tunnel_name : string) : bool :=
  match v with
  | JStr s => String.eqb s tunnel_name
  | _ => false
  end.

(** [for tunnel in tunnels]: the first tunnel of that name ends the
    function with its id and its name. *)
Fixpoint find_tunnel (tunnels : list json) (tunnel_name : string)
  : result (option (json * json)) :=
  match tunnels with
  | [] => Ok None
  | tunnel :: rest =>
      match py_get tunnel "name" JNull with
      | Raise e => Raise e
      | Ok n =>
          if named n tunnel_name then
            match py_item tunnel "id" with
            | Raise e => Raise e
            | Ok id =>
                match py_item tunnel "name" with
                | Raise e => Raise e
                | Ok name => Ok (Some (id, name))
                end
            end
          else find_tunnel rest tunnel_name
      end
  end.

Definition create_tunnel (account_id : json) (tunnel_name : string)
    (debug : bool) : M (list call) (json * json) :=
  headers <- lift (get_headers (o_env O)) ;;
  response <- request GET (tunnels_url account_id) headers None ;;
  if negb (status_code response =? 200) then sys_exit 1
  else
    j <- lift (response_json response) ;;
    tunnels <- lift (py_get j "result" (JArr [])) ;;
    items <- lift (py_iter tunnels) ;;
    found <- lift (find_tunnel items tunnel_name) ;;
    match found with
    | Some existing => ret existing
    | None =>
        tunnel_secret <- random_choices (ascii_letters ++ digits) 32 ;;
        let data := JObj [("name", JStr tunnel_name);
                          ("tunnel_secret", JStr tunnel_secret)] in
        response <- request POST (tunnels_url account_id) headers (Some data) ;;
        if negb (status_code response =? 200) then sys_exit 1
        else
          j <- lift (response_json response) ;;
          result <- lift (py_get j "result" (JObj [])) ;;
          tunnel_id <- lift (py_get result "id" JNull) ;;
          tunnel_name <- lift (py_get result "name" JNull) ;;
          if negb (truthy tunnel_id) then sys_exit 1
          else ret (tunnel_id, tunnel_name)
    end.

End Create.

(** A listed tunnel with another name. *)
Definition other_name (tunnel_name : string) (tunnel : json) : Prop :=
  exists n, py_get tunnel "name" JNull = Ok n /\ named n tunnel_name = false.

Definition is_alnum (a : ascii) : bool :=
  let n := nat_of_ascii a in
  ((Nat.leb 97 n && Nat.leb n 122) || (Nat.leb 65 n && Nat.leb n 90)
   || (Nat.leb 48 n && Nat.leb n 57))%bool.

(** An account that already has the tunnels [listed]; a creation is
    answered 200 with an id and the name the server stored. *)
Definition account_with (listed : list json) : oracle :=
  {| o_env := Scenario.with_key "tok";
     o_http := fun _ m _ _ _ =>
       match m with
       | GET => Scenario.ok (JObj [("result", JArr listed)])
       | _ => Scenario.ok (JObj [("result",
                JObj [("id", JStr "new"); ("name", JStr "as-stored")])])
       end;
     o_random := fun _ i => (5 * i + 1)%nat |}.

End Legacy.

(** *** The zones of teardown *)

(** The zone whose DNS records a request is about. *)
Definition zone_of (ev : event) : option json :=
  match ev with
  | EHttp _ (ZoneDnsRecords z) _ _ _
  | EHttp _ (ZoneDnsRecordsNamed z _) _ _ _
  | EHttp _ (ZoneDnsRecord z _) _ _ _ => Some z
  | _ => None
  end.

(** A request about DNS records is about one of [zones]. *)
Definition within (zones : list json) (ev : event) : Prop :=
  forall z, zone_of ev = Some z ->
    exists zone, In zone zones /\ py_item zone "id" = Ok z.

(** The listing of the account's zones gave no zone to scan. *)
Inductive no_zones : http_answer -> Prop :=
| nz_raises k : no_zones (HttpRaises k)
| nz_status r : status_code r <> 200 -> no_zones (Responds r)
| nz_body r : status_code r = 200 -> body r = None -> no_zones (Responds r)
| nz_shape r j e :
    status_code r = 200 -> body r = Some j ->
    py_get j "result" (JArr []) = Raise e -> no_zones (Responds r)
| nz_empty r j zones :
    status_code r = 200 -> body r = Some j ->
    py_get j "result" (JArr []) = Ok zones -> truthy zones = false ->
    no_zones (Responds r).


(** The command line [a] with another [domain] argument. *)
Definition with_domain (a : args) (domain : option string) : args :=
  {| arg_tunnel_name := arg_tunnel_name a;
     arg_port := arg_port a;
     arg_domain := domain;
     arg_debug := arg_debug a;
     arg_local_addr := arg_local_addr a;
     arg_no_timestamp := arg_no_timestamp a |}.

(** The configuration PUT is answered 500 and the DNS record POST fails on
    the network; otherwise as [cloudflare]. *)
Definition config_refused : env :=
  Scenario.make_env (Some "tok")
    (fun tr m ep h d =>
       match m, ep with
       | PUT, CfdTunnelConfigurations _ _ =>
           Responds {| status_code := 500; body := None |}
       | POST, ZoneDnsRecords _ => HttpRaises RequestException
       | _, _ => Scenario.cloudflare "example.com" [] tr m ep h d
       end) 0 (Exited 0).

(** *** What a repeated teardown deletes *)

(** [owed tunnel_name ev zid h dns_id]: [ev] is a listing of the DNS
    records of the zone [zid], answered 200 with well-formed records, and
    it holds a record with the id [dns_id] that the scan deletes: any
    record of the answer to the name query, and of the full listing those
    whose name is the tunnel name or begins with it and a dot. *)
Inductive owed (tunnel_name : string) : event -> json -> headers -> json -> Prop :=
| ow_named zid h r j records record dns_id :
    status_code r = 200 -> body r = Some j ->
    py_get j "result" (JArr []) = Ok (JArr records) ->
    Forall has_id records ->
    In record records -> py_item record "id" = Ok dns_id ->
    owed tunnel_name
      (EHttp GET (ZoneDnsRecordsNamed zid tunnel_name) h None (Responds r))
      zid h dns_id
| ow_listed zid h r j records record record_name dns_id :
    status_code r = 200 -> body r = Some j ->
    py_get j "result" (JArr []) = Ok (JArr records) ->
    Forall listed_record records ->
    In record records ->
    py_get record "name" (JStr "") = Ok (JStr record_name) ->
    startswith record_name (tunnel_name ++ ".")
      || String.eqb record_name tunnel_name = true ->
    py_item record "id" = Ok dns_id ->
    owed tunnel_name
      (EHttp GET (ZoneDnsRecords zid) h None (Responds r)) zid h dns_id.

(** Every listing in [evs] is followed by the DELETE of each record it
    calls for. *)
Definition settled (tunnel_name : string) (evs : list event) : Prop :=
  forall pre ev post zid h dns_id,
    evs = (pre ++ ev :: post)%list -> owed tunnel_name ev zid h dns_id ->
    exists ans, In (EHttp DELETE (ZoneDnsRecord zid dns_id) h None ans) post.

(** An event that calls for no DELETE. *)
Definition owes_nothing (tunnel_name : string) (ev : event) : Prop :=
  forall zid h dns_id, ~ owed tunnel_name ev zid h dns_id.

(** [m] only appends events, and what it appends satisfies [C]. *)
Definition yields {St : Type} {T : Traced St} (C : list event -> Prop) {A}
    (m : M St A) : Prop :=
  forall s, exists evs,
    trace_of (snd (m s)) = (trace_of s ++ evs)%list /\ C evs.

(** When [m] returns, it has added an event that satisfies [P]. *)
Definition finds {St : Type} {T : Traced St} (P : event -> Prop) {A}
    (m : M St A) : Prop :=
  forall s a, fst (m s) = Ok a ->
    exists evs, trace_of (snd (m s)) = (trace_of s ++ evs)%list /\ Exists P evs.

(** The name query of the scan of a zone. *)
Definition is_name_query (tunnel_name : string) (h : headers) (ev : event)
  : Prop :=
  exists zid ans,
    ev = EHttp GET (ZoneDnsRecordsNamed zid tunnel_name) h None ans.

Definition is_record_delete (ev : event) : bool :=
  match ev with
  | EHttp DELETE (ZoneDnsRecord _ _) _ _ _ => true
  | _ => false
  end.

(** The server refuses to delete DNS records, so that the record of the
    run stays listed; the wait is interrupted.  Otherwise as
    [cloudflare]. *)
Definition record_stays : env :=
  Scenario.make_env (Some "tok")
    (fun tr m ep h d =>
       match m, ep with
       | DELETE, ZoneDnsRecord _ _ =>
           Responds {| status_code := 500; body := None |}
       | _, _ => Scenario.cloudflare "example.com" [demo_record] tr m ep h d
       end) 0 Sigint.

(** A run named "demo" whose client exits by itself. *)
Definition exited : env :=
  Scenario.make_env (Some "tok")
    (Scenario.cloudflare "example.com" [demo_record]) 0 (Exited 0).

(** The world after Ctrl-C has run [signal_handler] where record DELETEs
    fail, and after the interpreter has then run the [atexit] handlers. *)
Definition after_interrupt : world :=
  snd (signal_handler record_stays demo_closure initial_world).

Definition after_exit : world :=
  run_atexit record_stays [demo_closure] after_interrupt.

(* ================================================================== *)
(** ** Facts about strings and numbers *)

Lemma append_inj_r (p x y : string) : p ++ x = p ++ y -> x = y.
Proof.
  induction p as [|a p IH]; simpl; intros H.
  - exact H.
  - injection H as H. auto.
Qed.

Lemma to_int_proper (z : Z) :
  Z.to_int z <> Decimal.Pos Decimal.Nil /\ Z.to_int z <> Decimal.Neg Decimal.Nil.
Proof.
  destruct z as [|p|p]; simpl; split; try discriminate;
    intros [= H]; exact (DecimalPos.Unsigned.to_uint_nonnil p H).
Qed.

Lemma str_int_inj (a b : Z) : str_int a = str_int b -> a = b.
Proof.
  unfold str_int. intros H.
  apply DecimalZ.to_int_inj.
  destruct (to_int_proper a) as [Ha1 Ha2], (to_int_proper b) as [Hb1 Hb2].
  pose proof (NilZero.isi _ Ha1 Ha2) as Ia.
  pose proof (NilZero.isi _ Hb1 Hb2) as Ib.
  rewrite H in Ia. congruence.
Qed.

Lemma length_append (s t : string) :
  String.length (s ++ t) = (String.length s + String.length t)%nat.
Proof. induction s; simpl; auto. Qed.


Lemma all_chars_append p s t :
  all_chars p (s ++ t) = all_chars p s && all_chars p t.
Proof. induction s; simpl; auto. rewrite IHs. apply andb_assoc. Qed.

Lemma pick_lowercase (n : nat) :
  String.length (pick ascii_lowercase n) = 1%nat /\
  all_chars is_lower (pick ascii_lowercase n) = true.
Proof.
  unfold pick.
  assert (H : (n mod String.length ascii_lowercase < 26)%nat)
    by (apply Nat.mod_upper_bound; discriminate).
  remember (n mod String.length ascii_lowercase)%nat as k eqn:Ek. clear Ek.
  do 26 (destruct k as [|k]; [vm_compute; auto|]). lia.
Qed.

Lemma concat_picks (f : nat -> nat) (l : list nat) :
  String.length (String.concat "" (map (fun i => pick ascii_lowercase (f i)) l))
    = List.length l /\
  all_chars is_lower
    (String.concat "" (map (fun i => pick ascii_lowercase (f i)) l)) = true.
Proof.
  induction l as [|i l [IH1 IH2]]; [split; reflexivity|].
  destruct (pick_lowercase (f i)) as [L C].
  cbn [map String.concat].
  destruct (map (fun i0 => pick ascii_lowercase (f i0)) l) as [|y ys] eqn:Em.
  - destruct l; [|discriminate]. auto.
  - change (String.append EmptyString ?x) with x.
    rewrite length_append, all_chars_append, L, C.
    cbn [String.concat] in IH1, IH2.
    split; [simpl in *; lia | exact IH2].
Qed.

(* ================================================================== *)
(** ** The credential resolver *)


(** A key pair whose key is empty is accepted, not rejected. *)
Lemma resolver_accepts_empty_key :
  ~ resolver_rule (Scenario.with_key "a@b.c:") "a@b.c:".
Proof.
  intros [H _]. destruct (H eq_refl) as [_ H2].
  destruct H2 as [e He].
  - intros email key [= <- <-]. right. reflexivity.
  - vm_compute in He. discriminate.
Qed.

(** C3 (as the code has it).  For a secret with an [@] or a [.], a split
    on [:] into exactly two parts, empty or not, gives the
    X-Auth-Email/X-Auth-Key headers and any other split raises
    [ValueError]; a non-empty secret with neither gives the bearer
    header; an empty secret exits with code 1. *)
Theorem get_headers_rule (E : env) (s : string) :
  env_api_key E = Some s ->
  (s = "" -> get_headers E = Raise (SystemExit 1)) /\
  (s <> "" -> has_at_or_dot s = true ->
     (forall email key, split ":" s = [email; key] ->
        get_headers E = Ok (auth_key_headers email key)) /\
     ((forall email key, split ":" s <> [email; key]) ->
        get_headers E = Raise (Error ValueError))) /\
  (s <> "" -> has_at_or_dot s = false ->
     get_headers E = Ok (bearer_headers s)).
Proof.
  intros Hk. unfold get_headers, get_api_key, has_at_or_dot. rewrite Hk.
  destruct (String.eqb_spec s "") as [->|Hne].
  - repeat split; intros; congruence.
  - split; [congruence|]. split; intros _ Hc; rewrite Hc.
    + split.
      * intros email key ->. reflexivity.
      * intros Hn. destruct (split ":" s) as [|a [|b [|c l]]]; try reflexivity.
        exfalso. exact (Hn a b eq_refl).
    + reflexivity.
Qed.

Lemma get_headers_rule_witness :
  get_headers (Scenario.with_key "me@example.com:k3y")
    = Ok (auth_key_headers "me@example.com" "k3y") /\
  get_headers (Scenario.with_key "a@b.c:") = Ok (auth_key_headers "a@b.c" "") /\
  get_headers (Scenario.with_key "a@b:c:d") = Raise (Error ValueError) /\
  get_headers (Scenario.with_key "tok123") = Ok (bearer_headers "tok123").
Proof.
  pose proof (get_headers_rule (Scenario.with_key "me@example.com:k3y") _ eq_refl) as [_ [H1 _]].
  pose proof (get_headers_rule (Scenario.with_key "a@b.c:") _ eq_refl) as [_ [H2 _]].
  pose proof (get_headers_rule (Scenario.with_key "a@b:c:d") _ eq_refl) as [_ [H3 _]].
  pose proof (get_headers_rule (Scenario.with_key "tok123") _ eq_refl) as [_ [_ H4]].
  split; [|split; [|split]].
  - apply H1; [discriminate | reflexivity | reflexivity].
  - apply H2; [discriminate | reflexivity | reflexivity].
  - apply H3; [discriminate | reflexivity | intros email key; discriminate].
  - apply H4; [discriminate | reflexivity].
Defined.

(* ================================================================== *)
(** ** Tunnel naming *)


(** Two runs started a half second apart, within one second, get the same
    name. *)
Lemma same_second_same_name :
  ~ naming_rule (Scenario.interrupted (6800000001 # 4))
                (Scenario.interrupted (6800000003 # 4))
                (Scenario.demo_args (Some "demo") false).
Proof.
  intros [H _].
  destruct (H "demo" eq_refl eq_refl) as [_ Hd].
  apply Hd; [|reflexivity].
  vm_compute. discriminate.
Qed.

Lemma timestamped_names_differ (base : string) (t1 t2 : Z) :
  t1 <> t2 -> base ++ "-" ++ str_int t1 <> base ++ "-" ++ str_int t2.
Proof.
  intros Hne H. apply append_inj_r in H.
  simpl in H. injection H as H. apply str_int_inj in H. contradiction.
Qed.

(** C7 (as the code has it).  With a name and without [--no-timestamp]
    the tunnel name is the base name, a dash and the unix time truncated
    to whole seconds, so two runs whose start times fall in different
    seconds get different names; with [--no-timestamp] it is the base
    name; without a name it is 8 lowercase letters. *)
Theorem tunnel_naming (E : env) (a : args) (w : world) :
  (forall base, arg_tunnel_name a = Some base -> arg_no_timestamp a = false ->
     tunnel_name_of E a w
       = Ok (base ++ "-" ++ str_int (py_int (started_at E w))) /\
     forall E' w', py_int (started_at E w) <> py_int (started_at E' w') ->
       tunnel_name_of E a w <> tunnel_name_of E' a w') /\
  (forall base, arg_tunnel_name a = Some base -> arg_no_timestamp a = true ->
     tunnel_name_of E a w = Ok base) /\
  (arg_tunnel_name a = None ->
     exists s, tunnel_name_of E a w = Ok s /\
       String.length s = 8%nat /\ all_chars is_lower s = true).
Proof.
  unfold tunnel_name_of, choose_name, started_at.
  split; [|split].
  - intros base Hn Ht. rewrite Hn, Ht. split; [reflexivity|].
    intros E' w' Hne. cbn. intros [= H].
    exact (timestamped_names_differ base _ _ Hne H).
  - intros base Hn Ht. rewrite Hn, Ht. reflexivity.
  - intros Hn. rewrite Hn.
    eexists. split; [reflexivity|].
    apply (concat_picks (env_random E (w_trace w)) (seq 0 8)).
Qed.

Lemma tunnel_naming_witness :
  tunnel_name_of (Scenario.interrupted (6800000001 # 4))
    (Scenario.demo_args (Some "demo") false) initial_world
    = Ok "demo-1700000000" /\
  tunnel_name_of (Scenario.interrupted (6800000001 # 4))
    (Scenario.demo_args (Some "demo") false) initial_world
  <> tunnel_name_of (Scenario.interrupted (6800000005 # 4))
    (Scenario.demo_args (Some "demo") false) initial_world /\
  tunnel_name_of (Scenario.interrupted 0)
    (Scenario.demo_args (Some "demo") true) initial_world = Ok "demo" /\
  tunnel_name_of (Scenario.interrupted 0)
    (Scenario.demo_args None false) initial_world = Ok "dkryfmta".
Proof.
  pose proof (tunnel_naming (Scenario.interrupted (6800000001 # 4))
                (Scenario.demo_args (Some "demo") false) initial_world)
    as [H1 _].
  pose proof (tunnel_naming (Scenario.interrupted 0)
                (Scenario.demo_args (Some "demo") true) initial_world)
    as [_ [H2 _]].
  destruct (H1 "demo" eq_refl eq_refl) as [Ha Hb].
  split; [exact Ha|]. split.
  - apply Hb. vm_compute. discriminate.
  - split; [exact (H2 "demo" eq_refl eq_refl)|]. vm_compute. reflexivity.
Defined.

(* ================================================================== *)
(** ** Domain selection *)

Ltac exec :=
  unfold bind, lift, ret, raise, sys_exit, try_except, try_except2; cbn.

(** [get_account_domain] once the zones request has been answered. *)
Lemma get_account_domain_answered (E : env) (account_id : json) (debug : bool)
    (w : world) (h : headers) (r : response) :
  get_headers E = Ok h ->
  env_http E (w_trace w) GET (AccountZones account_id) h None = Responds r ->
  fst (get_account_domain E account_id debug w) =
    if status_code r =? 200 then
      match body r with
      | None => Ok default_domain
      | Some j =>
          match py_get j "result" (JArr []) with
          | Raise _ => Ok default_domain
          | Ok zones =>
              if truthy zones then
                match py_item0 zones with
                | Raise _ => Ok default_domain
                | Ok first =>
                    match py_item first "name" with
                    | Raise _ => Ok default_domain
                    | Ok name => Ok name
                    end
                end
              else Ok default_domain
          end
      end
    else Ok default_domain.
Proof.
  intros Hh Hr. unfold get_account_domain, request. exec. rewrite Hh, Hr.
  destruct (status_code r =? 200); [|reflexivity].
  unfold response_json.
  destruct (body r) as [j|]; [|reflexivity].
  destruct j as [| | | |l|l]; try reflexivity. cbn.
  generalize (match lookup "result" l with Some x => x | None => JArr [] end).
  intros zones.
  destruct (truthy zones); [|reflexivity].
  assert (Hfirst : forall first,
    fst (let (r0, s') :=
           match py_item first "name" with
           | Ok a => (Ok a, log (EHttp GET (AccountZones account_id) h None (Responds r)) w)
           | Raise e => (Raise e, log (EHttp GET (AccountZones account_id) h None (Responds r)) w)
           end in
         match r0 with
         | Ok a => (Ok a, s')
         | Raise e => if is_Exception e then (Ok default_domain, s') else (Raise e, s')
         end)
    = match py_item first "name" with
      | Ok name => Ok name
      | Raise _ => Ok default_domain
      end).
  { intros first. destruct first as [| | | | |o]; try reflexivity. cbn.
    destruct (lookup "name" o); reflexivity. }
  destruct zones as [| | |s|zs|o]; try reflexivity; cbn.
  - destruct s; [reflexivity|]. apply Hfirst.
  - destruct zs; [reflexivity|]. apply Hfirst.
Qed.

(** C8.  When the zones listing is answered 200 with a non-empty list the
    base domain is the name of the first zone; when the list is empty the
    call still returns, with the default public domain. *)
Theorem domain_selection (E : env) (account_id : json) (debug : bool)
    (w : world) (h : headers) (r : response) (j : json) :
  get_headers E = Ok h ->
  env_http E (w_trace w) GET (AccountZones account_id) h None = Responds r ->
  status_code r = 200 ->
  body r = Some j ->
  (forall first rest name,
     py_get j "result" (JArr []) = Ok (JArr (first :: rest)) ->
     py_item first "name" = Ok name ->
     fst (get_account_domain E account_id debug w) = Ok name) /\
  (py_get j "result" (JArr []) = Ok (JArr []) ->
   fst (get_account_domain E account_id debug w) = Ok (JStr "trycloudflare.com")).
Proof.
  intros Hh Hr Hs Hb.
  rewrite (get_account_domain_answered E account_id debug w h r Hh Hr), Hs, Hb.
  cbn. split.
  - intros first rest name -> . cbn. intros ->. reflexivity.
  - intros ->. reflexivity.
Qed.

Lemma domain_selection_witness :
  fst (get_account_domain
         (Scenario.zones_answer (Scenario.ok (JObj [("result",
            JArr [JObj [("id", JStr "z1"); ("name", JStr "example.com")];
                  JObj [("id", JStr "z2"); ("name", JStr "example.org")]])])))
         (JStr "acc1") false initial_world) = Ok (JStr "example.com") /\
  fst (get_account_domain
         (Scenario.zones_answer (Scenario.ok (JObj [("result", JArr [])])))
         (JStr "acc1") false initial_world) = Ok (JStr "trycloudflare.com").
Proof.
  split.
  - eapply (domain_selection _ (JStr "acc1") false initial_world);
      reflexivity.
  - eapply (domain_selection _ (JStr "acc1") false initial_world);
      reflexivity.
Defined.


(** A first zone whose name is the empty string is handed on as it is. *)
Lemma empty_zone_name_is_returned :
  ~ domain_always_nonempty
      (Scenario.zones_answer (Scenario.ok (JObj [("result",
         JArr [JObj [("id", JStr "z1"); ("name", JStr "")]])])))
      (JStr "acc1") initial_world.
Proof.
  intros H.
  destruct (H _ _ eq_refl eq_refl) as [d [Hd Hne]].
  vm_compute in Hd. injection Hd as <-. apply Hne. reflexivity.
Qed.

(** C10 (as the code has it).  Whatever response the zones request gets,
    [get_account_domain] returns: the fallback "trycloudflare.com" when
    the status is not 200, the body is no JSON or the zone list is empty,
    and otherwise either that fallback or the name field of the first
    zone, as the server sent it. *)
Theorem domain_total (E : env) (account_id : json) (debug : bool)
    (w : world) (h : headers) (r : response) :
  get_headers E = Ok h ->
  env_http E (w_trace w) GET (AccountZones account_id) h None = Responds r ->
  exists v, fst (get_account_domain E account_id debug w) = Ok v /\
    (status_code r <> 200 -> v = JStr "trycloudflare.com") /\
    (body r = None -> v = JStr "trycloudflare.com") /\
    (forall j zones, body r = Some j ->
       py_get j "result" (JArr []) = Ok zones -> truthy zones = false ->
       v = JStr "trycloudflare.com") /\
    (v = JStr "trycloudflare.com" \/
     exists j zones first,
       status_code r = 200 /\ body r = Some j /\
       py_get j "result" (JArr []) = Ok zones /\
       py_item0 zones = Ok first /\ py_item first "name" = Ok v).
Proof.
  intros Hh Hr.
  rewrite (get_account_domain_answered E account_id debug w h r Hh Hr).
  assert (Hdef : exists v, Ok default_domain = Ok v /\
    (status_code r <> 200 -> v = JStr "trycloudflare.com") /\
    (body r = None -> v = JStr "trycloudflare.com") /\
    (forall j zones, body r = Some j ->
       py_get j "result" (JArr []) = Ok zones -> truthy zones = false ->
       v = JStr "trycloudflare.com") /\
    (v = JStr "trycloudflare.com" \/
     exists j zones first,
       status_code r = 200 /\ body r = Some j /\
       py_get j "result" (JArr []) = Ok zones /\
       py_item0 zones = Ok first /\ py_item first "name" = Ok v)).
  { exists default_domain. repeat split; auto. }
  destruct (Z.eqb_spec (status_code r) 200) as [Hs|Hs]; [|exact Hdef].
  destruct (body r) as [j|] eqn:Hb; [|exact Hdef].
  destruct (py_get j "result" (JArr [])) as [zones|e] eqn:Hz; [|exact Hdef].
  destruct (truthy zones) eqn:Ht; [|exact Hdef].
  destruct (py_item0 zones) as [first|e] eqn:H0; [|exact Hdef].
  destruct (py_item first "name") as [name|e] eqn:Hn; [|exact Hdef].
  clear Hdef.
  exists name. split; [reflexivity|].
  split; [contradiction|]. split; [discriminate|]. split.
  - intros j' zones' [= <-] Hz'. rewrite Hz in Hz'. injection Hz' as <-.
    congruence.
  - right. exists j, zones, first. auto.
Qed.

Lemma domain_total_witness :
  exists v,
    fst (get_account_domain
           (Scenario.zones_answer
              (Responds {| status_code := 503; body := None |}))
           (JStr "acc1") true initial_world) = Ok v /\
    v = JStr "trycloudflare.com".
Proof.
  destruct (domain_total
              (Scenario.zones_answer
                 (Responds {| status_code := 503; body := None |}))
              (JStr "acc1") true initial_world _ _ eq_refl eq_refl)
    as [v [Hv [H1 _]]].
  exists v. split; [exact Hv|]. apply H1. discriminate.
Defined.

(* ================================================================== *)
(** ** What a statement adds to the trace *)


Section Emits.

Context {St : Type} {T : Traced St}.
Variable P : event -> Prop.


Lemma emits_ret {A} (a : A) : emits P (ret a).
Proof. intros s. exists []. rewrite app_nil_r. auto. Qed.

Lemma emits_raise {A} (e : exn) : emits P (@raise St A e).
Proof. intros s. exists []. rewrite app_nil_r. auto. Qed.

Lemma emits_sys_exit {A} (c : Z) : emits P (@sys_exit St A c).
Proof. apply emits_raise. Qed.

Lemma emits_lift {A} (r : result A) : emits P (lift r).
Proof. intros s. exists []. rewrite app_nil_r. auto. Qed.

Lemma emits_bind {A B} (m : M St A) (f : A -> M St B) :
  emits P m -> (forall a, emits P (f a)) -> emits P (bind m f).
Proof.
  intros Hm Hf s. unfold bind.
  destruct (Hm s) as [evs [E1 F1]].
  destruct (m s) as [[a|e] s1]; cbn in *.
  - destruct (Hf a s1) as [evs2 [E2 F2]].
    exists (evs ++ evs2)%list. rewrite E2, E1, app_assoc. split; auto.
    apply Forall_app; auto.
  - exists evs. auto.
Qed.

Lemma emits_try_except {A} (m : M St A) (c : exn -> bool) (h : exn -> M St A) :
  emits P m -> (forall e, emits P (h e)) -> emits P (try_except m c h).
Proof.
  intros Hm Hh s. unfold try_except.
  destruct (Hm s) as [evs [E1 F1]].
  destruct (m s) as [[a|e] s1]; cbn in *.
  - exists evs. auto.
  - destruct (c e); [|exists evs; auto].
    destruct (Hh e s1) as [evs2 [E2 F2]].
    exists (evs ++ evs2)%list. rewrite E2, E1, app_assoc. split; auto.
    apply Forall_app; auto.
Qed.

Lemma emits_try_except2 {A} (m : M St A) c1 (h1 : exn -> M St A) c2 h2 :
  emits P m -> (forall e, emits P (h1 e)) -> (forall e, emits P (h2 e)) ->
  emits P (try_except2 m c1 h1 c2 h2).
Proof.
  intros Hm H1 H2 s. unfold try_except2.
  destruct (Hm s) as [evs [E1 F1]].
  destruct (m s) as [[a|e] s1]; cbn in *.
  - exists evs. auto.
  - assert (G : forall h : exn -> M St A, (forall e, emits P (h e)) ->
              exists evs0, trace_of (snd (h e s1)) = (trace_of s ++ evs0)%list /\
                           Forall P evs0).
    { intros h Hh. destruct (Hh e s1) as [evs2 [E2 F2]].
      exists (evs ++ evs2)%list. rewrite E2, E1, app_assoc. split; auto.
      apply Forall_app; auto. }
    destruct (c1 e); [auto|]. destruct (c2 e); [auto|]. exists evs. auto.
Qed.

Lemma emits_for_each {A} (l : list A) (body : A -> M St unit) :
  (forall x, emits P (body x)) -> emits P (for_each l body).
Proof.
  intros Hb. induction l as [|x l IH]; cbn.
  - apply emits_ret.
  - apply emits_bind; auto.
Qed.

End Emits.

Lemma emits_weaken {St} {T : Traced St} (P Q : event -> Prop) {A} (m : M St A) :
  (forall ev, P ev -> Q ev) -> emits P m -> emits Q m.
Proof.
  intros HPQ Hm s. destruct (Hm s) as [evs [E1 F1]].
  exists evs. split; auto. eapply Forall_impl; eauto.
Qed.

Section EmitsLocals.

Context {F : Type}.
Variable P : event -> Prop.

Lemma emits_in_world {A} (m : M world A) :
  emits P m -> emits P (@in_world F A m).
Proof.
  intros Hm [f w]. unfold in_world. cbn.
  destruct (Hm w) as [evs HE]. destruct (m w) as [r w']. exists evs. exact HE.
Qed.

Lemma emits_get_locals : emits P (@get_locals F world).
Proof. intros s. exists []. rewrite app_nil_r. auto. Qed.

Lemma emits_set_locals (g : F -> F) : emits P (@set_locals F world g).
Proof. intros s. exists []. cbn. rewrite app_nil_r. auto. Qed.

Lemma emits_call {A} (init : F) (m : M (F * world) A) :
  emits P m -> emits P (call init m).
Proof.
  intros Hm w. unfold call.
  destruct (Hm (init, w)) as [evs HE].
  destruct (m (init, w)) as [r s']. exists evs. exact HE.
Qed.

End EmitsLocals.

(** A statement that logs the one event [ev] and then returns or raises. *)
Lemma emits_logged (P : event -> Prop) {A} (m : M world A) :
  (forall w, exists ev, snd (m w) = log ev w /\ P ev) -> emits P m.
Proof.
  intros H w. destruct (H w) as [ev [E1 HP]].
  exists [ev]. rewrite E1. split; [reflexivity|auto].
Qed.

Section EmitsPrimitives.

Variable E : env.
Variable P : event -> Prop.

Lemma emits_request m ep h d :
  (forall ans, P (EHttp m ep h d ans)) -> emits P (request E m ep h d).
Proof.
  intros H. apply emits_logged. intros w. unfold request.
  exists (EHttp m ep h d (env_http E (w_trace w) m ep h d)).
  split; [|apply H]. destruct (env_http _ _ _ _ _ _); reflexivity.
Qed.

Lemma emits_os_step (ans : os_answer) (ev : event) :
  P ev -> emits P (os_step ans ev).
Proof.
  intros H. apply emits_logged. intros w. exists ev.
  split; [|exact H]. destruct ans; reflexivity.
Qed.

Lemma emits_version_probe :
  (forall ans, P (EVersionProbe ans)) -> emits P (version_probe E).
Proof. intros H w. apply emits_os_step, H. Qed.

Lemma emits_random_choices population k :
  (forall s, P (EChoices s)) -> emits P (random_choices E population k).
Proof. intros H. apply emits_logged. intros w. eexists. split; [reflexivity|apply H]. Qed.

Lemma emits_urandom_hex :
  (forall s, P (EUrandom s)) -> emits P (urandom_hex E).
Proof. intros H. apply emits_logged. intros w. eexists. split; [reflexivity|apply H]. Qed.

Lemma emits_time_time :
  (forall t, P (ETime t)) -> emits P (time_time E).
Proof. intros H. apply emits_logged. intros w. eexists. split; [reflexivity|apply H]. Qed.

Lemma emits_open_write path content :
  (forall ans, P (EWrite path content ans)) -> emits P (open_write E path content).
Proof. intros H w. apply emits_os_step, H. Qed.

Lemma emits_open_read path :
  (forall ans, P (ERead path ans)) -> emits P (open_read E path).
Proof.
  intros H. apply emits_logged. intros w. unfold open_read.
  exists (ERead path (env_read E (w_trace w) path)).
  split; [|apply H]. destruct (env_read _ _ _); reflexivity.
Qed.

Lemma emits_popen cmd :
  (forall ans, P (EPopen cmd ans)) -> emits P (popen E cmd).
Proof. intros H w. apply emits_os_step, H. Qed.

Lemma emits_path_exists path :
  (forall b, P (EExists path b)) -> emits P (path_exists E path).
Proof. intros H. apply emits_logged. intros w. eexists. split; [reflexivity|apply H]. Qed.

Lemma emits_os_remove path :
  (forall ans, P (ERemove path ans)) -> emits P (os_remove E path).
Proof. intros H w. apply emits_os_step, H. Qed.

Lemma emits_process_poll :
  (forall p, P (EPoll p)) -> emits P (process_poll E).
Proof. intros H. apply emits_logged. intros w. eexists. split; [reflexivity|apply H]. Qed.

Lemma emits_process_terminate :
  (forall ans, P (ETerminate ans)) -> emits P (process_terminate E).
Proof. intros H w. apply emits_os_step, H. Qed.

Lemma emits_process_communicate :
  (forall ans, P (ECommunicate ans)) -> emits P (process_communicate E).
Proof. intros H w. apply emits_os_step, H. Qed.

Lemma emits_atexit_register c : emits P (atexit_register c).
Proof. intros w. exists []. cbn. rewrite app_nil_r. auto. Qed.

Lemma emits_signal_sigint c : emits P (signal_sigint c).
Proof. intros w. exists []. cbn. rewrite app_nil_r. auto. Qed.

End EmitsPrimitives.

(** Goes through a function body statement by statement; what is left are
    the events of its calls. *)
Create HintDb emits discriminated.

Ltac emits_go :=
  cbv zeta;
  repeat first
    [ solve [auto 1 with emits nocore]
    | apply emits_ret | apply emits_raise | apply emits_sys_exit
    | apply emits_lift | apply emits_get_locals | apply emits_set_locals
    | apply emits_atexit_register | apply emits_signal_sigint
    | apply emits_bind; [|intros ?]
    | apply emits_try_except; [|intros ?]
    | apply emits_try_except2; [|intros ?|intros ?]
    | apply emits_for_each; intros ?
    | apply emits_in_world | apply emits_call
    | apply emits_request; intros ?
    | apply emits_version_probe; intros ?
    | apply emits_random_choices; intros ?
    | apply emits_urandom_hex; intros ?
    | apply emits_time_time; intros ?
    | apply emits_open_write; intros ?
    | apply emits_open_read; intros ?
    | apply emits_popen; intros ?
    | apply emits_path_exists; intros ?
    | apply emits_os_remove; intros ?
    | apply emits_process_poll; intros ?
    | apply emits_process_terminate; intros ?
    | apply emits_process_communicate; intros ?
    | match goal with
      | |- emits _ (if ?b then _ else _) => destruct b
      | |- emits _ (match ?x with _ => _ end) => destruct x
      end ].

(* ------------------------------------------------------------------ *)

Section EmitsProgram.

Variable E : env.

Lemma check_cloudflared_installed_emits :
  emits startup_event (check_cloudflared_installed E).
Proof. unfold check_cloudflared_installed. emits_go; constructor. Qed.

Lemma choose_name_emits a : emits startup_event (choose_name E a).
Proof. unfold choose_name. emits_go; constructor. Qed.

Lemma get_account_id_emits : emits startup_event (get_account_id E).
Proof. unfold get_account_id. emits_go; constructor. Qed.

Lemma create_tunnel_with_credentials_emits account_id tunnel_name debug :
  emits (create_event account_id)
    (create_tunnel_with_credentials E account_id tunnel_name debug).
Proof.
  unfold create_tunnel_with_credentials, save_token. emits_go; constructor.
Qed.

Lemma create_tunnel_config_emits account_id tunnel_id tunnel_name port
    local_addr custom_domain debug :
  emits (config_event account_id tunnel_id tunnel_name port local_addr)
    (create_tunnel_config E account_id tunnel_id tunnel_name port local_addr
       custom_domain debug).
Proof.
  unfold create_tunnel_config. emits_go; constructor.
Qed.

Lemma run_cloudflared_emits token_file config_file tunnel_id account_id
    tunnel_name debug :
  emits launch_event
    (run_cloudflared E token_file config_file tunnel_id account_id
       tunnel_name debug).
Proof. unfold run_cloudflared. emits_go; constructor. Qed.

Lemma delete_tunnel_and_dns_emits (c : closure) zone_id debug :
  emits (teardown_event c)
    (delete_tunnel_and_dns E (c_account_id c) (c_tunnel_id c)
       (c_tunnel_name c) zone_id debug).
Proof.
  unfold delete_tunnel_and_dns, delete_tunnel_and_dns_body, list_zones,
    scan_zone, delete_exact, delete_prefixed, delete_record, delete_tunnel,
    read_all_zones, assign_all_zones, count_deleted, assign_tunnel_deleted.
  emits_go; constructor.
Qed.

Hint Resolve delete_tunnel_and_dns_emits : emits.

Lemma cleanup_emits (c : closure) : emits (teardown_event c) (cleanup E c).
Proof.
  unfold cleanup. emits_go; constructor.
Qed.

Lemma signal_handler_emits (c : closure) :
  emits (teardown_event c) (signal_handler E c).
Proof. unfold signal_handler. emits_go; constructor. Qed.


Lemma process_wait_emits : emits wait_event (process_wait E).
Proof.
  intros w. unfold process_wait.
  destruct (env_wait E (w_trace w)) as [code|] eqn:Ew.
  - exists [EWait (Exited code)]. split; [reflexivity|]. repeat constructor.
  - destruct (w_sigint (log (EWait Sigint) w)) as [c|].
    + destruct (signal_handler_emits c (log (EWait Sigint) w)) as [evs [E1 F1]].
      exists (EWait Sigint :: evs). unfold trace_of, traced_world in *.
      rewrite E1. cbn. rewrite <- app_assoc. split; [reflexivity|].
      constructor; [constructor|].
      eapply Forall_impl; [|exact F1]. intros ev Hev.
      exact (wa_teardown c ev Hev).
    + exists [EWait Sigint]. split; [reflexivity|]. repeat constructor.
Qed.

Lemma run_atexit_emits (handlers : list closure) (w : world) :
  exists evs, w_trace (run_atexit E handlers w) = (w_trace w ++ evs)%list /\
              Forall wait_event evs.
Proof.
  revert w. induction handlers as [|c rest IH]; intros w; cbn [run_atexit].
  - exists []. rewrite app_nil_r. auto.
  - destruct (cleanup_emits c w) as [evs [E1 F1]].
    destruct (IH (snd (cleanup E c w))) as [evs2 [E2 F2]].
    exists (evs ++ evs2)%list. unfold trace_of, traced_world in *.
    rewrite E2, E1, app_assoc. split; [reflexivity|].
    apply Forall_app. split; [|exact F2].
    eapply Forall_impl; [|exact F1]. intros ev Hev.
    exact (wa_teardown c ev Hev).
Qed.


Lemma get_account_id_run a : emits (run_event a) (get_account_id E).
Proof. eapply emits_weaken; [|apply get_account_id_emits]. apply re_startup. Qed.

Lemma create_tunnel_with_credentials_run a account_id tunnel_name debug :
  emits (run_event a)
    (create_tunnel_with_credentials E account_id tunnel_name debug).
Proof.
  eapply emits_weaken; [|apply create_tunnel_with_credentials_emits].
  apply re_create.
Qed.

Lemma create_tunnel_config_run a account_id tunnel_id tunnel_name
    custom_domain debug :
  emits (run_event a)
    (create_tunnel_config E account_id tunnel_id tunnel_name (arg_port a)
       (arg_local_addr a) custom_domain debug).
Proof.
  eapply emits_weaken; [|apply create_tunnel_config_emits]. apply re_config.
Qed.

Lemma run_cloudflared_run a token_file config_file tunnel_id account_id
    tunnel_name debug :
  emits (run_event a)
    (run_cloudflared E token_file config_file tunnel_id account_id
       tunnel_name debug).
Proof. eapply emits_weaken; [|apply run_cloudflared_emits]. apply re_launch. Qed.

Lemma process_wait_run a : emits (run_event a) (process_wait E).
Proof. eapply emits_weaken; [|apply process_wait_emits]. apply re_wait. Qed.

Lemma check_cloudflared_installed_run a :
  emits (run_event a) (check_cloudflared_installed E).
Proof.
  eapply emits_weaken; [|apply check_cloudflared_installed_emits].
  apply re_startup.
Qed.

Lemma choose_name_run a : emits (run_event a) (choose_name E a).
Proof. eapply emits_weaken; [|apply choose_name_emits]. apply re_startup. Qed.

Hint Resolve get_account_id_run create_tunnel_with_credentials_run
  create_tunnel_config_run run_cloudflared_run process_wait_run
  check_cloudflared_installed_run choose_name_run : emits.

Lemma provision_and_run_emits a tunnel_name :
  emits (run_event a) (provision_and_run E a tunnel_name).
Proof. unfold provision_and_run. emits_go. Qed.

Lemma main_emits a : emits (run_event a) (main E a).
Proof.
  pose proof provision_and_run_emits as Hp.
  unfold main, install_instructions. emits_go; apply Hp.
Qed.

(** The trace of a whole run holds nothing but [run_event]s. *)
Lemma run_events a : Forall (run_event a) (w_trace (snd (run E a))).
Proof.
  unfold run.
  destruct (main_emits a initial_world) as [evs [E1 F1]].
  destruct (main E a initial_world) as [r w]. cbn in *.
  destruct (run_atexit_emits (w_atexit w) w) as [evs2 [E2 F2]].
  rewrite E2. unfold trace_of, traced_world in E1. rewrite E1. cbn.
  apply Forall_app. split; [exact F1|].
  eapply Forall_impl; [|exact F2]. apply re_wait.
Qed.

End EmitsProgram.

(* ================================================================== *)
(** ** Statements that leave the state alone *)


Section Pure.

Context {St : Type}.

Lemma pure_ret {A} (a : A) : pure (@ret St A a).
Proof. intros s. reflexivity. Qed.

Lemma pure_raise {A} (e : exn) : pure (@raise St A e).
Proof. intros s. reflexivity. Qed.

Lemma pure_lift {A} (r : result A) : pure (@lift St A r).
Proof. intros s. reflexivity. Qed.

Lemma pure_bind {A B} (m : M St A) (f : A -> M St B) :
  pure m -> (forall a, pure (f a)) -> pure (bind m f).
Proof.
  intros Hm Hf s. unfold bind. specialize (Hm s).
  destruct (m s) as [[a|e] s1]; cbn in *; subst; [apply Hf|reflexivity].
Qed.

Lemma pure_try_except {A} (m : M St A) c (h : exn -> M St A) :
  pure m -> (forall e, pure (h e)) -> pure (try_except m c h).
Proof.
  intros Hm Hh s. unfold try_except. specialize (Hm s).
  destruct (m s) as [[a|e] s1]; cbn in *; subst; [reflexivity|].
  destruct (c e); [apply Hh|reflexivity].
Qed.

End Pure.

Ltac pure_go :=
  cbv zeta;
  repeat first
    [ apply pure_ret | apply pure_raise | apply pure_lift
    | apply pure_bind; [|intros ?]
    | apply pure_try_except; [|intros ?]
    | match goal with
      | |- pure (if ?b then _ else _) => destruct b
      | |- pure (match ?x with _ => _ end) => destruct x
      end ].

(* ================================================================== *)
(** ** Provisioning: ingress and DNS *)

Section Provisioning.

Variable E : env.

(** The world after [get_account_domain]: the zones request is logged,
    nothing else. *)
Lemma get_account_domain_world (account_id : json) (debug : bool) (w : world)
    (h : headers) :
  get_headers E = Ok h ->
  let ans := env_http E (w_trace w) GET (AccountZones account_id) h None in
  snd (get_account_domain E account_id debug w)
    = log (EHttp GET (AccountZones account_id) h None ans) w /\
  forall k, ans = HttpRaises k ->
    fst (get_account_domain E account_id debug w) = Raise (Error k).
Proof.
  intros Hh. cbv zeta.
  split; [|intros k Ea]; unfold get_account_domain, request;
    unfold bind at 1; unfold lift at 1; rewrite Hh; unfold bind at 1.
  - destruct (env_http E (w_trace w) GET (AccountZones account_id) h None)
      as [r|k]; [|reflexivity].
    match goal with |- snd (?m ?s) = _ => assert (Hp : pure m) end.
    { pure_go. }
    apply Hp.
  - rewrite Ea. reflexivity.
Qed.

(** What [create_tunnel_config] has done when it returns: one zones
    request, one configuration PUT carrying the returned hostname, one DNS
    record POST. *)
Lemma create_tunnel_config_returns (account_id tunnel_id : json)
    (tunnel_name : string) (port : Z) (local_addr : string)
    (custom_domain : option string) (debug : bool) (w w' : world)
    (hostname : string) (config_file : option string) :
  create_tunnel_config E account_id tunnel_id tunnel_name port local_addr
    custom_domain debug w = (Ok (hostname, config_file), w') ->
  exists domain h a1 a2 a3,
    fst (get_account_domain E account_id debug w) = Ok domain /\
    hostname = tunnel_name ++ "." ++ py_str domain /\
    config_file = None /\
    w_trace w' =
      (w_trace w ++
       [EHttp GET (AccountZones account_id) h None a1;
        EHttp PUT (CfdTunnelConfigurations account_id tunnel_id) h
          (Some (ingress_config hostname local_addr port)) a2;
        EHttp POST (ZoneDnsRecords (JStr hardcoded_zone_id)) h
          (Some (dns_data tunnel_id tunnel_name)) a3])%list.
Proof.
  unfold create_tunnel_config. unfold bind at 1.
  destruct (get_headers E) as [h|e] eqn:Hh.
  2:{ unfold get_account_domain, bind, lift. rewrite Hh. discriminate. }
  destruct (get_account_domain_world account_id debug w h Hh) as [Hw _].
  destruct (get_account_domain E account_id debug w) as [[domain|e] w1];
    [|discriminate].
  cbn in Hw. subst w1.
  unfold bind at 1. unfold lift at 1.
  unfold bind at 1. unfold request at 1.
  match goal with |- context [log (EHttp PUT ?ep ?hh ?d ?a) ?ww] =>
    set (w2 := log (EHttp PUT ep hh d a) ww); destruct a as [r2|k2] eqn:Ea2
  end; [|discriminate].
  unfold bind, try_except, request, ret.
  match goal with |- context [log (EHttp POST ?ep ?hh ?d ?a) ?ww] =>
    set (w3 := log (EHttp POST ep hh d a) ww); destruct a as [r3|k3] eqn:Ea3
  end; cbn; intros [= <- <- <-];
    (do 5 eexists; split; [reflexivity|]; split; [reflexivity|];
     split; [reflexivity|]; subst w3 w2; cbn;
     rewrite <- !app_assoc; cbn; rewrite ?Ea3; reflexivity).
Qed.

End Provisioning.


(** C9.  Every configuration PUT of a run carries exactly two ingress
    rules: the public hostname mapped to [http://<local_addr>:<port>],
    then the catch-all [http_status:404]; and when [create_tunnel_config]
    returns, the hostname in the rule is the hostname it returns. *)
Theorem ingress_two_rules (E : env) (a : args) :
  (forall ep h data ans,
     In (EHttp PUT ep h data ans) (w_trace (snd (run E a))) ->
     exists tunnel_name domain,
       data = Some (two_rules (tunnel_name ++ "." ++ py_str domain)
                      ("http://" ++ arg_local_addr a ++ ":" ++ str_int (arg_port a)))) /\
  (forall account_id tunnel_id tunnel_name custom_domain w w' hostname config_file,
     create_tunnel_config E account_id tunnel_id tunnel_name (arg_port a)
       (arg_local_addr a) custom_domain (arg_debug a) w
       = (Ok (hostname, config_file), w') ->
     exists e1 h ans e3,
       w_trace w' =
         (w_trace w ++
          [e1;
           EHttp PUT (CfdTunnelConfigurations account_id tunnel_id) h
             (Some (two_rules hostname
                      ("http://" ++ arg_local_addr a ++ ":" ++ str_int (arg_port a))))
             ans;
           e3])%list).
Proof.
  split.
  - intros ep h data ans Hin.
    pose proof (run_events E a) as HF.
    rewrite Forall_forall in HF. specialize (HF _ Hin).
    inversion HF as [ev H|acc ev H|acc tid name ev H|ev H|ev H]; subst.
    + inversion H.
    + inversion H.
    + inversion H; subst. exists name, domain. reflexivity.
    + inversion H.
    + inversion H as [|c ev' Ht]; subst. inversion Ht.
  - intros account_id tunnel_id tunnel_name custom_domain w w' hostname
      config_file Hrun.
    destruct (create_tunnel_config_returns E _ _ _ _ _ _ _ _ _ _ _ Hrun)
      as [domain [h [a1 [a2 [a3 [_ [_ [_ Ht]]]]]]]].
    do 4 eexists. exact Ht.
Qed.

Lemma ingress_two_rules_witness :
  In (EHttp PUT (CfdTunnelConfigurations (JStr "acc1") (JStr "tun1"))
        (bearer_headers "tok")
        (Some (two_rules "demo-1700000000.example.com" "http://localhost:8080"))
        (Scenario.ok (JObj [("success", JBool true)])))
     (w_trace (snd (run (Scenario.interrupted (6800000001 # 4))
                        (Scenario.demo_args (Some "demo") false)))) /\
  exists tunnel_name domain,
    Some (two_rules "demo-1700000000.example.com" "http://localhost:8080")
    = Some (two_rules (tunnel_name ++ "." ++ py_str domain)
              ("http://" ++ "localhost" ++ ":" ++ str_int 8080)).
Proof.
  assert (Hin :
    In (EHttp PUT (CfdTunnelConfigurations (JStr "acc1") (JStr "tun1"))
          (bearer_headers "tok")
          (Some (two_rules "demo-1700000000.example.com" "http://localhost:8080"))
          (Scenario.ok (JObj [("success", JBool true)])))
       (w_trace (snd (run (Scenario.interrupted (6800000001 # 4))
                          (Scenario.demo_args (Some "demo") false))))).
  { vm_compute. do 8 right. left. reflexivity. }
  split; [exact Hin|].
  exact (proj1 (ingress_two_rules (Scenario.interrupted (6800000001 # 4))
                  (Scenario.demo_args (Some "demo") false)) _ _ _ _ Hin).
Defined.


Lemma added_app (w w' : world) (evs : list event) :
  w_trace w' = (w_trace w ++ evs)%list -> added w w' = evs.
Proof.
  intros H. unfold added. rewrite H.
  rewrite skipn_app, skipn_all, Nat.sub_diag. reflexivity.
Qed.


(** The record is named "demo-1700000000" while the public hostname is
    "demo-1700000000.example.com". *)
Lemma dns_name_is_not_the_hostname :
  ~ dns_record_rule (Scenario.interrupted (6800000001 # 4))
      (JStr "acc1") (JStr "tun1") "demo-1700000000"
      (Scenario.demo_args (Some "demo") false) initial_world.
Proof.
  intros H.
  destruct (H "demo-1700000000.example.com" None _ eq_refl)
    as [zone [h [d [ans [Hf [_ [_ [_ [_ Hn]]]]]]]]].
  vm_compute in Hf. injection Hf as _ _ <- _.
  vm_compute in Hn. discriminate.
Qed.


(* ================================================================== *)
(** ** A failed token fetch *)


Lemma log_trace (ev : event) (w : world) :
  w_trace (log ev w) = (w_trace w ++ [ev])%list.
Proof. reflexivity. Qed.

(** *** Running a statement one step *)

Section Steps.

Variable E : env.
Context {A : Type}.

Lemma bind_lift {St B} (r : result B) (f : B -> M St A) (s : St) :
  bind (lift r) f s = match r with Ok b => f b s | Raise e => (Raise e, s) end.
Proof. destruct r; reflexivity. Qed.

Lemma bind_ret {St B} (b : B) (f : B -> M St A) (s : St) :
  bind (ret b) f s = f b s.
Proof. reflexivity. Qed.

Lemma bind_raise {St B} (e : exn) (f : B -> M St A) (s : St) :
  bind (@raise St B e) f s = (Raise e, s).
Proof. reflexivity. Qed.

Lemma bind_bind {St B C} (m : M St B) (g : B -> M St C) (f : C -> M St A) (s : St) :
  bind (bind m g) f s = bind m (fun b => bind (g b) f) s.
Proof. unfold bind. destruct (m s) as [[b|e] s']; reflexivity. Qed.

Lemma bind_request m ep h d (f : response -> M world A) (w : world) :
  bind (request E m ep h d) f w =
    match env_http E (w_trace w) m ep h d with
    | Responds r => f r (log (EHttp m ep h d (Responds r)) w)
    | HttpRaises k => (Raise (Error k), log (EHttp m ep h d (HttpRaises k)) w)
    end.
Proof. unfold bind, request. destruct (env_http _ _ _ _ _ _); reflexivity. Qed.

Lemma bind_urandom_hex (f : string -> M world A) (w : world) :
  bind (urandom_hex E) f w =
    f (env_urandom E (w_trace w)) (log (EUrandom (env_urandom E (w_trace w))) w).
Proof. reflexivity. Qed.

Lemma bind_open_write path content (f : unit -> M world A) (w : world) :
  bind (open_write E path content) f w =
    match env_write E (w_trace w) path content with
    | OsOk => f tt (log (EWrite path content OsOk) w)
    | OsRaises k => (Raise (Error k), log (EWrite path content (OsRaises k)) w)
    end.
Proof. unfold bind, open_write, os_step. destruct (env_write _ _ _ _); reflexivity. Qed.

End Steps.

(** One step of a run: rewrite the head statement, or split on what it
    was answered. *)
Ltac run_step :=
  first
    [ rewrite bind_bind
    | rewrite bind_lift
    | rewrite bind_ret
    | rewrite bind_raise
    | rewrite bind_request
    | rewrite bind_urandom_hex
    | rewrite bind_open_write
    | match goal with
      | |- context [match ?x with _ => _ end] =>
          lazymatch x with
          | context [@bind] => fail
          | _ => destruct x eqn:?
          end
      end ];
  cbv beta.

Section TokenFailure.

Variable E : env.

(** [create_tunnel_with_credentials]: once the token fetch is answered
    with another status than 200 it exits with code 1, and has written
    nothing. *)
Lemma create_tunnel_with_credentials_token_failure account_id tunnel_name
    debug (w : world) :
  exists evs,
    w_trace (snd (create_tunnel_with_credentials E account_id tunnel_name debug w))
      = (w_trace w ++ evs)%list /\
    (Exists bad_token_fetch evs ->
     fst (create_tunnel_with_credentials E account_id tunnel_name debug w)
       = Raise (SystemExit 1) /\
     Forall no_launch evs).
Proof.
  unfold create_tunnel_with_credentials, save_token. cbv zeta.
  repeat run_step.
  all: unfold sys_exit, raise, ret; cbn [fst snd];
    rewrite ?log_trace, <- ?app_assoc; cbn [app].
  all: eexists; (split; [try reflexivity; rewrite app_nil_r; reflexivity|]).
  all: intros Hbad.
  all: repeat match goal with
           | H : Exists _ (_ :: _) |- _ => inversion H; clear H; subst
           | H : Exists _ [] |- _ => inversion H
           | H : bad_token_fetch _ |- _ => cbn in H; try contradiction
           end.
  all: try (split; [reflexivity|repeat constructor]).
  all: exfalso;
    repeat match goal with
           | H : negb (_ =? _) = false |- _ =>
               apply negb_false_iff, Z.eqb_eq in H
           end;
    congruence.
Qed.

End TokenFailure.


Lemma startup_event_quiet ev :
  startup_event ev -> ~ bad_token_fetch ev /\ no_launch ev.
Proof. intros H; inversion H; cbn; auto. Qed.

Lemma wait_event_quiet ev :
  wait_event ev -> ~ bad_token_fetch ev /\ no_launch ev.
Proof.
  intros H; inversion H as [|c ev' Ht]; subst; cbn; auto.
  inversion Ht; cbn; auto.
Qed.

Lemma after_create_event_no_token ev :
  after_create_event ev -> ~ bad_token_fetch ev.
Proof.
  intros H; inversion H as [? ? ? ? ? ? Hc|? Hl|? Hw]; subst.
  - inversion Hc; cbn; auto.
  - inversion Hl; cbn; auto.
  - apply wait_event_quiet, Hw.
Qed.

Lemma Exists_none {X} (P : X -> Prop) (l : list X) :
  Forall (fun x => ~ P x) l -> ~ Exists P l.
Proof.
  intros HF HE. apply Exists_exists in HE. destruct HE as [x [Hin HP]].
  rewrite Forall_forall in HF. exact (HF x Hin HP).
Qed.

Section TokenFailureRun.

Variable E : env.

Lemma bind_cases {St A B} (m : M St A) (f : A -> M St B) (s : St) :
  bind m f s = match m s with
               | (Ok a, s') => f a s'
               | (Raise e, s') => (Raise e, s')
               end.
Proof. reflexivity. Qed.

Lemma create_tunnel_config_after a account_id tunnel_id tunnel_name
    custom_domain debug :
  emits after_create_event
    (create_tunnel_config E account_id tunnel_id tunnel_name (arg_port a)
       (arg_local_addr a) custom_domain debug).
Proof.
  eapply emits_weaken; [|apply create_tunnel_config_emits].
  intros ev. apply ac_config.
Qed.

Lemma run_cloudflared_after token_file config_file tunnel_id account_id
    tunnel_name debug :
  emits after_create_event
    (run_cloudflared E token_file config_file tunnel_id account_id
       tunnel_name debug).
Proof. eapply emits_weaken; [|apply run_cloudflared_emits]. apply ac_launch. Qed.

Lemma process_wait_after : emits after_create_event (process_wait E).
Proof. eapply emits_weaken; [|apply process_wait_emits]. apply ac_wait. Qed.

Hint Resolve create_tunnel_config_after run_cloudflared_after
  process_wait_after : emits.

Lemma provision_and_run_token_failure (a : args) (tunnel_name : string)
    (w : world) :
  exists evs,
    w_trace (snd (provision_and_run E a tunnel_name w))
      = (w_trace w ++ evs)%list /\
    (Exists bad_token_fetch evs ->
     fst (provision_and_run E a tunnel_name w) = Raise (SystemExit 1) /\
     Forall no_launch evs).
Proof.
  unfold provision_and_run. cbv zeta. rewrite bind_lift.
  destruct (get_api_key E) as [api_key|e].
  2:{ exists []. rewrite app_nil_r. split; [reflexivity|]. intros H; inversion H. }
  rewrite bind_cases.
  destruct (get_account_id_emits E w) as [evs1 [E1 F1]].
  destruct (get_account_id E w) as [[account_id|e] w1]; cbn [fst snd] in *.
  2:{ exists evs1. split; [exact E1|]. intros H. exfalso.
      revert H. apply Exists_none. eapply Forall_impl; [|exact F1].
      intros ev Hev. apply startup_event_quiet, Hev. }
  rewrite bind_cases.
  destruct (create_tunnel_with_credentials_token_failure E account_id
              tunnel_name (arg_debug a) w1) as [evs2 [E2 F2]].
  destruct (create_tunnel_with_credentials E account_id tunnel_name
              (arg_debug a) w1) as [[created|e] w2]; cbn [fst snd] in *.
  - match goal with |- context [snd (?m w2)] =>
      assert (Ht : emits after_create_event m) by emits_go
    end.
    destruct (Ht w2) as [evs3 [E3 F3]].
    exists (evs1 ++ evs2 ++ evs3)%list.
    unfold trace_of, traced_world in *.
    split; [rewrite E3, E2, E1, <- !app_assoc; reflexivity|].
    intros H. exfalso.
    apply Exists_app in H. destruct H as [H|H].
    { revert H. apply Exists_none. eapply Forall_impl; [|exact F1].
      intros ev Hev. apply startup_event_quiet, Hev. }
    apply Exists_app in H. destruct H as [H|H].
    { destruct (F2 H) as [Hr _]. discriminate. }
    revert H. apply Exists_none. eapply Forall_impl; [|exact F3].
    apply after_create_event_no_token.
  - exists (evs1 ++ evs2)%list. unfold trace_of, traced_world in *.
    split; [rewrite E2, E1, <- !app_assoc; reflexivity|].
    intros H. apply Exists_app in H. destruct H as [H|H].
    { exfalso. revert H. apply Exists_none. eapply Forall_impl; [|exact F1].
      intros ev Hev. apply startup_event_quiet, Hev. }
    destruct (F2 H) as [Hr Hq]. split; [congruence|].
    apply Forall_app. split; [|exact Hq].
    eapply Forall_impl; [|exact F1]. intros ev Hev.
    apply startup_event_quiet, Hev.
Qed.

End TokenFailureRun.

Section TokenFailureMain.

Variable E : env.

Lemma main_token_failure (a : args) (w : world) :
  exists evs,
    w_trace (snd (main E a w)) = (w_trace w ++ evs)%list /\
    (Exists bad_token_fetch evs ->
     fst (main E a w) = Raise (SystemExit 1) /\ Forall no_launch evs).
Proof.
  assert (Hquiet : forall evs, Forall startup_event evs ->
            Forall no_launch evs /\ ~ Exists bad_token_fetch evs).
  { intros evs HF. split.
    - eapply Forall_impl; [|exact HF]. intros ev Hev.
      apply startup_event_quiet, Hev.
    - apply Exists_none. eapply Forall_impl; [|exact HF]. intros ev Hev.
      apply startup_event_quiet, Hev. }
  unfold main. cbv zeta. rewrite bind_cases.
  destruct (check_cloudflared_installed_emits E w) as [evs1 [E1 F1]].
  destruct (Hquiet evs1 F1) as [Q1 N1].
  destruct (check_cloudflared_installed E w) as [[installed|e] w1];
    cbn [fst snd] in *.
  2:{ exists evs1. split; [exact E1|]. intros H. contradiction. }
  destruct installed; cbn [negb].
  2:{ unfold install_instructions, sys_exit. rewrite bind_raise.
      cbn [fst snd].
      exists evs1. split; [exact E1|]. intros H. contradiction. }
  rewrite bind_ret, bind_cases.
  destruct (choose_name_emits E a w1) as [evs2 [E2 F2]].
  destruct (Hquiet evs2 F2) as [Q2 N2].
  destruct (choose_name E a w1) as [[names|e] w2]; cbn [fst snd] in *.
  2:{ exists (evs1 ++ evs2)%list. unfold trace_of, traced_world in *.
      split; [rewrite E2, E1, <- app_assoc; reflexivity|].
      intros H. apply Exists_app in H. destruct H; contradiction. }
  destruct (provision_and_run_token_failure E a (snd names) w2)
    as [evs3 [E3 F3]].
  unfold try_except2.
  destruct (provision_and_run E a (snd names) w2) as [[u|e] w3];
    cbn [fst snd] in *.
  - exists (evs1 ++ evs2 ++ evs3)%list. unfold trace_of, traced_world in *.
    split; [rewrite E3, E2, E1, <- !app_assoc; reflexivity|].
    intros H. apply Exists_app in H. destruct H as [H|H]; [contradiction|].
    apply Exists_app in H. destruct H as [H|H]; [contradiction|].
    destruct (F3 H) as [Hr _]. discriminate.
  - assert (Htr : forall r,
        w_trace (snd (if is_kind RequestException e
                      then @sys_exit world unit 1 w3
                      else if is_Exception e then @sys_exit world unit 1 w3
                      else (r, w3)))
        = (w_trace w ++ evs1 ++ evs2 ++ evs3)%list).
    { intros r. unfold trace_of, traced_world in *.
      destruct (is_kind RequestException e), (is_Exception e); cbn;
        rewrite E3, E2, E1, <- !app_assoc; reflexivity. }
    exists (evs1 ++ evs2 ++ evs3)%list. split; [apply Htr|].
    intros H. apply Exists_app in H. destruct H as [H|H]; [contradiction|].
    apply Exists_app in H. destruct H as [H|H]; [contradiction|].
    destruct (F3 H) as [Hr Hq]. injection Hr as ->. cbn. split; [reflexivity|].
    repeat (apply Forall_app; split); assumption.
Qed.

End TokenFailureMain.


(** C6.  In a run whose token fetch is answered with a status other than
    200 the process exits with code 1, no file is written and the tunnel
    client is not launched. *)
Theorem token_fetch_failure (E : env) (a : args) :
  Exists bad_token_fetch (w_trace (snd (run E a))) ->
  fst (run E a) = 1 /\
  (forall path content ans,
     ~ In (EWrite path content ans) (w_trace (snd (run E a)))) /\
  (forall cmd ans, ~ In (EPopen cmd ans) (w_trace (snd (run E a)))).
Proof.
  unfold run.
  destruct (main_token_failure E a initial_world) as [evs [E1 F1]].
  destruct (main E a initial_world) as [r w]. cbn [fst snd] in *.
  destruct (run_atexit_emits E (w_atexit w) w) as [evs2 [E2 F2]].
  rewrite E2, E1. cbn [initial_world w_trace app].
  intros H. apply Exists_app in H. destruct H as [H|H].
  - destruct (F1 H) as [-> Hq].
    assert (Hall : Forall no_launch (evs ++ evs2)).
    { apply Forall_app. split; [exact Hq|].
      eapply Forall_impl; [|exact F2]. intros ev Hev.
      apply wait_event_quiet, Hev. }
    rewrite Forall_forall in Hall.
    split; [reflexivity|].
    split; intros; intros Hin; exact (Hall _ Hin).
  - exfalso. revert H. apply Exists_none.
    eapply Forall_impl; [|exact F2]. intros ev Hev.
    apply wait_event_quiet, Hev.
Qed.

Lemma token_fetch_failure_witness :
  Exists bad_token_fetch
    (w_trace (snd (run token_refused (Scenario.demo_args (Some "demo") false)))) /\
  fst (run token_refused (Scenario.demo_args (Some "demo") false)) = 1.
Proof.
  assert (H : Exists bad_token_fetch
    (w_trace (snd (run token_refused (Scenario.demo_args (Some "demo") false))))).
  { vm_compute. do 5 apply Exists_cons_tl. apply Exists_cons_hd. discriminate. }
  split; [exact H|].
  exact (proj1 (token_fetch_failure token_refused
                  (Scenario.demo_args (Some "demo") false) H)).
Defined.

(* ================================================================== *)
(** ** What a statement can raise *)


Section Raises.

Context {St : Type}.
Variable Q : exn -> Prop.

Lemma raises_ret {A} (a : A) : raises Q (@ret St A a).
Proof. intros s e H. discriminate. Qed.

Lemma raises_raise {A} (e : exn) : Q e -> raises Q (@raise St A e).
Proof. intros HQ s e' [= <-]. exact HQ. Qed.

Lemma raises_lift {A} (r : result A) :
  (forall e, r = Raise e -> Q e) -> raises Q (@lift St A r).
Proof. intros H s e He. apply H. exact He. Qed.

Lemma raises_bind {A B} (m : M St A) (f : A -> M St B) :
  raises Q m -> (forall a, raises Q (f a)) -> raises Q (bind m f).
Proof.
  intros Hm Hf s e. unfold bind. specialize (Hm s).
  destruct (m s) as [[a|e'] s1]; cbn in *.
  - apply Hf.
  - intros [= <-]. apply Hm. reflexivity.
Qed.

(** [try: m except Exception: h], where [m] raises ordinary exceptions
    only. *)
Lemma raises_try_except {A} (m : M St A) (h : exn -> M St A) :
  raises ordinary m -> (forall e, raises Q (h e)) ->
  raises Q (try_except m is_Exception h).
Proof.
  intros Hm Hh s e. unfold try_except. specialize (Hm s).
  destruct (m s) as [[a|e'] s1]; cbn in *; [discriminate|].
  rewrite (Hm e' eq_refl). apply Hh.
Qed.

Lemma raises_for_each {A} (l : list A) (body : A -> M St unit) :
  (forall x, In x l -> raises Q (body x)) -> raises Q (for_each l body).
Proof.
  induction l as [|x l IH]; intros Hb; cbn.
  - apply raises_ret.
  - apply raises_bind; [apply Hb; left; reflexivity|].
    intros _. apply IH. intros y Hy. apply Hb. right. exact Hy.
Qed.

End Raises.

Section RaisesLocals.

Context {F : Type}.
Variable Q : exn -> Prop.

Lemma raises_in_world {A} (m : M world A) :
  raises Q m -> raises Q (@in_world F A m).
Proof.
  intros Hm [f w] e. unfold in_world. cbn. specialize (Hm w e).
  destruct (m w) as [r w']. exact Hm.
Qed.

Lemma raises_get_locals : raises Q (@get_locals F world).
Proof. intros s e H. discriminate. Qed.

Lemma raises_set_locals (g : F -> F) : raises Q (@set_locals F world g).
Proof. intros s e H. discriminate. Qed.

End RaisesLocals.

Lemma raises_request (E : env) m ep h d : raises ordinary (request E m ep h d).
Proof.
  intros w e. unfold request.
  destruct (env_http _ _ _ _ _ _); cbn; [discriminate|].
  intros [= <-]. reflexivity.
Qed.

(** The operations on JSON values raise ordinary exceptions only. *)
Lemma response_json_ordinary r e : response_json r = Raise e -> ordinary e.
Proof. unfold response_json. destruct (body r); intros [= <-]. reflexivity. Qed.

Lemma py_get_ordinary v k d e : py_get v k d = Raise e -> ordinary e.
Proof. destruct v; intros [= <-]; reflexivity. Qed.

Lemma py_item_ordinary v k e : py_item v k = Raise e -> ordinary e.
Proof.
  destruct v; cbn; try (intros [= <-]; reflexivity).
  destruct (lookup k l); intros [= <-]. reflexivity.
Qed.

Lemma py_iter_ordinary v e : py_iter v = Raise e -> ordinary e.
Proof. destruct v; intros [= <-]; reflexivity. Qed.

Lemma begins_with_tunnel_name_ordinary v n e :
  begins_with_tunnel_name v n = Raise e -> ordinary e.
Proof. destruct v; intros [= <-]; reflexivity. Qed.

Create HintDb raises discriminated.
#[export] Hint Resolve response_json_ordinary py_get_ordinary py_item_ordinary
  py_iter_ordinary begins_with_tunnel_name_ordinary : raises.

Ltac raises_go :=
  cbv zeta;
  repeat first
    [ solve [auto 1 with raises nocore]
    | apply raises_ret
    | apply raises_lift; solve [eauto 2 with raises nocore]
    | apply raises_get_locals | apply raises_set_locals
    | apply raises_bind; [|intros ?]
    | apply raises_try_except; [|intros ?]
    | apply raises_for_each; intros ? ?
    | apply raises_in_world
    | apply raises_request
    | match goal with
      | |- raises _ (if ?b then _ else _) => destruct b
      | |- raises _ (match ?x with _ => _ end) => destruct x
      end ].

(* ================================================================== *)
(** ** Teardown *)


Section StepsLocals.

Variable E : env.
Context {F A : Type}.

Lemma try_cases {St B} (m : M St B) c (h : exn -> M St B) (s : St) :
  try_except m c h s =
    match m s with
    | (Ok a, s') => (Ok a, s')
    | (Raise e, s') => if c e then h e s' else (Raise e, s')
    end.
Proof. reflexivity. Qed.

Lemma bind_in_world_request m ep h d (f : response -> M (F * world) A)
    (l : F) (w : world) :
  bind (in_world (request E m ep h d)) f (l, w) =
    match env_http E (w_trace w) m ep h d with
    | Responds r => f r (l, log (EHttp m ep h d (Responds r)) w)
    | HttpRaises k =>
        (Raise (Error k), (l, log (EHttp m ep h d (HttpRaises k)) w))
    end.
Proof.
  unfold bind, in_world, request. cbn.
  destruct (env_http _ _ _ _ _ _); reflexivity.
Qed.

Lemma bind_set_locals (g : F -> F) (f : unit -> M (F * world) A) l (w : world) :
  bind (set_locals g) f (l, w) = f tt (g l, w).
Proof. reflexivity. Qed.

Lemma bind_get_locals (f : F -> M (F * world) A) l (w : world) :
  bind get_locals f (l, w) = f l (l, w).
Proof. reflexivity. Qed.

End StepsLocals.

Section Teardown.

Variable E : env.

Lemma single_zone_has_id (z : string) :
  Forall has_id [JObj [("id", JStr z); ("name", JStr "unknown")]].
Proof. repeat constructor. exists (JStr z). reflexivity. Qed.

(** Step 1 always ends with a non-empty list of zones when a zone id is
    given, whatever the zones request does; it sends that one request. *)
Lemma list_zones_given (account_id : json) (z : string) (h : headers)
    (l : locals) (w : world) :
  zones_carry_ids E -> z <> "" ->
  exists l' ans items,
    list_zones E account_id (Some z) h (l, w)
      = (Ok tt, (l', log (EHttp GET (AccountZones account_id) h None ans) w)) /\
    all_zones l' = Some (JArr items) /\ Forall has_id items /\
    dns_records_deleted l' = dns_records_deleted l.
Proof.
  intros Hids Hz.
  assert (Hg : given (Some z) = true).
  { cbn. destruct (String.eqb_spec z ""); [contradiction|reflexivity]. }
  unfold list_zones, read_all_zones, assign_all_zones. rewrite Hg.
  unfold single_zone. cbv zeta.
  rewrite bind_cases, try_cases, bind_in_world_request.
  destruct (env_http E (w_trace w) GET (AccountZones account_id) h None)
    as [r|k] eqn:Ea; cbv beta iota; cbn [is_Exception].
  2:{ unfold set_locals. cbn. do 3 eexists. split; [reflexivity|].
      cbn. split; [reflexivity|]. split; [apply single_zone_has_id|reflexivity]. }
  rewrite bind_set_locals.
  destruct (Z.eqb_spec (status_code r) 200) as [Hs|Hs].
  2:{ unfold set_locals. cbn. do 3 eexists. split; [reflexivity|].
      cbn. split; [reflexivity|]. split; [apply single_zone_has_id|reflexivity]. }
  rewrite bind_lift. unfold response_json.
  destruct (body r) as [j|] eqn:Hb; cbv beta iota; cbn [is_Exception].
  2:{ unfold set_locals. cbn. do 3 eexists. split; [reflexivity|].
      cbn. split; [reflexivity|]. split; [apply single_zone_has_id|reflexivity]. }
  rewrite bind_lift.
  destruct (py_get j "result" (JArr [])) as [zones|e] eqn:Hr;
    cbv beta iota.
  2:{ rewrite (py_get_ordinary _ _ _ _ Hr).
      unfold set_locals. cbn. do 3 eexists. split; [reflexivity|].
      cbn. split; [reflexivity|]. split; [apply single_zone_has_id|reflexivity]. }
  unfold set_locals. cbn.
  destruct (truthy zones) eqn:Ht; cbn.
  - destruct (Hids _ _ _ _ _ _ Ea Hs Hb Hr Ht) as [items [-> Hitems]].
    do 3 eexists. split; [reflexivity|]. cbn. auto.
  - do 3 eexists. split; [reflexivity|].
    cbn. split; [reflexivity|]. split; [apply single_zone_has_id|reflexivity].
Qed.

End Teardown.

Section TeardownSteps.

Variable E : env.

Lemma delete_exact_ordinary zid name h :
  raises ordinary (delete_exact E zid name h).
Proof.
  unfold delete_exact, delete_record, count_deleted. raises_go.
Qed.

Lemma delete_prefixed_ordinary zid name h :
  raises ordinary (delete_prefixed E zid name h).
Proof.
  unfold delete_prefixed, delete_record, count_deleted. raises_go.
Qed.

(** A zone that carries an id is scanned without anything escaping. *)
Lemma scan_zone_total name h zone :
  has_id zone -> raises nothing (scan_zone E name h zone).
Proof.
  intros [id Hid]. unfold scan_zone.
  apply raises_bind.
  { apply raises_lift. intros e He. congruence. }
  intros id'. apply raises_bind.
  { apply raises_lift. intros e He.
    destruct zone; cbn in Hid, He; discriminate. }
  intros zone_name. apply raises_try_except.
  - apply raises_bind; [apply delete_exact_ordinary|].
    intros _. apply delete_prefixed_ordinary.
  - intros e. apply raises_ret.
Qed.

Lemma scan_zone_emits name h zone :
  emits (fun _ => True) (scan_zone E name h zone).
Proof.
  unfold scan_zone, delete_exact, delete_prefixed, delete_record,
    count_deleted.
  emits_go; exact I.
Qed.

(** The scan of a zone starts with the name query. *)
Lemma scan_zone_queries name h zone id (s : locals * world) :
  py_item zone "id" = Ok id ->
  exists ans evs,
    w_trace (snd (snd (scan_zone E name h zone s)))
      = (w_trace (snd s) ++
         EHttp GET (ZoneDnsRecordsNamed id name) h None ans :: evs)%list.
Proof.
  intros Hid. destruct s as [l w]. unfold scan_zone.
  rewrite bind_lift, Hid. cbv beta iota.
  assert (Hn : exists v, py_get zone "name" (JStr "unknown") = Ok v).
  { destruct zone; cbn in Hid; try discriminate. eexists. reflexivity. }
  destruct Hn as [v Hv]. rewrite bind_lift, Hv. cbv beta iota.
  rewrite try_cases. unfold delete_exact at 1.
  rewrite bind_bind, bind_in_world_request.
  set (ans := env_http E (w_trace w) GET (ZoneDnsRecordsNamed id name) h None).
  destruct ans as [r|k] eqn:Ea.
  - match goal with
    | |- context [match ?m (l, ?w1) with _ => _ end] =>
        assert (Hm : emits (fun _ => True) m)
    end.
    { unfold delete_prefixed, delete_record, count_deleted.
      emits_go; exact I. }
    match goal with
    | |- context [match ?m (l, ?w1) with _ => _ end] =>
        destruct (Hm (l, w1)) as [evs [E1 _]];
        destruct (m (l, w1)) as [[u|e] s1]
    end; cbn [snd fst] in *; unfold trace_of, traced_locals in E1;
      cbn [snd] in E1.
    + exists (Responds r), evs. rewrite E1. cbn.
      rewrite <- app_assoc. reflexivity.
    + exists (Responds r), evs.
      destruct (is_Exception e); cbn; rewrite E1; cbn;
        rewrite <- app_assoc; reflexivity.
  - exists (HttpRaises k), []. reflexivity.
Qed.

(** The loop over zones that all carry an id runs to its end, and has
    queried every one of them. *)
Lemma scan_zones_all name h (items : list json) :
  Forall has_id items ->
  forall s, exists s' evs,
    for_each items (scan_zone E name h) s = (Ok tt, s') /\
    w_trace (snd s') = (w_trace (snd s) ++ evs)%list /\
    forall zone id, In zone items -> py_item zone "id" = Ok id ->
      exists ans, In (EHttp GET (ZoneDnsRecordsNamed id name) h None ans) evs.
Proof.
  induction 1 as [|zone items Hz Hitems IH]; intros s.
  - exists s, []. cbn. rewrite app_nil_r.
    split; [reflexivity|]. split; [reflexivity|]. intros zone id [].
  - cbn [for_each]. rewrite bind_cases.
    pose proof (scan_zone_total name h zone Hz s) as Hnr.
    assert (Hq : forall id, py_item zone "id" = Ok id ->
              exists ans evs,
                w_trace (snd (snd (scan_zone E name h zone s)))
                = (w_trace (snd s) ++
                   EHttp GET (ZoneDnsRecordsNamed id name) h None ans :: evs)%list).
    { intros id Hid. apply scan_zone_queries, Hid. }
    destruct (scan_zone E name h zone s) as [[[]|e] s1]; cbn [fst snd] in *.
    2:{ exfalso. exact (Hnr e eq_refl). }
    destruct (IH s1) as [s' [evs2 [Hrun [Htr Hall]]]].
    destruct Hz as [id0 Hid0].
    destruct (Hq id0 Hid0) as [ans0 [evs1 E1]].
    exists s', (EHttp GET (ZoneDnsRecordsNamed id0 name) h None ans0 :: evs1 ++ evs2)%list.
    split; [exact Hrun|]. split.
    + rewrite Htr, E1, <- app_assoc. reflexivity.
    + intros z id [<-|Hin] Hid.
      * rewrite Hid0 in Hid. injection Hid as <-.
        exists ans0. left. reflexivity.
      * destruct (Hall z id Hin Hid) as [ans Ha]. exists ans.
        right. apply in_or_app. right. exact Ha.
Qed.

(** Step 3 sends the tunnel DELETE and swallows whatever comes back. *)
Lemma delete_tunnel_always account_id tunnel_id h (l : locals) (w : world) :
  exists l' ans,
    delete_tunnel E account_id tunnel_id h (l, w)
      = (Ok tt, (l', log (EHttp DELETE (CfdTunnel account_id tunnel_id) h None ans) w)) /\
    dns_records_deleted l' = dns_records_deleted l.
Proof.
  unfold delete_tunnel, assign_tunnel_deleted.
  rewrite try_cases, bind_in_world_request.
  destruct (env_http E (w_trace w) DELETE (CfdTunnel account_id tunnel_id) h None)
    as [r|k]; cbv beta iota; cbn [is_Exception].
  - destruct (status_code r =? 200); cbn; do 2 eexists; split; reflexivity.
  - cbn. do 2 eexists. split; reflexivity.
Qed.

End TeardownSteps.


(** When the removal of the token file raises, no other teardown step
    runs and the interrupted run exits with code 1. *)
Lemma failed_removal_stops_teardown :
  ~ best_effort (removal_denied (Scenario.interrupted (6800000001 # 4)))
      (Scenario.demo_args (Some "demo") false).
Proof.
  intros H.
  assert (Hin : In (EWait Sigint)
    (w_trace (snd (run (removal_denied (Scenario.interrupted (6800000001 # 4)))
                       (Scenario.demo_args (Some "demo") false))))).
  { vm_compute. do 12 right. left. reflexivity. }
  destruct (H Hin) as [Hd _]. vm_compute in Hd. discriminate.
Qed.

Section BestEffort.

Variable E : env.

Lemma hardcoded_zone_id_given : hardcoded_zone_id <> "".
Proof. discriminate. Qed.

(** The remote part of teardown runs to its end whatever the requests
    do: every listed zone is queried and the tunnel DELETE is the last
    request. *)
Lemma delete_tunnel_and_dns_completes account_id tunnel_id tunnel_name debug
    (w : world) (h : headers) :
  get_headers E = Ok h -> zones_carry_ids E ->
  exists n w' items evs ans,
    delete_tunnel_and_dns E account_id tunnel_id tunnel_name
      (Some hardcoded_zone_id) debug w = (Ok n, w') /\
    all_zones (fst (snd (list_zones E account_id (Some hardcoded_zone_id) h
                           (no_locals, w)))) = Some (JArr items) /\
    w_trace w' =
      (w_trace w ++ evs ++
       [EHttp DELETE (CfdTunnel account_id tunnel_id) h None ans])%list /\
    forall zone id, In zone items -> py_item zone "id" = Ok id ->
      exists a, In (EHttp GET (ZoneDnsRecordsNamed id tunnel_name) h None a) evs.
Proof.
  intros Hh Hids.
  unfold delete_tunnel_and_dns, call, delete_tunnel_and_dns_body.
  rewrite bind_lift, Hh. cbv beta iota.
  destruct (list_zones_given E account_id hardcoded_zone_id h no_locals w
              Hids hardcoded_zone_id_given)
    as [l1 [ans1 [items [Hlz [Haz [Hitems _]]]]]].
  rewrite bind_cases, Hlz. cbv beta iota.
  unfold read_all_zones. rewrite bind_bind, bind_get_locals, Haz, bind_ret.
  rewrite bind_lift. cbn [py_iter]. cbv beta iota.
  rewrite bind_cases.
  destruct (scan_zones_all E tunnel_name h items Hitems
              (l1, log (EHttp GET (AccountZones account_id) h None ans1) w))
    as [[l2 w2] [evs2 [Hscan [Htr Hall]]]].
  rewrite Hscan. cbv beta iota.
  destruct (delete_tunnel_always E account_id tunnel_id h l2 w2)
    as [l3 [ans3 [Hdt _]]].
  rewrite bind_cases, Hdt. cbv beta iota.
  rewrite bind_get_locals. unfold ret. cbn [fst snd].
  exists (dns_records_deleted l3), (log (EHttp DELETE (CfdTunnel account_id tunnel_id) h None ans3) w2),
    items, (EHttp GET (AccountZones account_id) h None ans1 :: evs2), ans3.
  split; [reflexivity|]. split; [exact Haz|]. split.
  - cbn [snd] in Htr. rewrite log_trace, Htr, log_trace.
    rewrite <- !app_assoc. reflexivity.
  - intros zone id Hin Hid. destruct (Hall zone id Hin Hid) as [a Ha].
    exists a. right. exact Ha.
Qed.

(** [cleanup] returns when its two local calls do not raise. *)
Lemma cleanup_completes (c : closure) (w : world) (h : headers) :
  get_headers E = Ok h -> zones_carry_ids E ->
  (forall tr path, env_remove E tr path = OsOk) ->
  (forall tr, env_terminate E tr = OsOk) ->
  fst (cleanup E c w) = Ok tt.
Proof.
  intros Hh Hids Hrm Htm. unfold cleanup.
  assert (Hd : forall w1 (f : nat -> M world unit),
            (forall n w2, fst (f n w2) = Ok tt) ->
            fst (bind (delete_tunnel_and_dns E (c_account_id c) (c_tunnel_id c)
                         (c_tunnel_name c) (Some hardcoded_zone_id) (c_debug c))
                   f w1) = Ok tt).
  { intros w1 f Hf. rewrite bind_cases.
    destruct (delete_tunnel_and_dns_completes (c_account_id c) (c_tunnel_id c)
                (c_tunnel_name c) (c_debug c) w1 h Hh Hids)
      as [n [w' [items [evs [ans [Hrun _]]]]]].
    rewrite Hrun. apply Hf. }
  unfold path_exists, os_remove, process_poll, process_terminate, os_step.
  unfold bind at 1. unfold bind at 1.
  destruct (env_exists E (w_trace w) (c_token_file c)).
  - rewrite Hrm. unfold bind at 1. unfold bind at 1.
    destruct (env_poll E _).
    + unfold ret at 1. apply Hd. reflexivity.
    + rewrite Htm. apply Hd. reflexivity.
  - unfold ret at 1. unfold bind at 1. unfold bind at 1.
    destruct (env_poll E _).
    + unfold ret at 1. apply Hd. reflexivity.
    + rewrite Htm. apply Hd. reflexivity.
Qed.

End BestEffort.

(** C5 (as the code has it).  The remote steps of teardown are best
    effort: whatever the requests do (raise, or answer with any status or
    body), as long as the zones the server lists carry an id,
    [delete_tunnel_and_dns] returns its count, has queried every zone it
    enumerated and ends with the tunnel DELETE.  The two local steps are
    guarded by a test, not by a handler: when they do not raise,
    [cleanup] returns and the SIGINT handler exits with code 0. *)
Theorem remote_teardown_best_effort (E : env) (c : closure) (w : world)
    (h : headers) :
  get_headers E = Ok h -> zones_carry_ids E ->
  (exists n w' items evs ans,
     delete_tunnel_and_dns E (c_account_id c) (c_tunnel_id c) (c_tunnel_name c)
       (Some hardcoded_zone_id) (c_debug c) w = (Ok n, w') /\
     all_zones (fst (snd (list_zones E (c_account_id c) (Some hardcoded_zone_id) h
                            (no_locals, w)))) = Some (JArr items) /\
     w_trace w' =
       (w_trace w ++ evs ++
        [EHttp DELETE (CfdTunnel (c_account_id c) (c_tunnel_id c)) h None ans])%list /\
     forall zone id, In zone items -> py_item zone "id" = Ok id ->
       exists a,
         In (EHttp GET (ZoneDnsRecordsNamed id (c_tunnel_name c)) h None a) evs) /\
  ((forall tr path, env_remove E tr path = OsOk) ->
   (forall tr, env_terminate E tr = OsOk) ->
   fst (cleanup E c w) = Ok tt /\
   fst (signal_handler E c w) = Raise (SystemExit 0)).
Proof.
  intros Hh Hids. split.
  - apply delete_tunnel_and_dns_completes; assumption.
  - intros Hrm Htm.
    pose proof (cleanup_completes E c w h Hh Hids Hrm Htm) as Hc.
    split; [exact Hc|].
    unfold signal_handler. rewrite bind_cases.
    destruct (cleanup E c w) as [[u|e] w1]; cbn in *; [reflexivity|discriminate].
Qed.


Lemma remote_teardown_best_effort_witness :
  fst (delete_tunnel_and_dns dns_down (JStr "acc1") (JStr "tun1")
         "demo-1700000000" (Some hardcoded_zone_id) false initial_world)
    = Ok 0%nat /\
  fst (signal_handler dns_down demo_closure initial_world)
    = Raise (SystemExit 0).
Proof.
  assert (Hzones : zones_carry_ids dns_down).
  { intros tr account_id h r j zones Ha Hs Hb Hr _.
    cbn in Ha. injection Ha as <-. cbn in Hb. injection Hb as <-.
    cbn in Hr. injection Hr as <-.
    eexists. split; [reflexivity|]. repeat constructor.
    exists (JStr "z1"). reflexivity. }
  destruct (remote_teardown_best_effort dns_down demo_closure initial_world
              (bearer_headers "tok") eq_refl Hzones) as [H1 H2].
  split.
  - destruct H1 as [n [w' [items [evs [ans [Hrun _]]]]]].
    vm_compute. reflexivity.
  - apply H2; reflexivity.
Defined.

(* ================================================================== *)
(** ** How often teardown runs *)


(** Ctrl-C runs [cleanup] in the handler, and [sys.exit(0)] runs it again
    from [atexit]: the tunnel DELETE is sent twice. *)
Lemma interrupt_tears_down_twice :
  ~ teardown_once (Scenario.interrupted (6800000001 # 4))
      (Scenario.demo_args (Some "demo") false).
Proof.
  intros H.
  assert (Hin : In (EWait Sigint)
    (w_trace (snd (run (Scenario.interrupted (6800000001 # 4))
                       (Scenario.demo_args (Some "demo") false))))).
  { vm_compute. do 12 right. left. reflexivity. }
  refine (H Hin 21%nat 27%nat (CfdTunnel (JStr "acc1") (JStr "tun1"))
            _ _ _ _ _ _ _ _ _).
  - repeat constructor.
  - vm_compute. reflexivity.
  - vm_compute. reflexivity.
Qed.


Lemma occurrences_app f evs1 evs2 :
  occurrences f (evs1 ++ evs2) = (occurrences f evs1 + occurrences f evs2)%nat.
Proof. unfold occurrences. rewrite filter_app, length_app. reflexivity. Qed.

Lemma occurrences_none f evs : Forall (never f) evs -> occurrences f evs = 0%nat.
Proof.
  induction 1 as [|ev evs Hev _ IH]; [reflexivity|].
  unfold occurrences in *. cbn. rewrite Hev. exact IH.
Qed.

Section Once.

Context {St : Type} {T : Traced St}.
Variable f : event -> bool.

Lemma once_after {A B} (m : M St A) (k : A -> M St B) :
  emits (never f) m -> (forall a, once f (k a)) -> once f (bind m k).
Proof.
  intros Hm Hk s. unfold bind.
  destruct (Hm s) as [evs1 [E1 F1]].
  pose proof (occurrences_none f evs1 F1) as H0.
  destruct (m s) as [[a|e] s1]; cbn [fst snd] in *.
  - destruct (Hk a s1) as [evs2 [E2 [L2 O2]]].
    exists (evs1 ++ evs2)%list. rewrite E2, E1, app_assoc.
    rewrite occurrences_app, H0. auto.
  - exists evs1. rewrite H0. split; [exact E1|]. split; [lia|discriminate].
Qed.

Lemma once_before {A B} (m : M St A) (k : A -> M St B) :
  once f m -> (forall a, emits (never f) (k a)) -> once f (bind m k).
Proof.
  intros Hm Hk s. unfold bind.
  destruct (Hm s) as [evs1 [E1 [L1 O1]]].
  destruct (m s) as [[a|e] s1]; cbn [fst snd] in *.
  - destruct (Hk a s1) as [evs2 [E2 F2]].
    pose proof (occurrences_none f evs2 F2) as H0.
    exists (evs1 ++ evs2)%list. rewrite E2, E1, app_assoc.
    rewrite occurrences_app, H0, Nat.add_0_r.
    split; [reflexivity|]. split; [exact L1|].
    intros b _. exact (O1 a eq_refl).
  - exists evs1. split; [exact E1|]. split; [exact L1|discriminate].
Qed.

(** Handlers that add nothing and never return. *)
Lemma once_try_except2 {A} (m : M St A) c1 (h1 : exn -> M St A) c2 h2 :
  once f m ->
  (forall e s, exists e', h1 e s = (Raise e', s)) ->
  (forall e s, exists e', h2 e s = (Raise e', s)) ->
  once f (try_except2 m c1 h1 c2 h2).
Proof.
  intros Hm H1 H2 s. unfold try_except2.
  destruct (Hm s) as [evs [E1 [L1 O1]]].
  destruct (m s) as [[a|e] s1]; cbn [fst snd] in *.
  - exists evs. auto.
  - exists evs.
    destruct (H1 e s1) as [e1 ->], (H2 e s1) as [e2 ->].
    destruct (c1 e), (c2 e); cbn [fst snd];
      (split; [exact E1|]; split; [exact L1|discriminate]).
Qed.

End Once.

Section OncePerRun.

Variable E : env.

Lemma once_call f {A} (init : locals) (m : M (locals * world) A) :
  once f m -> once f (call init m).
Proof.
  intros Hm w. unfold call.
  destruct (Hm (init, w)) as [evs HE].
  destruct (m (init, w)) as [r s']. exists evs. exact HE.
Qed.

Lemma delete_tunnel_once account_id tunnel_id h :
  once is_tunnel_delete (delete_tunnel E account_id tunnel_id h).
Proof.
  intros [l w].
  destruct (delete_tunnel_always E account_id tunnel_id h l w)
    as [l' [ans [Hrun _]]].
  rewrite Hrun. eexists. split; [reflexivity|]. cbn. auto.
Qed.

Lemma delete_tunnel_and_dns_once account_id tunnel_id tunnel_name zone_id debug :
  once is_tunnel_delete
    (delete_tunnel_and_dns E account_id tunnel_id tunnel_name zone_id debug).
Proof.
  unfold delete_tunnel_and_dns, delete_tunnel_and_dns_body.
  apply once_call.
  apply once_after; [emits_go|intros headers].
  apply once_after.
  { unfold list_zones, read_all_zones, assign_all_zones.
    emits_go; reflexivity. }
  intros _. apply once_after.
  { unfold read_all_zones. emits_go. }
  intros zones. apply once_after; [emits_go|intros items].
  apply once_after.
  { unfold scan_zone, delete_exact, delete_prefixed, delete_record,
      count_deleted.
    emits_go; reflexivity. }
  intros _. apply once_before; [apply delete_tunnel_once|].
  intros _. emits_go.
Qed.

Lemma cleanup_once (c : closure) : once is_tunnel_delete (cleanup E c).
Proof.
  unfold cleanup.
  apply once_after; [emits_go; reflexivity|intros present].
  apply once_after; [emits_go; reflexivity|intros _].
  apply once_after; [emits_go; reflexivity|intros running].
  apply once_after; [emits_go; reflexivity|intros _].
  apply once_before; [apply delete_tunnel_and_dns_once|].
  intros n. emits_go.
Qed.

End OncePerRun.

(** One execution sends the tunnel DELETE at most once, and exactly once
    when it returns; the SIGINT handler followed by the [atexit] handler
    therefore sends it at most twice, and exactly twice when both
    executions return. *)
Lemma cleanup_twice_tunnel (E : env) (c : closure) (w : world) :
  let w1 := snd (signal_handler E c w) in
  let w2 := run_atexit E [c] w1 in
  ((tunnel_deletes (added w (snd (cleanup E c w))) <= 1)%nat /\
   (fst (cleanup E c w) = Ok tt ->
    tunnel_deletes (added w (snd (cleanup E c w))) = 1%nat)) /\
  (tunnel_deletes (added w w2) <= 2)%nat /\
  (fst (cleanup E c w) = Ok tt -> fst (cleanup E c w1) = Ok tt ->
   tunnel_deletes (added w w2) = 2%nat).
Proof.
  cbv zeta. cbn [run_atexit]. unfold tunnel_deletes.
  destruct (cleanup_once E c w) as [evs1 [E1 [L1 O1]]].
  assert (Hw1 : snd (signal_handler E c w) = snd (cleanup E c w)).
  { unfold signal_handler. rewrite bind_cases.
    destruct (cleanup E c w) as [[u|e] w']; reflexivity. }
  rewrite Hw1.
  destruct (cleanup_once E c (snd (cleanup E c w))) as [evs2 [E2 [L2 O2]]].
  unfold trace_of, traced_world in *.
  rewrite (added_app _ _ _ E1).
  assert (E12 : w_trace (snd (cleanup E c (snd (cleanup E c w))))
                = (w_trace w ++ (evs1 ++ evs2))%list).
  { rewrite E2, E1, app_assoc. reflexivity. }
  rewrite (added_app _ _ _ E12), occurrences_app.
  split; [split; [exact L1|apply O1]|]. split; [lia|].
  intros H1 H2. rewrite (O1 _ H1), (O2 _ H2). reflexivity.
Qed.

(* ================================================================== *)
(** ** The DNS record of a run *)

Section DnsOnce.

Variable E : env.

Lemma startup_never_dns ev : startup_event ev -> never is_dns_create ev.
Proof. intros H; inversion H; reflexivity. Qed.

Lemma create_never_dns account_id ev :
  create_event account_id ev -> never is_dns_create ev.
Proof. intros H; inversion H; reflexivity. Qed.

Lemma launch_never_dns ev : launch_event ev -> never is_dns_create ev.
Proof. intros H; inversion H; reflexivity. Qed.

Lemma wait_never_dns ev : wait_event ev -> never is_dns_create ev.
Proof.
  intros H; inversion H as [|c ev' Ht]; subst; [reflexivity|].
  inversion Ht; reflexivity.
Qed.

(** The guarded POST of the record: one request, whatever it does. *)
Lemma dns_post_once zone h d :
  once is_dns_create
    (try_except
       (dns_response <- request E POST (ZoneDnsRecords zone) h (Some d) ;;
        ret tt)
       is_Exception (fun _ => ret tt)).
Proof.
  intros w. rewrite try_cases, bind_request.
  destruct (env_http E (w_trace w) POST (ZoneDnsRecords zone) h (Some d));
    cbv beta iota; cbn [is_Exception ret fst snd];
    (eexists; split; [reflexivity|]; cbn; auto).
Qed.

Lemma create_tunnel_config_once account_id tunnel_id tunnel_name port
    local_addr custom_domain debug :
  once is_dns_create
    (create_tunnel_config E account_id tunnel_id tunnel_name port local_addr
       custom_domain debug).
Proof.
  unfold create_tunnel_config.
  apply once_after; [emits_go; reflexivity|intros domain]. cbv zeta.
  apply once_after; [emits_go|intros headers].
  apply once_after; [emits_go; reflexivity|intros response].
  apply once_before; [apply dns_post_once|intros _; emits_go].
Qed.

Lemma provision_and_run_once a tunnel_name :
  once is_dns_create (provision_and_run E a tunnel_name).
Proof.
  unfold provision_and_run. cbv zeta.
  apply once_after; [emits_go|intros api_key].
  apply once_after.
  { eapply emits_weaken; [|apply get_account_id_emits].
    apply startup_never_dns. }
  intros account_id. apply once_after.
  { eapply emits_weaken; [|apply create_tunnel_with_credentials_emits].
    apply create_never_dns. }
  intros created. apply once_before; [apply create_tunnel_config_once|].
  intros configured. apply emits_bind.
  { eapply emits_weaken; [|apply run_cloudflared_emits].
    apply launch_never_dns. }
  intros _. apply emits_try_except; [|intros e; emits_go].
  eapply emits_weaken; [|apply process_wait_emits]. apply wait_never_dns.
Qed.

Lemma main_once a : once is_dns_create (main E a).
Proof.
  unfold main. cbv zeta.
  apply once_after.
  { eapply emits_weaken; [|apply check_cloudflared_installed_emits].
    apply startup_never_dns. }
  intros installed. apply once_after.
  { unfold install_instructions. emits_go. }
  intros _. apply once_after.
  { eapply emits_weaken; [|apply choose_name_emits]. apply startup_never_dns. }
  intros names. apply once_try_except2.
  - apply provision_and_run_once.
  - intros e s. eexists. reflexivity.
  - intros e s. eexists. reflexivity.
Qed.

(** A run creates at most one DNS record. *)
Lemma run_dns_once a :
  (occurrences is_dns_create (w_trace (snd (run E a))) <= 1)%nat.
Proof.
  unfold run.
  destruct (main_once a initial_world) as [evs [E1 [L1 _]]].
  destruct (main E a initial_world) as [r w]. cbn [fst snd] in *.
  destruct (run_atexit_emits E (w_atexit w) w) as [evs2 [E2 F2]].
  unfold trace_of, traced_world in E1. rewrite E2, E1.
  cbn [initial_world w_trace app]. rewrite occurrences_app.
  rewrite (occurrences_none is_dns_create evs2); [lia|].
  eapply Forall_impl; [|exact F2]. apply wait_never_dns.
Qed.

End DnsOnce.

(** C2 (as the code has it).  When [create_tunnel_config] returns it has
    issued exactly one DNS record creation: a CNAME, proxied, TTL 1
    (automatic), whose content is [<tunnel_id>.cfargotunnel.com] and whose
    name field is the tunnel name; the public hostname it returns is that
    name followed by a dot and the domain.  A whole run issues at most one
    such creation, and every one it issues has this form. *)
Theorem dns_record_created (E : env) (a : args) :
  (forall account_id tunnel_id tunnel_name w w' hostname config_file,
     create_tunnel_config E account_id tunnel_id tunnel_name (arg_port a)
       (arg_local_addr a) (arg_domain a) (arg_debug a) w
       = (Ok (hostname, config_file), w') ->
     exists h d ans domain,
       filter is_dns_create (added w w')
         = [EHttp POST (ZoneDnsRecords (JStr hardcoded_zone_id)) h (Some d) ans] /\
       py_item d "type" = Ok (JStr "CNAME") /\
       py_item d "proxied" = Ok (JBool true) /\
       py_item d "ttl" = Ok (JNum 1) /\
       py_item d "content" = Ok (JStr (py_str tunnel_id ++ ".cfargotunnel.com")) /\
       py_item d "name" = Ok (JStr tunnel_name) /\
       fst (get_account_domain E account_id (arg_debug a) w) = Ok domain /\
       hostname = tunnel_name ++ "." ++ py_str domain) /\
  (occurrences is_dns_create (w_trace (snd (run E a))) <= 1)%nat /\
  (forall ev, In ev (w_trace (snd (run E a))) -> is_dns_create ev = true ->
     exists h tunnel_id tunnel_name ans,
       ev = EHttp POST (ZoneDnsRecords (JStr hardcoded_zone_id)) h
              (Some (dns_data tunnel_id tunnel_name)) ans).
Proof.
  split; [|split].
  - intros account_id tunnel_id tunnel_name w w' hostname config_file Hrun.
    destruct (create_tunnel_config_returns E _ _ _ _ _ _ _ _ _ _ _ Hrun)
      as [domain [h [a1 [a2 [a3 [Hd [Hh [_ Ht]]]]]]]].
    exists h, (dns_data tunnel_id tunnel_name), a3, domain.
    rewrite (added_app _ _ _ Ht).
    repeat (split; [reflexivity|]). split; [exact Hd|exact Hh].
  - apply run_dns_once.
  - intros ev Hin Hdns.
    pose proof (run_events E a) as HF.
    rewrite Forall_forall in HF. specialize (HF _ Hin).
    inversion HF as [ev' H|acc ev' H|acc tid name ev' H|ev' H|ev' H]; subst.
    + apply startup_never_dns in H. congruence.
    + apply create_never_dns in H. congruence.
    + inversion H; subst; try discriminate. do 4 eexists. reflexivity.
    + apply launch_never_dns in H. congruence.
    + apply wait_never_dns in H. congruence.
Qed.

Lemma dns_record_created_witness :
  exists h d ans domain,
    filter is_dns_create
      (added initial_world
         (snd (create_tunnel_config (Scenario.interrupted (6800000001 # 4))
                 (JStr "acc1") (JStr "tun1") "demo-1700000000" 8080
                 "localhost" None false initial_world)))
      = [EHttp POST (ZoneDnsRecords (JStr hardcoded_zone_id)) h (Some d) ans] /\
    py_item d "type" = Ok (JStr "CNAME") /\
    py_item d "proxied" = Ok (JBool true) /\
    py_item d "ttl" = Ok (JNum 1) /\
    py_item d "content" = Ok (JStr (py_str (JStr "tun1") ++ ".cfargotunnel.com")) /\
    py_item d "name" = Ok (JStr "demo-1700000000") /\
    fst (get_account_domain (Scenario.interrupted (6800000001 # 4))
           (JStr "acc1") false initial_world) = Ok domain /\
    "demo-1700000000.example.com" = "demo-1700000000" ++ "." ++ py_str domain.
Proof.
  exact (proj1 (dns_record_created (Scenario.interrupted (6800000001 # 4))
                  (Scenario.demo_args (Some "demo") false))
           (JStr "acc1") (JStr "tun1") "demo-1700000000" initial_world _
           "demo-1700000000.example.com" None eq_refl).
Defined.


(* ================================================================== *)
(** ** Which records teardown deletes *)


(** For the tunnel name "my.app" the zone's records are never listed, and
    the record of the tunnel's own hostname stays. *)
Lemma dotted_name_is_not_scanned :
  ~ scan_rule dotted "my.app" "my.app.example.com" (bearer_headers "tok")
      (JObj [("id", JStr "z1"); ("name", JStr "example.com")])
      [dotted_record].
Proof.
  intros H.
  destruct (H (JStr "z1") eq_refl (fun _ => eq_refl) dotted_record (JStr "r1")
              "my.app.example.com" (or_introl eq_refl) eq_refl eq_refl
              (or_introl eq_refl)) as [ans Hin].
  vm_compute in Hin. destruct Hin as [Hin|[]]. discriminate.
Qed.


Lemma successes_app evs1 evs2 :
  successes (evs1 ++ evs2) = (successes evs1 + successes evs2)%nat.
Proof. unfold successes. rewrite filter_app, length_app. reflexivity. Qed.

Section ZoneScan.

Variable E : env.
Variable tunnel_name : string.
Variable h : headers.
Hypothesis Hanswered : deletes_answered E.

Lemma delete_record_answered zid dns_id (l : locals) (w : world) :
  exists l' ans,
    delete_record E zid dns_id h (l, w)
      = (Ok tt, (l', log (EHttp DELETE (ZoneDnsRecord zid dns_id) h None ans) w)).
Proof.
  unfold delete_record, count_deleted. rewrite bind_in_world_request.
  destruct (Hanswered (w_trace w) zid dns_id h) as [r Hr]. rewrite Hr.
  destruct (status_code r =? 200); cbn; do 2 eexists; reflexivity.
Qed.

(** The loop over the records the name query returned. *)
Lemma exact_loop zid (records : list json) :
  Forall has_id records ->
  forall s, exists s' evs,
    for_each records (fun record =>
      dns_id <- lift (py_item record "id") ;;
      record_name <- lift (py_get record "name" (JStr "unknown")) ;;
      delete_record E zid dns_id h) s = (Ok tt, s') /\
    w_trace (snd s') = (w_trace (snd s) ++ evs)%list /\
    forall record dns_id, In record records ->
      py_item record "id" = Ok dns_id ->
      exists ans, In (EHttp DELETE (ZoneDnsRecord zid dns_id) h None ans) evs.
Proof.
  induction 1 as [|record records [d Hd] _ IH]; intros [l w].
  - exists (l, w), []. cbn. rewrite app_nil_r.
    split; [reflexivity|]. split; [reflexivity|]. intros ? ? [].
  - cbn [for_each]. rewrite bind_bind, bind_lift, Hd. cbv beta iota.
    assert (Hn : exists v, py_get record "name" (JStr "unknown") = Ok v).
    { destruct record; cbn in Hd; try discriminate. eexists. reflexivity. }
    destruct Hn as [v Hv]. rewrite bind_bind, bind_lift, Hv. cbv beta iota.
    destruct (delete_record_answered zid d l w) as [l1 [ans Hdel]].
    rewrite bind_cases, Hdel. cbv beta iota.
    destruct (IH (l1, log (EHttp DELETE (ZoneDnsRecord zid d) h None ans) w))
      as [s' [evs [Hrun [Htr Hall]]]].
    exists s', (EHttp DELETE (ZoneDnsRecord zid d) h None ans :: evs).
    split; [exact Hrun|]. split.
    + rewrite Htr. cbn. rewrite <- app_assoc. reflexivity.
    + intros rec d' [<-|Hin] Hd'.
      * rewrite Hd in Hd'. injection Hd' as <-. exists ans. left. reflexivity.
      * destruct (Hall rec d' Hin Hd') as [a Ha]. exists a. right. exact Ha.
Qed.

(** The loop over all the records of the zone. *)
Lemma prefixed_loop zid (records : list json) :
  Forall listed_record records ->
  forall s, exists s' evs,
    for_each records (fun record =>
      record_name <- lift (py_get record "name" (JStr "")) ;;
      b <- lift (begins_with_tunnel_name record_name tunnel_name) ;;
      if b : bool then
        dns_id <- lift (py_item record "id") ;;
        delete_record E zid dns_id h
      else ret tt) s = (Ok tt, s') /\
    w_trace (snd s') = (w_trace (snd s) ++ evs)%list /\
    forall record dns_id record_name, In record records ->
      py_get record "name" (JStr "") = Ok (JStr record_name) ->
      startswith record_name (tunnel_name ++ ".")
        || String.eqb record_name tunnel_name = true ->
      py_item record "id" = Ok dns_id ->
      exists ans, In (EHttp DELETE (ZoneDnsRecord zid dns_id) h None ans) evs.
Proof.
  induction 1 as [|record records [[d Hd] [n Hn]] _ IH]; intros [l w].
  - exists (l, w), []. cbn. rewrite app_nil_r.
    split; [reflexivity|]. split; [reflexivity|]. intros ? ? ? [].
  - cbn [for_each]. rewrite bind_bind, bind_lift, Hn. cbv beta iota.
    rewrite bind_bind, bind_lift. cbn [begins_with_tunnel_name]. cbv beta iota.
    destruct (startswith n (tunnel_name ++ ".") || String.eqb n tunnel_name)
      eqn:Hb.
    + rewrite bind_bind, bind_lift, Hd. cbv beta iota.
      destruct (delete_record_answered zid d l w) as [l1 [ans Hdel]].
      rewrite bind_cases, Hdel. cbv beta iota.
      destruct (IH (l1, log (EHttp DELETE (ZoneDnsRecord zid d) h None ans) w))
        as [s' [evs [Hrun [Htr Hall]]]].
      exists s', (EHttp DELETE (ZoneDnsRecord zid d) h None ans :: evs).
      split; [exact Hrun|]. split.
      * rewrite Htr. cbn. rewrite <- app_assoc. reflexivity.
      * intros rec d' n' [<-|Hin] Hn' Hm Hd'.
        -- rewrite Hd in Hd'. injection Hd' as <-. exists ans. left. reflexivity.
        -- destruct (Hall rec d' n' Hin Hn' Hm Hd') as [a Ha].
           exists a. right. exact Ha.
    + rewrite bind_ret.
      destruct (IH (l, w)) as [s' [evs [Hrun [Htr Hall]]]].
      exists s', evs. split; [exact Hrun|]. split; [exact Htr|].
      intros rec d' n' [<-|Hin] Hn' Hm Hd'.
      * rewrite Hn in Hn'. injection Hn' as <-. congruence.
      * exact (Hall rec d' n' Hin Hn' Hm Hd').
Qed.

End ZoneScan.

Section ZonePasses.

Variable E : env.
Variable tunnel_name : string.
Variable h : headers.
Hypothesis Hanswered : deletes_answered E.

(** First pass: every record the name query returns gets a DELETE. *)
Lemma delete_exact_all zid (l : locals) (w : world) r j records :
  env_http E (w_trace w) GET (ZoneDnsRecordsNamed zid tunnel_name) h None
    = Responds r ->
  status_code r = 200 -> body r = Some j ->
  py_get j "result" (JArr []) = Ok (JArr records) ->
  Forall has_id records ->
  forall record dns_id, In record records ->
    py_item record "id" = Ok dns_id ->
    exists ans,
      In (EHttp DELETE (ZoneDnsRecord zid dns_id) h None ans)
         (added w (snd (snd (delete_exact E zid tunnel_name h (l, w))))).
Proof.
  intros Ha Hs Hb Hr Hids record dns_id Hin Hid.
  unfold delete_exact. rewrite bind_in_world_request, Ha. cbv beta iota.
  cbn [status_code]. rewrite Hs. cbn [Z.eqb Pos.eqb].
  rewrite bind_lift. unfold response_json. rewrite Hb. cbv beta iota.
  rewrite bind_lift, Hr. cbv beta iota.
  destruct records as [|r0 records]; [destruct Hin|].
  cbn [truthy]. rewrite bind_lift. cbn [py_iter]. cbv beta iota.
  destruct (exact_loop E h Hanswered zid (r0 :: records) Hids
              (l, log (EHttp GET (ZoneDnsRecordsNamed zid tunnel_name) h None
                         (Responds r)) w))
    as [s' [evs [Hrun [Htr Hall]]]].
  rewrite Hrun. cbn [snd] in *.
  destruct (Hall record dns_id Hin Hid) as [ans Hans]. exists ans.
  rewrite log_trace, <- app_assoc in Htr.
  rewrite (added_app _ _ _ Htr). apply in_or_app. right. exact Hans.
Qed.

(** Second pass, for a tunnel name without a dot: every record of the
    zone whose name begins with the tunnel name gets a DELETE. *)
Lemma delete_prefixed_all zid (l : locals) (w : world) r j records :
  contains "." tunnel_name = false ->
  env_http E (w_trace w) GET (ZoneDnsRecords zid) h None = Responds r ->
  status_code r = 200 -> body r = Some j ->
  py_get j "result" (JArr []) = Ok (JArr records) ->
  Forall listed_record records ->
  forall record dns_id record_name, In record records ->
    py_get record "name" (JStr "") = Ok (JStr record_name) ->
    startswith record_name (tunnel_name ++ ".")
      || String.eqb record_name tunnel_name = true ->
    py_item record "id" = Ok dns_id ->
    exists ans,
      In (EHttp DELETE (ZoneDnsRecord zid dns_id) h None ans)
         (added w (snd (snd (delete_prefixed E zid tunnel_name h (l, w))))).
Proof.
  intros Hdot Ha Hs Hb Hr Hrecs record dns_id record_name Hin Hn Hm Hid.
  unfold delete_prefixed. rewrite Hdot. cbn [negb].
  rewrite bind_in_world_request, Ha. cbv beta iota.
  cbn [status_code]. rewrite Hs. cbn [Z.eqb Pos.eqb].
  rewrite bind_lift. unfold response_json. rewrite Hb. cbv beta iota.
  rewrite bind_lift, Hr. cbv beta iota.
  rewrite bind_lift. cbn [py_iter]. cbv beta iota.
  destruct (prefixed_loop E tunnel_name h Hanswered zid records Hrecs
              (l, log (EHttp GET (ZoneDnsRecords zid) h None (Responds r)) w))
    as [s' [evs [Hrun [Htr Hall]]]].
  rewrite Hrun. cbn [snd] in *.
  destruct (Hall record dns_id record_name Hin Hn Hm Hid) as [ans Hans].
  exists ans. rewrite log_trace, <- app_assoc in Htr.
  rewrite (added_app _ _ _ Htr). apply in_or_app. right. exact Hans.
Qed.

End ZonePasses.

(** With a dot in the tunnel name the second pass does nothing. *)
Lemma delete_prefixed_dotted (E : env) zid tunnel_name h (s : locals * world) :
  contains "." tunnel_name = true ->
  delete_prefixed E zid tunnel_name h s = (Ok tt, s).
Proof. intros Hdot. unfold delete_prefixed. rewrite Hdot. reflexivity. Qed.

(* ------------------------------------------------------------------ *)
(** *** The count *)


Section Keeps.

Context {St : Type}.
Variable I : St -> Prop.

Lemma keeps_pure {A} (m : M St A) : pure m -> keeps I m.
Proof. intros Hp s Hs. rewrite Hp. exact Hs. Qed.

Lemma keeps_bind {A B} (m : M St A) (f : A -> M St B) :
  keeps I m -> (forall a, keeps I (f a)) -> keeps I (bind m f).
Proof.
  intros Hm Hf s Hs. unfold bind. specialize (Hm s Hs).
  destruct (m s) as [[a|e] s1]; cbn in *; [apply Hf|]; exact Hm.
Qed.

Lemma keeps_try_except {A} (m : M St A) c (h : exn -> M St A) :
  keeps I m -> (forall e, keeps I (h e)) -> keeps I (try_except m c h).
Proof.
  intros Hm Hh s Hs. unfold try_except. specialize (Hm s Hs).
  destruct (m s) as [[a|e] s1]; cbn in *; [exact Hm|].
  destruct (c e); [apply Hh|]; exact Hm.
Qed.

Lemma keeps_for_each {A} (l : list A) (body : A -> M St unit) :
  (forall x, keeps I (body x)) -> keeps I (for_each l body).
Proof.
  intros Hb. induction l as [|x l IH]; cbn.
  - apply keeps_pure, pure_ret.
  - apply keeps_bind; auto.
Qed.

End Keeps.


Section Count.

Variable E : env.
Variable k : nat.

Lemma keeps_request_other m ep h d :
  (forall ans, is_deleted_record (EHttp m ep h d ans) = false) ->
  keeps (counted k) (@in_world locals _ (request E m ep h d)).
Proof.
  intros Hno [l w] Hs. unfold counted in *. cbn [fst snd] in *.
  assert (Hlog : forall ans,
            successes (w_trace (log (EHttp m ep h d ans) w))
            = (k + dns_records_deleted l)%nat).
  { intros ans. rewrite log_trace, successes_app, Hs.
    unfold successes. cbn [filter]. rewrite Hno. cbn. lia. }
  unfold in_world, request. cbn [fst snd].
  destruct (env_http E (w_trace w) m ep h d) eqn:Ea; cbn [fst snd];
    apply Hlog.
Qed.

Lemma keeps_assign_all_zones v : keeps (counted k) (@assign_all_zones world v).
Proof. intros [l w] Hs. exact Hs. Qed.

Lemma keeps_assign_tunnel_deleted b :
  keeps (counted k) (@assign_tunnel_deleted world b).
Proof. intros [l w] Hs. exact Hs. Qed.

Lemma keeps_get_locals : keeps (counted k) (@get_locals locals world).
Proof. intros s Hs. exact Hs. Qed.

(** One DELETE of a record: counted exactly when it is answered 200. *)
Lemma keeps_delete_record zid dns_id h :
  keeps (counted k) (delete_record E zid dns_id h).
Proof.
  intros [l w] Hs. unfold delete_record, count_deleted.
  rewrite bind_in_world_request.
  unfold counted in *. cbn [fst snd] in *.
  destruct (env_http E (w_trace w) DELETE (ZoneDnsRecord zid dns_id) h None)
    as [r|e]; cbv beta iota.
  - destruct (status_code r =? 200) eqn:Hst; cbn [set_locals ret fst snd];
      rewrite log_trace, successes_app, Hs; unfold successes;
      cbn [filter is_deleted_record]; rewrite Hst; cbn; lia.
  - cbn [fst snd]. rewrite log_trace, successes_app, Hs. cbn. lia.
Qed.

End Count.

Ltac keeps_go :=
  cbv zeta;
  repeat first
    [ apply keeps_delete_record
    | apply keeps_assign_all_zones | apply keeps_assign_tunnel_deleted
    | apply keeps_get_locals
    | apply keeps_request_other; intros ?; reflexivity
    | apply keeps_pure; solve [pure_go]
    | apply keeps_bind; [|intros ?]
    | apply keeps_try_except; [|intros ?]
    | apply keeps_for_each; intros ?
    | match goal with
      | |- keeps _ (if ?b then _ else _) => destruct b
      | |- keeps _ (match ?x with _ => _ end) => destruct x
      end ].


Lemma returns_bind {St A B} (R : B -> St -> Prop) (m : M St A) (f : A -> M St B) :
  (forall a, returns R (f a)) -> returns R (bind m f).
Proof.
  intros Hf s b s'. unfold bind.
  destruct (m s) as [[a|e] s1]; [apply Hf|discriminate].
Qed.

Section CountReturned.

Variable E : env.

Lemma delete_tunnel_and_dns_body_counted k account_id tunnel_id tunnel_name
    zone_id debug :
  keeps (counted k)
    (delete_tunnel_and_dns_body E account_id tunnel_id tunnel_name zone_id debug).
Proof.
  unfold delete_tunnel_and_dns_body, list_zones, read_all_zones, scan_zone,
    delete_exact, delete_prefixed, delete_tunnel.
  keeps_go.
Qed.

Lemma delete_tunnel_and_dns_body_returns account_id tunnel_id tunnel_name
    zone_id debug :
  returns (fun n s' => n = dns_records_deleted (fst s'))
    (delete_tunnel_and_dns_body E account_id tunnel_id tunnel_name zone_id debug).
Proof.
  unfold delete_tunnel_and_dns_body.
  do 6 (apply returns_bind; intros ?).
  intros [l w] n s'. cbn. intros [= <- <-]. reflexivity.
Qed.

(** The number returned is the number of DNS records whose DELETE was
    answered 200 during the call. *)
Lemma delete_tunnel_and_dns_count account_id tunnel_id tunnel_name zone_id
    debug (w w' : world) (n : nat) :
  delete_tunnel_and_dns E account_id tunnel_id tunnel_name zone_id debug w
    = (Ok n, w') ->
  n = successes (added w w').
Proof.
  unfold delete_tunnel_and_dns, call. intros Hrun.
  pose proof (delete_tunnel_and_dns_body_counted (successes (w_trace w))
                account_id tunnel_id tunnel_name zone_id debug (no_locals, w))
    as Hk.
  pose proof (delete_tunnel_and_dns_body_returns account_id tunnel_id
                tunnel_name zone_id debug (no_locals, w)) as Hr.
  pose proof (delete_tunnel_and_dns_emits E
                {| c_token_file := ""; c_account_id := account_id;
                   c_tunnel_id := tunnel_id; c_tunnel_name := tunnel_name;
                   c_debug := debug |} zone_id debug w) as Hem.
  unfold delete_tunnel_and_dns, call in Hem. cbn [c_account_id c_tunnel_id c_tunnel_name] in Hem.
  destruct (delete_tunnel_and_dns_body E account_id tunnel_id tunnel_name
              zone_id debug (no_locals, w)) as [r [l1 w1]].
  cbn [fst snd] in *. injection Hrun as -> ->.
  specialize (Hr n (l1, w') eq_refl). cbn in Hr.
  unfold counted in Hk. cbn [fst snd] in Hk.
  assert (H0 : successes (w_trace w) = (successes (w_trace w) + 0)%nat) by lia.
  specialize (Hk H0).
  destruct Hem as [evs [Htr _]]. unfold trace_of, traced_world in Htr.
  rewrite (added_app _ _ _ Htr).
  rewrite Htr, successes_app in Hk. lia.
Qed.

End CountReturned.

(** C4 (as the code has it).  The scan of a zone runs two passes under
    one handler.  The first asks the server for the records whose name is
    the tunnel name and sends a DELETE for each record of the answer; the
    second, only for a tunnel name without a dot, lists all records of the
    zone and sends a DELETE for each whose name starts with the tunnel name
    and a dot, or is the tunnel name.  This holds when the listing is
    answered 200 with well-formed records and the DELETEs are answered.
    The number returned is the number of DELETEs of DNS records answered
    200. *)
Theorem zone_scan (E : env) (tunnel_name : string) (h : headers) :
  deletes_answered E ->
  (forall zone zid s, py_item zone "id" = Ok zid ->
     scan_zone E tunnel_name h zone s =
       try_except (delete_exact E zid tunnel_name h ;;
                   delete_prefixed E zid tunnel_name h)
         is_Exception (fun _ => ret tt) s) /\
  (forall zid l w r j records,
     env_http E (w_trace w) GET (ZoneDnsRecordsNamed zid tunnel_name) h None
       = Responds r ->
     status_code r = 200 -> body r = Some j ->
     py_get j "result" (JArr []) = Ok (JArr records) ->
     Forall has_id records ->
     forall record dns_id, In record records ->
       py_item record "id" = Ok dns_id ->
       exists ans,
         In (EHttp DELETE (ZoneDnsRecord zid dns_id) h None ans)
            (added w (snd (snd (delete_exact E zid tunnel_name h (l, w)))))) /\
  (forall zid l w r j records,
     contains "." tunnel_name = false ->
     env_http E (w_trace w) GET (ZoneDnsRecords zid) h None = Responds r ->
     status_code r = 200 -> body r = Some j ->
     py_get j "result" (JArr []) = Ok (JArr records) ->
     Forall listed_record records ->
     forall record dns_id record_name, In record records ->
       py_get record "name" (JStr "") = Ok (JStr record_name) ->
       startswith record_name (tunnel_name ++ ".")
         || String.eqb record_name tunnel_name = true ->
       py_item record "id" = Ok dns_id ->
       exists ans,
         In (EHttp DELETE (ZoneDnsRecord zid dns_id) h None ans)
            (added w (snd (snd (delete_prefixed E zid tunnel_name h (l, w)))))) /\
  (contains "." tunnel_name = true ->
   forall zid s, delete_prefixed E zid tunnel_name h s = (Ok tt, s)) /\
  (forall account_id tunnel_id zone_id debug w w' n,
     delete_tunnel_and_dns E account_id tunnel_id tunnel_name zone_id debug w
       = (Ok n, w') ->
     n = successes (added w w')).
Proof.
  intros Hanswered. split; [|split; [|split; [|split]]].
  - intros zone zid s Hid. unfold scan_zone.
    rewrite bind_lift, Hid. cbv beta iota.
    destruct zone; cbn in Hid; try discriminate.
    rewrite bind_lift. reflexivity.
  - intros zid l w r j records. apply delete_exact_all. exact Hanswered.
  - intros zid l w r j records. apply delete_prefixed_all. exact Hanswered.
  - intros Hdot zid s. apply delete_prefixed_dotted. exact Hdot.
  - intros account_id tunnel_id zone_id debug w w' n.
    apply delete_tunnel_and_dns_count.
Qed.

Lemma zone_scan_witness :
  (exists ans,
     In (EHttp DELETE (ZoneDnsRecord (JStr "z1") (JStr "r1"))
           (bearer_headers "tok") None ans)
        (added initial_world
           (snd (snd (delete_prefixed (Scenario.interrupted 0) (JStr "z1")
                        "demo-1700000000" (bearer_headers "tok")
                        (no_locals, initial_world)))))) /\
  1%nat = successes
    (added initial_world
       (snd (delete_tunnel_and_dns (Scenario.interrupted 0) (JStr "acc1")
               (JStr "tun1") "demo-1700000000" (Some hardcoded_zone_id) false
               initial_world))).
Proof.
  assert (Hanswered : deletes_answered (Scenario.interrupted 0)).
  { intros tr zone_id dns_id h. cbn.
    destruct (Scenario.dns_deleted tr); eexists; reflexivity. }
  destruct (zone_scan (Scenario.interrupted 0) "demo-1700000000"
              (bearer_headers "tok") Hanswered)
    as [_ [_ [Hprefixed [_ Hcount]]]].
  split.
  - eapply (Hprefixed (JStr "z1") no_locals initial_world _ _
              [demo_record] eq_refl eq_refl eq_refl eq_refl eq_refl).
    + repeat constructor.
      * exists (JStr "r1"). reflexivity.
      * eexists. reflexivity.
    + left. reflexivity.
    + reflexivity.
    + reflexivity.
    + reflexivity.
  - apply (Hcount (JStr "acc1") (JStr "tun1") (Some hardcoded_zone_id) false
             initial_world).
    vm_compute. reflexivity.
Defined.

(* ================================================================== *)
(** ** More on the credential resolver *)

Lemma split_not_nil (c : ascii) (s : string) : split c s <> [].
Proof.
  destruct s as [|a s]; cbn; [discriminate|].
  destruct (Ascii.eqb a c); [discriminate|].
  destruct (split c s); discriminate.
Qed.

Lemma length_split (c : ascii) (s : string) :
  List.length (split c s) = S (count_char c s).
Proof.
  induction s as [|a s IH]; cbn; [reflexivity|].
  destruct (Ascii.eqb a c); cbn.
  - rewrite IH. reflexivity.
  - pose proof (split_not_nil c s) as Hn.
    destruct (split c s) as [|p ps]; [contradiction|]. exact IH.
Qed.

Lemma join_cons (sep x : string) (rest : list string) :
  rest <> [] -> join sep (x :: rest) = x ++ sep ++ join sep rest.
Proof. destruct rest; [contradiction|reflexivity]. Qed.

(** Joining the parts with the separator gives the string back. *)
Lemma join_split (c : ascii) (s : string) :
  join (String c EmptyString) (split c s) = s.
Proof.
  induction s as [|a s IH]; cbn [split]; [reflexivity|].
  pose proof (split_not_nil c s) as Hn.
  destruct (Ascii.eqb_spec a c) as [->|Hac].
  - rewrite join_cons by exact Hn. rewrite IH. reflexivity.
  - destruct (split c s) as [|p ps]; [contradiction|].
    destruct ps as [|q qs].
    + cbn in *. rewrite IH. reflexivity.
    + rewrite join_cons by discriminate.
      rewrite join_cons in IH by discriminate.
      cbn [append]. f_equal. exact IH.
Qed.

(** No part holds the separator. *)
Lemma split_parts_clean (c : ascii) (s : string) :
  Forall (fun p => contains c p = false) (split c s).
Proof.
  induction s as [|a s IH]; cbn; [repeat constructor|].
  pose proof (split_not_nil c s) as Hn.
  destruct (Ascii.eqb a c) eqn:Hac.
  - constructor; [reflexivity|exact IH].
  - destruct (split c s) as [|p ps]; [contradiction|].
    inversion IH as [|? ? Hp Hps]; subst.
    constructor; [|exact Hps]. cbn. rewrite Hac. exact Hp.
Qed.

(** X1.  A secret with an [@] or a [.] is accepted exactly when it holds
    one [:]: the email and the key are then the text before and after it,
    neither holds a [:], and joined by [:] they give the secret back; with
    no [:] or more than one, [get_headers] raises [ValueError]. *)
Theorem get_headers_one_colon (E : env) (s : string) :
  env_api_key E = Some s ->
  has_at_or_dot s = true ->
  (count_char ":" s = 1%nat ->
   exists email key,
     s = email ++ ":" ++ key /\
     contains ":" email = false /\ contains ":" key = false /\
     get_headers E = Ok (auth_key_headers email key)) /\
  (count_char ":" s <> 1%nat -> get_headers E = Raise (Error ValueError)).
Proof.
  intros Hk Hc.
  assert (Hne : String.eqb s "" = false).
  { destruct s; [discriminate|reflexivity]. }
  unfold get_headers, get_api_key. rewrite Hk, Hne.
  unfold has_at_or_dot in Hc. rewrite Hc.
  pose proof (length_split ":" s) as Hlen.
  pose proof (join_split ":" s) as Hjoin.
  pose proof (split_parts_clean ":" s) as Hclean.
  revert Hlen Hjoin Hclean.
  destruct (split ":" s) as [|email [|key [|x rest]]];
    intros Hlen Hjoin Hclean; cbn in Hlen.
  - discriminate.
  - split; [intros H1; lia|reflexivity].
  - split; [|intros Hn; lia]. intros _.
    apply Forall_cons_iff in Hclean. destruct Hclean as [He Hr].
    apply Forall_cons_iff in Hr. destruct Hr as [Hky _].
    exists email, key. cbn in Hjoin. auto.
  - split; [intros H1; lia|reflexivity].
Qed.

Lemma get_headers_one_colon_witness :
  (exists email key,
     "me@example.com:k3y" = email ++ ":" ++ key /\
     contains ":" email = false /\ contains ":" key = false /\
     get_headers (Scenario.with_key "me@example.com:k3y")
       = Ok (auth_key_headers email key)) /\
  get_headers (Scenario.with_key "v1.0-abcdef") = Raise (Error ValueError).
Proof.
  split.
  - apply (get_headers_one_colon (Scenario.with_key "me@example.com:k3y")
             "me@example.com:k3y"); reflexivity.
  - apply (get_headers_one_colon (Scenario.with_key "v1.0-abcdef")
             "v1.0-abcdef"); [reflexivity|reflexivity|discriminate].
Defined.

(* ================================================================== *)
(** ** What has happened when a step of provisioning returns *)

Lemma status_200 (x : Z) : negb (x =? 200) = false -> x = 200.
Proof. intros H. apply negb_false_iff, Z.eqb_eq in H. exact H. Qed.

Lemma truthy_string (s : string) : negb (truthy (JStr s)) = false -> s <> "".
Proof.
  cbn. intros H ->. discriminate.
Qed.

Lemma response_json_ok (r : response) (j : json) :
  response_json r = Ok j -> body r = Some j.
Proof. unfold response_json. destruct (body r); intros [= <-]. reflexivity. Qed.

Section Returns.

Variable E : env.

(** [get_account_id] returns the id of the first account of a 200
    answer, after one request. *)
Lemma get_account_id_returns (w w' : world) (id : json) :
  get_account_id E w = (Ok id, w') ->
  exists h r j accounts first,
    get_headers E = Ok h /\
    w' = log (EHttp GET Accounts h None (Responds r)) w /\
    status_code r = 200 /\ body r = Some j /\
    py_get j "result" (JArr []) = Ok accounts /\
    py_item0 accounts = Ok first /\ py_item first "id" = Ok id.
Proof.
  unfold get_account_id. unfold sys_exit, raise.
  repeat run_step; try discriminate.
  unfold lift. intros [= Hid <-].
  repeat match goal with
         | H : negb (_ =? 200) = false |- _ => apply status_200 in H
         | H : response_json _ = Ok _ |- _ => apply response_json_ok in H
         end.
  do 5 eexists.
  split; [reflexivity|]. split; [reflexivity|].
  repeat (split; [eassumption|]). exact Hid.
Qed.

(** [create_tunnel_with_credentials] returns after exactly four steps:
    the secret, the creation answered 200, the token fetch answered 200,
    and the token written to the file named after the tunnel id. *)
Lemma create_tunnel_with_credentials_returns account_id tunnel_name debug
    (w w' : world) (tunnel_id : json) (token_file : string) :
  create_tunnel_with_credentials E account_id tunnel_name debug w
    = (Ok (tunnel_id, token_file), w') ->
  exists h secret r1 j1 result r2 j2 token,
    get_headers E = Ok h /\
    token_file = token_path tunnel_id /\
    w_trace w' =
      (w_trace w ++
       [EUrandom secret;
        EHttp POST (CfdTunnels account_id) h
          (Some (tunnel_data tunnel_name secret)) (Responds r1);
        EHttp GET (CfdTunnelToken account_id tunnel_id) h None (Responds r2);
        EWrite token_file token OsOk])%list /\
    w_atexit w' = w_atexit w /\ w_sigint w' = w_sigint w /\
    status_code r1 = 200 /\ body r1 = Some j1 /\
    py_get j1 "result" (JObj []) = Ok result /\
    py_get result "id" JNull = Ok tunnel_id /\
    status_code r2 = 200 /\ body r2 = Some j2 /\
    py_get j2 "result" JNull = Ok (JStr token) /\ token <> "".
Proof.
  unfold create_tunnel_with_credentials, save_token.
  unfold sys_exit. cbv zeta.
  repeat run_step; try discriminate.
  unfold ret. intros [= <- <- <-].
  repeat match goal with
         | H : negb (_ =? 200) = false |- _ => apply status_200 in H
         | H : negb (truthy (JStr _)) = false |- _ => apply truthy_string in H
         | H : response_json _ = Ok _ |- _ => apply response_json_ok in H
         end.
  do 8 eexists.
  split; [reflexivity|]. split; [reflexivity|].
  split; [rewrite !log_trace, <- !app_assoc; reflexivity|].
  split; [reflexivity|]. split; [reflexivity|].
  repeat (split; [eassumption|]). assumption.
Qed.

End Returns.

(* ================================================================== *)
(** ** The registered handlers *)

Section Logs.

Variable E : env.

Lemma logs_request m ep h d : logs_one (request E m ep h d).
Proof.
  intros w. unfold request.
  exists (EHttp m ep h d (env_http E (w_trace w) m ep h d)).
  destruct (env_http _ _ _ _ _ _); reflexivity.
Qed.

Lemma logs_os_step ans ev : logs_one (os_step ans ev).
Proof. intros w. exists ev. destruct ans; reflexivity. Qed.

Lemma logs_version_probe : logs_one (version_probe E).
Proof. intros w. apply logs_os_step. Qed.

Lemma logs_random_choices population k : logs_one (random_choices E population k).
Proof. intros w. eexists. reflexivity. Qed.

Lemma logs_urandom_hex : logs_one (urandom_hex E).
Proof. intros w. eexists. reflexivity. Qed.

Lemma logs_time_time : logs_one (time_time E).
Proof. intros w. eexists. reflexivity. Qed.

Lemma logs_open_write path content : logs_one (open_write E path content).
Proof. intros w. apply logs_os_step. Qed.

Lemma logs_open_read path : logs_one (open_read E path).
Proof.
  intros w. unfold open_read.
  exists (ERead path (env_read E (w_trace w) path)).
  destruct (env_read _ _ _); reflexivity.
Qed.

Lemma logs_popen cmd : logs_one (popen E cmd).
Proof. intros w. apply logs_os_step. Qed.

Lemma logs_path_exists path : logs_one (path_exists E path).
Proof. intros w. eexists. reflexivity. Qed.

Lemma logs_os_remove path : logs_one (os_remove E path).
Proof. intros w. apply logs_os_step. Qed.

Lemma logs_process_poll : logs_one (process_poll E).
Proof. intros w. eexists. reflexivity. Qed.

Lemma logs_process_terminate : logs_one (process_terminate E).
Proof. intros w. apply logs_os_step. Qed.

Lemma logs_process_communicate : logs_one (process_communicate E).
Proof. intros w. apply logs_os_step. Qed.

End Logs.

Create HintDb logs discriminated.
#[export] Hint Resolve logs_request logs_version_probe logs_random_choices
  logs_urandom_hex logs_time_time logs_open_write logs_open_read logs_popen
  logs_path_exists logs_os_remove logs_process_poll logs_process_terminate
  logs_process_communicate : logs.

Section Handlers.

Variables (A : list closure) (B : option closure).

Lemma keeps_handlers_logged {X} (m : M world X) :
  logs_one m -> keeps (handlers_are A B) m.
Proof.
  intros Hm w Hw. destruct (Hm w) as [ev ->]. exact Hw.
Qed.

Lemma keeps_try_except2 {St X} (I : St -> Prop) (m : M St X) c1
    (h1 : exn -> M St X) c2 h2 :
  keeps I m -> (forall e, keeps I (h1 e)) -> (forall e, keeps I (h2 e)) ->
  keeps I (try_except2 m c1 h1 c2 h2).
Proof.
  intros Hm H1 H2 s Hs. unfold try_except2. specialize (Hm s Hs).
  destruct (m s) as [[a|e] s1]; cbn in *; [exact Hm|].
  destruct (c1 e); [apply H1; exact Hm|].
  destruct (c2 e); [apply H2|]; exact Hm.
Qed.

Lemma keeps_in_world {X} (m : M world X) :
  keeps (handlers_are A B) m ->
  keeps (handlers_below A B) (@in_world locals X m).
Proof.
  intros Hm [l w] Hs. unfold in_world, handlers_below in *. cbn [fst snd] in *.
  specialize (Hm w Hs). destruct (m w) as [r w']. exact Hm.
Qed.

Lemma keeps_set_locals (g : locals -> locals) :
  keeps (handlers_below A B) (@set_locals locals world g).
Proof. intros [l w] Hs. exact Hs. Qed.

Lemma keeps_call {X} (init : locals) (m : M (locals * world) X) :
  keeps (handlers_below A B) m -> keeps (handlers_are A B) (call init m).
Proof.
  intros Hm w Hw. unfold call. specialize (Hm (init, w) Hw).
  destruct (m (init, w)) as [r s']. exact Hm.
Qed.

End Handlers.

Lemma pure_get_locals {F W} : pure (@get_locals F W).
Proof. intros s. reflexivity. Qed.

Ltac handlers_go :=
  cbv zeta;
  repeat first
    [ apply keeps_pure; solve [pure_go]
    | apply keeps_pure; apply pure_get_locals
    | apply keeps_handlers_logged; solve [auto 1 with logs nocore]
    | apply keeps_set_locals
    | apply keeps_call
    | apply keeps_in_world
    | apply keeps_bind; [|intros ?]
    | apply keeps_try_except; [|intros ?]
    | apply keeps_try_except2; [|intros ?|intros ?]
    | apply keeps_for_each; intros ?
    | match goal with
      | |- keeps _ (if ?b then _ else _) => destruct b
      | |- keeps _ (match ?x with _ => _ end) => destruct x
      end ].

Section HandlersKept.

Variable E : env.
Variables (A : list closure) (B : option closure).

Lemma check_cloudflared_installed_handlers :
  keeps (handlers_are A B) (check_cloudflared_installed E).
Proof. unfold check_cloudflared_installed. handlers_go. Qed.

Lemma choose_name_handlers a : keeps (handlers_are A B) (choose_name E a).
Proof. unfold choose_name. handlers_go. Qed.

Lemma get_account_id_handlers : keeps (handlers_are A B) (get_account_id E).
Proof. unfold get_account_id. handlers_go. Qed.

Lemma create_tunnel_with_credentials_handlers account_id tunnel_name debug :
  keeps (handlers_are A B)
    (create_tunnel_with_credentials E account_id tunnel_name debug).
Proof. unfold create_tunnel_with_credentials, save_token. handlers_go. Qed.

Lemma create_tunnel_config_handlers account_id tunnel_id tunnel_name port
    local_addr custom_domain debug :
  keeps (handlers_are A B)
    (create_tunnel_config E account_id tunnel_id tunnel_name port local_addr
       custom_domain debug).
Proof. unfold create_tunnel_config, get_account_domain. handlers_go. Qed.

Lemma delete_tunnel_and_dns_handlers account_id tunnel_id tunnel_name zone_id
    debug :
  keeps (handlers_are A B)
    (delete_tunnel_and_dns E account_id tunnel_id tunnel_name zone_id debug).
Proof.
  unfold delete_tunnel_and_dns, delete_tunnel_and_dns_body, list_zones,
    read_all_zones, assign_all_zones, scan_zone, delete_exact,
    delete_prefixed, delete_record, count_deleted, delete_tunnel,
    assign_tunnel_deleted.
  handlers_go.
Qed.

(** Teardown leaves the handlers as they are: nothing unregisters it. *)
Lemma cleanup_handlers c : keeps (handlers_are A B) (cleanup E c).
Proof.
  unfold cleanup.
  apply keeps_bind; [handlers_go|intros present].
  apply keeps_bind; [handlers_go|intros _].
  apply keeps_bind; [handlers_go|intros running].
  apply keeps_bind; [handlers_go|intros _].
  apply keeps_bind; [apply delete_tunnel_and_dns_handlers|intros n].
  handlers_go.
Qed.

End HandlersKept.

(* ================================================================== *)
(** ** The account *)

(** X2.  [get_account_id] sends one request, GET /accounts, whatever
    happens next.  It returns only the [id] of the first account of an
    answer with status 200; an answer with another status, or with no
    account, ends the process with code 1; an exception of the request is
    not handled. *)
Theorem get_account_id_outcome (E : env) (w : world) (h : headers) :
  get_headers E = Ok h ->
  let ans := env_http E (w_trace w) GET Accounts h None in
  snd (get_account_id E w) = log (EHttp GET Accounts h None ans) w /\
  (forall id, fst (get_account_id E w) = Ok id ->
     exists r j accounts first,
       ans = Responds r /\ status_code r = 200 /\ body r = Some j /\
       py_get j "result" (JArr []) = Ok accounts /\
       py_item0 accounts = Ok first /\ py_item first "id" = Ok id) /\
  (forall r, ans = Responds r -> status_code r <> 200 ->
     fst (get_account_id E w) = Raise (SystemExit 1)) /\
  (forall r j accounts, ans = Responds r -> status_code r = 200 ->
     body r = Some j -> py_get j "result" (JArr []) = Ok accounts ->
     truthy accounts = false ->
     fst (get_account_id E w) = Raise (SystemExit 1)) /\
  (forall k, ans = HttpRaises k ->
     fst (get_account_id E w) = Raise (Error k)).
Proof.
  intros Hh. cbv zeta.
  unfold get_account_id. rewrite bind_lift, Hh, bind_request.
  destruct (env_http E (w_trace w) GET Accounts h None) as [r|k] eqn:Ea;
    cbv beta iota.
  2:{ cbn [fst snd]. split; [reflexivity|]. split; [discriminate|].
      split; [discriminate|]. split; [discriminate|].
      intros k' [= <-]. reflexivity. }
  assert (Hsnd : forall m : M world json, pure m ->
            snd (m (log (EHttp GET Accounts h None (Responds r)) w))
            = log (EHttp GET Accounts h None (Responds r)) w).
  { intros m Hm. apply Hm. }
  split; [apply Hsnd; unfold sys_exit; pure_go|].
  destruct (status_code r =? 200) eqn:Hs; cbn [negb].
  2:{ apply Z.eqb_neq in Hs.
      split; [discriminate|]. split; [reflexivity|].
      split; [|discriminate]. intros r' j accounts [= <-] H200. contradiction. }
  apply Z.eqb_eq in Hs. rewrite bind_lift.
  destruct (response_json r) as [j|e] eqn:Hj.
  2:{ unfold response_json in Hj. destruct (body r) eqn:Hb; [discriminate|].
      cbn [fst]. split; [discriminate|]. split.
      { intros r' [= <-] Hne. contradiction. }
      split; [|discriminate].
      intros r' j accounts [= <-] _ Hb'. rewrite Hb in Hb'. discriminate. }
  apply response_json_ok in Hj. rewrite bind_lift.
  destruct (py_get j "result" (JArr [])) as [accounts|e] eqn:Hacc.
  2:{ cbn [fst]. split; [discriminate|]. split.
      { intros r' [= <-] Hne. contradiction. }
      split; [|discriminate].
      intros r' j' accounts [= <-] _ Hb' Hacc'.
      rewrite Hj in Hb'. injection Hb' as <-. rewrite Hacc in Hacc'.
      discriminate. }
  destruct (truthy accounts) eqn:Ht; cbn [negb].
  - rewrite bind_lift. split.
    + intros id Hid. exists r, j, accounts.
      destruct (py_item0 accounts) as [first|e]; [|discriminate Hid].
      exists first. unfold lift in Hid. cbn [fst] in Hid. auto 10.
    + split; [intros r' [= <-] Hne; contradiction|].
      split; [|discriminate].
      intros r' j' accounts' [= <-] _ Hb' Hacc' Ht'.
      rewrite Hj in Hb'. injection Hb' as <-. rewrite Hacc in Hacc'.
      injection Hacc' as <-. congruence.
  - cbn [fst sys_exit raise]. split; [discriminate|].
    split; [intros r' [= <-] Hne; contradiction|].
    split; [reflexivity|discriminate].
Qed.

Lemma get_account_id_outcome_witness :
  fst (get_account_id (Scenario.with_key "tok") initial_world)
    = Raise (SystemExit 1).
Proof.
  refine (proj1 (proj2 (proj2
    (get_account_id_outcome (Scenario.with_key "tok") initial_world
       (bearer_headers "tok") eq_refl))) _ eq_refl _).
  cbn. discriminate.
Defined.

(* ================================================================== *)
(** ** The tunnel and its token file *)

(** X3.  When [create_tunnel_with_credentials] returns it has done four
    things in this order and nothing else: drawn the secret, created the
    tunnel with the name and that secret (answered 200), fetched the token
    of the tunnel whose id the answer carried (answered 200), and written
    the token, a non-empty string, to
    [/tmp/cloudflared_token_<tunnel id>.txt], the path it returns. *)
Theorem create_tunnel_with_credentials_steps (E : env) (account_id : json)
    (tunnel_name : string) (debug : bool) (w w' : world) (tunnel_id : json)
    (token_file : string) :
  create_tunnel_with_credentials E account_id tunnel_name debug w
    = (Ok (tunnel_id, token_file), w') ->
  exists h secret r1 j1 result r2 j2 token,
    get_headers E = Ok h /\
    secret = env_urandom E (w_trace w) /\
    token_file = token_path tunnel_id /\
    added w w' =
      [EUrandom secret;
       EHttp POST (CfdTunnels account_id) h
         (Some (tunnel_data tunnel_name secret)) (Responds r1);
       EHttp GET (CfdTunnelToken account_id tunnel_id) h None (Responds r2);
       EWrite token_file token OsOk] /\
    (status_code r1 = 200 /\ body r1 = Some j1 /\
     py_get j1 "result" (JObj []) = Ok result /\
     py_get result "id" JNull = Ok tunnel_id /\ truthy tunnel_id = true) /\
    (status_code r2 = 200 /\ body r2 = Some j2 /\
     py_get j2 "result" JNull = Ok (JStr token) /\ token <> "").
Proof.
  unfold create_tunnel_with_credentials, save_token.
  unfold sys_exit. cbv zeta.
  repeat run_step; try discriminate.
  unfold ret. intros [= <- <- <-].
  repeat match goal with
         | H : negb (_ =? 200) = false |- _ => apply status_200 in H
         | H : negb (truthy (JStr _)) = false |- _ => apply truthy_string in H
         | H : negb (truthy _) = false |- _ => apply negb_false_iff in H
         | H : response_json _ = Ok _ |- _ => apply response_json_ok in H
         end.
  do 8 eexists.
  split; [reflexivity|]. split; [reflexivity|]. split; [reflexivity|].
  split.
  { apply added_app. rewrite !log_trace, <- !app_assoc. reflexivity. }
  split; [repeat (split; [eassumption|]); assumption|].
  repeat (split; [eassumption|]). assumption.
Qed.

Lemma create_tunnel_with_credentials_steps_witness :
  exists secret r1 r2 token,
    added initial_world
      (snd (create_tunnel_with_credentials (Scenario.interrupted 0)
              (JStr "acc1") "demo" false initial_world)) =
      [EUrandom secret;
       EHttp POST (CfdTunnels (JStr "acc1")) (bearer_headers "tok")
         (Some (tunnel_data "demo" secret)) (Responds r1);
       EHttp GET (CfdTunnelToken (JStr "acc1") (JStr "tun1"))
         (bearer_headers "tok") None (Responds r2);
       EWrite "/tmp/cloudflared_token_tun1.txt" token OsOk].
Proof.
  destruct (create_tunnel_with_credentials_steps (Scenario.interrupted 0)
              (JStr "acc1") "demo" false initial_world
              (snd (create_tunnel_with_credentials (Scenario.interrupted 0)
                      (JStr "acc1") "demo" false initial_world))
              (JStr "tun1") "/tmp/cloudflared_token_tun1.txt" eq_refl)
    as [h [secret [r1 [j1 [result [r2 [j2 [token [Hh [_ [_ [Hadd _]]]]]]]]]]]].
  injection Hh as <-.
  exists secret, r1, r2, token. exact Hadd.
Defined.

(* ================================================================== *)
(** ** When the zones cannot be listed *)

(** X4.  The zones request of [get_account_domain] is sent outside its
    [try]: when the request itself raises, the exception leaves
    [create_tunnel_config] as it is, after that one request; neither the
    configuration PUT nor the DNS record POST is sent. *)
Theorem create_tunnel_config_zones_unreachable (E : env)
    (account_id tunnel_id : json) (tunnel_name : string) (port : Z)
    (local_addr : string) (custom_domain : option string) (debug : bool)
    (w : world) (h : headers) (k : exc_kind) :
  get_headers E = Ok h ->
  env_http E (w_trace w) GET (AccountZones account_id) h None = HttpRaises k ->
  get_account_domain E account_id debug w
    = (Raise (Error k),
       log (EHttp GET (AccountZones account_id) h None (HttpRaises k)) w) /\
  create_tunnel_config E account_id tunnel_id tunnel_name port local_addr
    custom_domain debug w
    = (Raise (Error k),
       log (EHttp GET (AccountZones account_id) h None (HttpRaises k)) w).
Proof.
  intros Hh Ha.
  assert (Hd : get_account_domain E account_id debug w
               = (Raise (Error k),
                  log (EHttp GET (AccountZones account_id) h None (HttpRaises k)) w)).
  { unfold get_account_domain. rewrite bind_lift, Hh, bind_request, Ha.
    reflexivity. }
  split; [exact Hd|].
  unfold create_tunnel_config. rewrite bind_cases, Hd. reflexivity.
Qed.

Lemma create_tunnel_config_zones_unreachable_witness :
  create_tunnel_config zones_unreachable (JStr "acc1") (JStr "tun1") "demo"
    8080 "localhost" None false initial_world
  = (Raise (Error RequestException),
     log (EHttp GET (AccountZones (JStr "acc1")) (bearer_headers "tok") None
            (HttpRaises RequestException)) initial_world).
Proof.
  exact (proj2 (create_tunnel_config_zones_unreachable zones_unreachable
                  (JStr "acc1") (JStr "tun1") "demo" 8080 "localhost" None false
                  initial_world (bearer_headers "tok") RequestException
                  eq_refl eq_refl)).
Defined.

(* ================================================================== *)
(** ** Teardown without a zone id *)

(** X5.  [delete_tunnel_and_dns] called without a zone id (or with an
    empty one).  When the zones request raises, [all_zones] was never
    assigned: the function ends with [UnboundLocalError] after that one
    request, and the tunnel is not deleted.  When the request is answered
    with another status than 200, or with 200 and a body that is no JSON,
    there is no zone to scan: the tunnel DELETE is the only other request
    and the function returns 0. *)
Theorem delete_tunnel_and_dns_no_zone (E : env) (account_id tunnel_id : json)
    (tunnel_name : string) (zone_id : option string) (debug : bool)
    (w : world) (h : headers) :
  get_headers E = Ok h -> given zone_id = false ->
  let zones := EHttp GET (AccountZones account_id) h None in
  let ans := env_http E (w_trace w) GET (AccountZones account_id) h None in
  (forall k, ans = HttpRaises k ->
     delete_tunnel_and_dns E account_id tunnel_id tunnel_name zone_id debug w
       = (Raise (Error UnboundLocalError), log (zones ans) w)) /\
  (forall r, ans = Responds r -> status_code r <> 200 \/ body r = None ->
     exists ans',
       delete_tunnel_and_dns E account_id tunnel_id tunnel_name zone_id debug w
         = (Ok 0%nat,
            log (EHttp DELETE (CfdTunnel account_id tunnel_id) h None ans')
              (log (zones ans) w))).
Proof.
  intros Hh Hg. cbv zeta.
  unfold delete_tunnel_and_dns, call, delete_tunnel_and_dns_body.
  rewrite bind_lift, Hh. cbv beta iota.
  unfold list_zones, read_all_zones, assign_all_zones. rewrite Hg.
  split.
  - intros k Ha.
    rewrite !bind_cases, try_cases, bind_in_world_request, Ha.
    reflexivity.
  - intros r Ha Hbad.
    rewrite !bind_cases, try_cases, bind_in_world_request, Ha.
    cbv beta iota. rewrite bind_set_locals.
    assert (Hzones :
      (if status_code r =? 200
       then zones_data <- lift (response_json r) ;;
            r0 <- lift (py_get zones_data "result" (JArr [])) ;;
            set_locals (fun l : locals =>
              {| all_zones := Some r0;
                 dns_records_deleted := dns_records_deleted l;
                 tunnel_deleted := tunnel_deleted l |})
       else ret tt)
        ({| all_zones := Some (JArr []);
            dns_records_deleted := dns_records_deleted no_locals;
            tunnel_deleted := tunnel_deleted no_locals |},
         log (EHttp GET (AccountZones account_id) h None (Responds r)) w)
      = (Ok tt, ({| all_zones := Some (JArr []);
                    dns_records_deleted := 0;
                    tunnel_deleted := false |},
                 log (EHttp GET (AccountZones account_id) h None (Responds r)) w))
      \/ exists e,
      (if status_code r =? 200
       then zones_data <- lift (response_json r) ;;
            r0 <- lift (py_get zones_data "result" (JArr [])) ;;
            set_locals (fun l : locals =>
              {| all_zones := Some r0;
                 dns_records_deleted := dns_records_deleted l;
                 tunnel_deleted := tunnel_deleted l |})
       else ret tt)
        ({| all_zones := Some (JArr []);
            dns_records_deleted := dns_records_deleted no_locals;
            tunnel_deleted := tunnel_deleted no_locals |},
         log (EHttp GET (AccountZones account_id) h None (Responds r)) w)
      = (Raise (Error e),
         ({| all_zones := Some (JArr []);
             dns_records_deleted := 0;
             tunnel_deleted := false |},
          log (EHttp GET (AccountZones account_id) h None (Responds r)) w))).
    { destruct (Z.eqb_spec (status_code r) 200) as [Hs|Hs].
      - destruct Hbad as [Hne|Hb]; [contradiction|].
        right. exists JSONDecodeError. rewrite bind_lift.
        unfold response_json. rewrite Hb. reflexivity.
      - left. reflexivity. }
    destruct (delete_tunnel_always E account_id tunnel_id h
                {| all_zones := Some (JArr []);
                   dns_records_deleted := 0;
                   tunnel_deleted := false |}
                (log (EHttp GET (AccountZones account_id) h None (Responds r)) w))
      as [l' [ans' [Hdel Hcount]]].
    exists ans'.
    destruct Hzones as [Hz|[e Hz]]; rewrite Hz; cbv beta iota;
      cbn -[delete_tunnel log]; unfold bind; rewrite Hdel; cbn [fst snd];
      unfold get_locals, ret; cbn [fst snd]; rewrite Hcount; reflexivity.
Qed.

Lemma delete_tunnel_and_dns_no_zone_witness :
  exists ans',
    delete_tunnel_and_dns zones_refused (JStr "acc1") (JStr "tun1") "demo"
      None false initial_world
    = (Ok 0%nat,
       log (EHttp DELETE (CfdTunnel (JStr "acc1") (JStr "tun1"))
              (bearer_headers "tok") None ans')
         (log (EHttp GET (AccountZones (JStr "acc1")) (bearer_headers "tok") None
                 (Responds {| status_code := 403; body := None |}))
            initial_world)).
Proof.
  refine (proj2 (delete_tunnel_and_dns_no_zone zones_refused (JStr "acc1")
                   (JStr "tun1") "demo" None false initial_world
                   (bearer_headers "tok") eq_refl eq_refl) _ eq_refl _).
  right. reflexivity.
Defined.

(* ================================================================== *)
(** ** What the scan of a zone deletes *)

Lemma emits_for_each_in {St} {T : Traced St} (P : event -> Prop) {A}
    (l : list A) (body : A -> M St unit) :
  (forall x, In x l -> emits P (body x)) -> emits P (for_each l body).
Proof.
  induction l as [|x l IH]; intros Hb; cbn [for_each].
  - apply emits_ret.
  - apply emits_bind; [apply Hb; left; reflexivity|].
    intros _. apply IH. intros y Hy. apply Hb. right. exact Hy.
Qed.

Lemma emits_bind_lift {St} {T : Traced St} (P : event -> Prop) {A B}
    (r : result A) (f : A -> M St B) :
  (forall a, r = Ok a -> emits P (f a)) -> emits P (bind (lift r) f).
Proof.
  intros Hf s. rewrite bind_lift. destruct r as [a|e].
  - apply Hf. reflexivity.
  - exists []. cbn. rewrite app_nil_r. auto.
Qed.

Section Listed.

Variable E : env.
Variables (zid : json) (tunnel_name : string) (h : headers).

Lemma delete_record_emits (P : event -> Prop) dns_id :
  (forall ans, P (EHttp DELETE (ZoneDnsRecord zid dns_id) h None ans)) ->
  emits P (delete_record E zid dns_id h).
Proof.
  intros HP. unfold delete_record, count_deleted.
  apply emits_bind; [apply emits_in_world, emits_request, HP|].
  intros r. destruct (status_code r =? 200); emits_go.
Qed.

Lemma exact_loop_listed ans r j listing records :
  ans = Responds r -> status_code r = 200 -> body r = Some j ->
  py_get j "result" (JArr []) = Ok listing ->
  py_iter listing = Ok records ->
  emits (deletes_listed zid h ans any_record)
    (for_each records (fun record =>
       dns_id <- lift (py_item record "id") ;;
       record_name <- lift (py_get record "name" (JStr "unknown")) ;;
       delete_record E zid dns_id h)).
Proof.
  intros Ha Hs Hb Hl Hi. apply emits_for_each_in. intros record Hin.
  apply emits_bind_lift. intros dns_id Hid.
  apply emits_bind; [apply emits_lift|intros _].
  apply delete_record_emits. intros ans'.
  exists r, j, listing, records, record, dns_id, ans'.
  unfold any_record. auto 10.
Qed.

Lemma prefixed_loop_listed ans r j listing records :
  ans = Responds r -> status_code r = 200 -> body r = Some j ->
  py_get j "result" (JArr []) = Ok listing ->
  py_iter listing = Ok records ->
  emits (deletes_listed zid h ans (named_after tunnel_name))
    (for_each records (fun record =>
       record_name <- lift (py_get record "name" (JStr "")) ;;
       b <- lift (begins_with_tunnel_name record_name tunnel_name) ;;
       if b : bool then
         dns_id <- lift (py_item record "id") ;;
         delete_record E zid dns_id h
       else ret tt)).
Proof.
  intros Ha Hs Hb Hl Hi. apply emits_for_each_in. intros record Hin.
  apply emits_bind_lift. intros record_name Hn.
  apply emits_bind_lift. intros b Hm.
  destruct b; [|apply emits_ret].
  apply emits_bind_lift. intros dns_id Hid.
  apply delete_record_emits. intros ans'.
  exists r, j, listing, records, record, dns_id, ans'.
  repeat (split; [assumption|]). split; [|split; [assumption|reflexivity]].
  destruct record_name as [| | |n| |]; try discriminate Hm.
  exists n. split; [exact Hn|]. cbn in Hm. injection Hm as Hm. exact Hm.
Qed.

End Listed.

(** X6.  The scan of a zone deletes only what it was shown.  The first
    pass sends the name query and then DELETEs only for records of its
    answer, when that was a 200; it does not look at their names.  The
    second pass, for a tunnel name without a dot, lists the zone and then
    sends DELETEs only for records of that listing whose name is the
    tunnel name or begins with it and a dot; for a name with a dot it
    sends nothing. *)
Theorem dns_deletes_were_listed (E : env) (zid : json) (tunnel_name : string)
    (h : headers) (s : locals * world) :
  (exists ans evs,
     added (snd s) (snd (snd (delete_exact E zid tunnel_name h s)))
       = EHttp GET (ZoneDnsRecordsNamed zid tunnel_name) h None ans :: evs /\
     Forall (deletes_listed zid h ans any_record) evs) /\
  (contains "." tunnel_name = false ->
   exists ans evs,
     added (snd s) (snd (snd (delete_prefixed E zid tunnel_name h s)))
       = EHttp GET (ZoneDnsRecords zid) h None ans :: evs /\
     Forall (deletes_listed zid h ans (named_after tunnel_name)) evs) /\
  (contains "." tunnel_name = true ->
   added (snd s) (snd (snd (delete_prefixed E zid tunnel_name h s))) = []).
Proof.
  destruct s as [l w]. cbn [snd].
  assert (Hone : forall ev, added w (log ev w) = [ev]).
  { intros ev. apply added_app. apply log_trace. }
  assert (Hloop : forall ev P (m : M (locals * world) unit),
            emits P m ->
            exists evs, added w (snd (snd (m (l, log ev w)))) = ev :: evs /\
                        Forall P evs).
  { intros ev P m Hm. destruct (Hm (l, log ev w)) as [evs [Htr HP]].
    exists evs. split; [|exact HP]. apply added_app.
    unfold trace_of, traced_locals in Htr. cbn [snd] in Htr.
    rewrite Htr, log_trace, <- app_assoc. reflexivity. }
  split; [|split].
  - unfold delete_exact. rewrite bind_in_world_request.
    destruct (env_http E (w_trace w) GET (ZoneDnsRecordsNamed zid tunnel_name)
                h None) as [r|k] eqn:Ea; cbv beta iota.
    2:{ cbn [snd]. do 2 eexists. split; [apply Hone|constructor]. }
    exists (Responds r).
    destruct (Z.eqb_spec (status_code r) 200) as [Hs|Hs].
    2:{ exists []. split; [apply Hone|constructor]. }
    rewrite bind_lift.
    destruct (response_json r) as [j|e] eqn:Hj; cbv beta iota.
    2:{ exists []. split; [apply Hone|constructor]. }
    apply response_json_ok in Hj. rewrite bind_lift.
    destruct (py_get j "result" (JArr [])) as [listing|e] eqn:Hl; cbv beta iota.
    2:{ exists []. split; [apply Hone|constructor]. }
    destruct (truthy listing).
    2:{ exists []. split; [apply Hone|constructor]. }
    rewrite bind_lift.
    destruct (py_iter listing) as [records|e] eqn:Hi; cbv beta iota.
    2:{ exists []. split; [apply Hone|constructor]. }
    apply Hloop.
    apply (exact_loop_listed E zid h (Responds r) r j listing records);
      auto.
  - intros Hdot. unfold delete_prefixed. rewrite Hdot. cbn [negb].
    rewrite bind_in_world_request.
    destruct (env_http E (w_trace w) GET (ZoneDnsRecords zid) h None)
      as [r|k] eqn:Ea; cbv beta iota.
    2:{ cbn [snd]. do 2 eexists. split; [apply Hone|constructor]. }
    exists (Responds r).
    destruct (Z.eqb_spec (status_code r) 200) as [Hs|Hs].
    2:{ exists []. split; [apply Hone|constructor]. }
    rewrite bind_lift.
    destruct (response_json r) as [j|e] eqn:Hj; cbv beta iota.
    2:{ exists []. split; [apply Hone|constructor]. }
    apply response_json_ok in Hj. rewrite bind_lift.
    destruct (py_get j "result" (JArr [])) as [listing|e] eqn:Hl; cbv beta iota.
    2:{ exists []. split; [apply Hone|constructor]. }
    rewrite bind_lift.
    destruct (py_iter listing) as [records|e] eqn:Hi; cbv beta iota.
    2:{ exists []. split; [apply Hone|constructor]. }
    apply Hloop.
    apply (prefixed_loop_listed E zid tunnel_name h (Responds r) r j listing
             records); auto.
  - intros Hdot. rewrite delete_prefixed_dotted by exact Hdot. cbn [snd].
    apply added_app. rewrite app_nil_r. reflexivity.
Qed.

Lemma dns_deletes_were_listed_witness :
  exists ans evs,
    added initial_world
      (snd (snd (delete_prefixed (Scenario.interrupted 0) (JStr "z1")
                   "demo-1700000000" (bearer_headers "tok")
                   (no_locals, initial_world))))
      = EHttp GET (ZoneDnsRecords (JStr "z1")) (bearer_headers "tok") None ans
        :: evs /\
    Forall (deletes_listed (JStr "z1") (bearer_headers "tok") ans
              (named_after "demo-1700000000")) evs.
Proof.
  exact (proj1 (proj2 (dns_deletes_were_listed (Scenario.interrupted 0)
                         (JStr "z1") "demo-1700000000" (bearer_headers "tok")
                         (no_locals, initial_world))) eq_refl).
Defined.

(* ================================================================== *)
(** ** The launch of the tunnel client *)

(** The outcomes of [run_cloudflared]: the client started and teardown
    registered, or an exception of the read or of the start and nothing
    registered. *)
Lemma run_cloudflared_outcome (E : env) (token_file : string)
    (config_file : option string) (tunnel_id account_id : json)
    (tunnel_name : string) (debug : bool) (w : world)
    (A : list closure) (B : option closure) :
  handlers_are A B w ->
  let c := closure_of token_file tunnel_id account_id tunnel_name debug in
  let out := run_cloudflared E token_file config_file tunnel_id account_id
               tunnel_name debug w in
  (exists content rest,
     w_trace (snd out)
       = (w_trace w ++ ERead token_file (ReadOk content)
            :: EPopen (client_command content) OsOk :: rest)%list /\
     handlers_are (c :: A) (Some c) (snd out) /\
     (if debug then debug_look rest else rest = []) /\
     (fst out = Ok tt \/
      exists k, fst out = Raise (Error k) /\
        In (ECommunicate (OsRaises k)) rest)) \/
  (exists k,
     fst out = Raise (Error k) /\
     handlers_are A B (snd out) /\
     (w_trace (snd out)
        = (w_trace w ++ [ERead token_file (ReadRaises k)])%list \/
      exists content,
        w_trace (snd out)
          = (w_trace w ++ [ERead token_file (ReadOk content);
                           EPopen (client_command content) (OsRaises k)])%list)).
Proof.
  intros [HA HB]. cbv zeta.
  unfold run_cloudflared, open_read, popen, os_step, atexit_register,
    signal_sigint, process_poll, process_communicate, closure_of,
    client_command, handlers_are.
  unfold bind, ret. cbn.
  destruct (env_read E (w_trace w) token_file) as [content|k] eqn:Er; cbn.
  2:{ right. exists k. split; [reflexivity|]. split; [split; assumption|].
      left. reflexivity. }
  match goal with
  | |- context [env_popen E ?tr ?cmd] =>
      destruct (env_popen E tr cmd) as [|k] eqn:Ep
  end; cbn.
  2:{ right. exists k. split; [reflexivity|]. split; [split; assumption|].
      right. exists content. cbn [log w_trace]. rewrite <- ?app_assoc. reflexivity. }
  left. exists content. rewrite ?HA, ?HB.
  destruct debug; cbn.
  - match goal with
    | |- context [env_poll E ?tr] => destruct (env_poll E tr) as [code|] eqn:Eq
    end; cbn.
    + match goal with
      | |- context [env_communicate E ?tr] =>
          destruct (env_communicate E tr) as [|k] eqn:Ec
      end; cbn.
      * eexists. split; [cbn [log w_trace]; rewrite <- ?app_assoc; reflexivity|].
        split; [split; reflexivity|]. split; [constructor|].
        left. reflexivity.
      * eexists. split; [cbn [log w_trace]; rewrite <- ?app_assoc; reflexivity|].
        split; [split; reflexivity|]. split; [constructor|].
        right. exists k. split; [reflexivity|]. right. left. reflexivity.
    + eexists. split; [cbn [log w_trace]; rewrite <- ?app_assoc; reflexivity|].
      split; [split; reflexivity|]. split; [constructor|].
      left. reflexivity.
  - exists []. split; [cbn [log w_trace]; rewrite <- ?app_assoc; reflexivity|].
    split; [split; reflexivity|]. split; [reflexivity|].
    left. reflexivity.
Qed.

(** X7.  [run_cloudflared] reads the token file and starts
    [cloudflared tunnel run --token <token>] with the stripped content.
    Teardown is registered, with [atexit] and as the SIGINT handler, only
    once the client has been started, and for the very values of the call.
    When the read or the start raises, the exception leaves the function
    and nothing is registered.  Without [debug] nothing else happens; with
    it the child is polled once, and its output collected when it has
    already exited. *)
Theorem run_cloudflared_registers (E : env) (token_file : string)
    (config_file : option string) (tunnel_id account_id : json)
    (tunnel_name : string) (debug : bool) (w : world)
    (A : list closure) (B : option closure) :
  handlers_are A B w ->
  let c := closure_of token_file tunnel_id account_id tunnel_name debug in
  let out := run_cloudflared E token_file config_file tunnel_id account_id
               tunnel_name debug w in
  (exists content rest,
     added w (snd out)
       = ERead token_file (ReadOk content)
         :: EPopen (client_command content) OsOk :: rest /\
     handlers_are (c :: A) (Some c) (snd out) /\
     (if debug then debug_look rest else rest = []) /\
     (fst out = Ok tt \/
      exists k, fst out = Raise (Error k) /\
        In (ECommunicate (OsRaises k)) rest)) \/
  (exists k,
     fst out = Raise (Error k) /\
     handlers_are A B (snd out) /\
     (added w (snd out) = [ERead token_file (ReadRaises k)] \/
      exists content,
        added w (snd out)
          = [ERead token_file (ReadOk content);
             EPopen (client_command content) (OsRaises k)])).
Proof.
  intros Hw. cbv zeta.
  destruct (run_cloudflared_outcome E token_file config_file tunnel_id
              account_id tunnel_name debug w A B Hw)
    as [(content & rest & Htr & Hrest)|(k & Hr & Hh & Htr)].
  - left. exists content, rest. split; [|exact Hrest].
    apply added_app. exact Htr.
  - right. exists k. split; [exact Hr|]. split; [exact Hh|].
    destruct Htr as [Htr|[content Htr]].
    + left. apply added_app. exact Htr.
    + right. exists content. apply added_app. exact Htr.
Qed.

Lemma run_cloudflared_registers_witness :
  exists k,
    fst (run_cloudflared token_unreadable "/tmp/t.txt" None (JStr "tun1")
           (JStr "acc1") "demo" false initial_world) = Raise (Error k) /\
    handlers_are [] None
      (snd (run_cloudflared token_unreadable "/tmp/t.txt" None (JStr "tun1")
              (JStr "acc1") "demo" false initial_world)).
Proof.
  destruct (run_cloudflared_registers token_unreadable "/tmp/t.txt" None
              (JStr "tun1") (JStr "acc1") "demo" false initial_world [] None)
    as [[content [rest [Hadd _]]]|[k [Hr [Hh _]]]].
  - split; reflexivity.
  - discriminate Hadd.
  - exists k. split; assumption.
Defined.

(* ================================================================== *)
(** ** The outline of a run *)

(** *** What ends the process with code 1 *)

Lemma ordinary_fatal e : ordinary e -> fatal e.
Proof. destruct e; cbn; intros H; try discriminate H. exact I. Qed.

Lemma raises_weaken {St A} (Q Q' : exn -> Prop) (m : M St A) :
  (forall e, Q e -> Q' e) -> raises Q m -> raises Q' m.
Proof. intros HQ Hm s e He. apply HQ. exact (Hm s e He). Qed.

Lemma raises_try_any {St A} (Q : exn -> Prop) (m : M St A) c
    (h : exn -> M St A) :
  raises Q m -> (forall e, raises Q (h e)) -> raises Q (try_except m c h).
Proof.
  intros Hm Hh s e. unfold try_except. specialize (Hm s).
  destruct (m s) as [[a|e'] s1]; cbn in *; [discriminate|].
  destruct (c e').
  - apply Hh.
  - intros [= <-]. apply Hm. reflexivity.
Qed.

Lemma raises_call {F A} (Q : exn -> Prop) (init : F) (m : M (F * world) A) :
  raises Q m -> raises Q (call init m).
Proof.
  intros Hm w e. unfold call. specialize (Hm (init, w) e).
  destruct (m (init, w)) as [r s']. exact Hm.
Qed.

Lemma raises_returning {St A} (Q : exn -> Prop) (m : M St A) :
  (forall s, exists a, fst (m s) = Ok a) -> raises Q m.
Proof. intros H s e He. destruct (H s) as [a Ha]. congruence. Qed.

Lemma py_item0_fatal v e : py_item0 v = Raise e -> fatal e.
Proof.
  destruct v as [| | |s|l|l]; cbn; try (intros [= <-]; exact I).
  - destruct s; intros [= <-]. exact I.
  - destruct l; intros [= <-]. exact I.
Qed.

Section Fatal.

Variable E : env.

Lemma get_api_key_fatal e : get_api_key E = Raise e -> fatal e.
Proof.
  unfold get_api_key. destruct (env_api_key E) as [k|].
  - destruct (String.eqb k ""); intros [= <-]; reflexivity.
  - intros [= <-]. reflexivity.
Qed.

Lemma get_headers_fatal e : get_headers E = Raise e -> fatal e.
Proof.
  unfold get_headers. destruct (get_api_key E) as [k|e'] eqn:Hk.
  - destruct (contains "@" k || contains "." k); [|discriminate].
    destruct (split ":" k) as [|x [|y [|z rest]]]; intros [= <-]; exact I.
  - intros [= <-]. apply get_api_key_fatal. exact Hk.
Qed.

Lemma fatal_request m ep h d : raises fatal (request E m ep h d).
Proof.
  eapply raises_weaken; [apply ordinary_fatal|apply raises_request].
Qed.

Lemma fatal_os_step ans ev : raises fatal (os_step ans ev).
Proof. intros w e. destruct ans; cbn; intros [= <-]. exact I. Qed.

Lemma fatal_version_probe : raises fatal (version_probe E).
Proof. intros w. apply fatal_os_step. Qed.

Lemma fatal_open_write path content : raises fatal (open_write E path content).
Proof. intros w. apply fatal_os_step. Qed.

Lemma fatal_os_remove path : raises fatal (os_remove E path).
Proof. intros w. apply fatal_os_step. Qed.

Lemma fatal_process_terminate : raises fatal (process_terminate E).
Proof. intros w. apply fatal_os_step. Qed.

Lemma fatal_random_choices population k :
  raises fatal (random_choices E population k).
Proof. apply raises_returning. intros w. eexists. reflexivity. Qed.

Lemma fatal_urandom_hex : raises fatal (urandom_hex E).
Proof. apply raises_returning. intros w. eexists. reflexivity. Qed.

Lemma fatal_time_time : raises fatal (time_time E).
Proof. apply raises_returning. intros w. eexists. reflexivity. Qed.

Lemma fatal_path_exists path : raises fatal (path_exists E path).
Proof. apply raises_returning. intros w. eexists. reflexivity. Qed.

Lemma fatal_process_poll : raises fatal (process_poll E).
Proof. apply raises_returning. intros w. eexists. reflexivity. Qed.

End Fatal.

Create HintDb fatal discriminated.
#[export] Hint Resolve get_api_key_fatal get_headers_fatal py_item0_fatal
  : fatal.
#[export] Hint Resolve fatal_request fatal_version_probe fatal_open_write
  fatal_os_remove fatal_process_terminate fatal_random_choices
  fatal_urandom_hex fatal_time_time fatal_path_exists fatal_process_poll
  : fatal.

Ltac fatal_go :=
  cbv zeta;
  repeat first
    [ solve [auto 1 with fatal nocore]
    | apply raises_ret
    | apply raises_raise; solve [reflexivity | exact I]
    | apply raises_lift; intros ? ?;
        solve [ eauto 2 with fatal nocore
              | apply ordinary_fatal; eauto 2 with raises nocore ]
    | apply raises_get_locals | apply raises_set_locals
    | apply raises_bind; [|intros ?]
    | apply raises_try_any; [|intros ?]
    | apply raises_for_each; intros ? ?
    | apply raises_in_world | apply raises_call
    | match goal with
      | |- raises _ (if ?b then _ else _) => destruct b
      | |- raises _ (match ?x with _ => _ end) => destruct x
      end ].

Section FatalProgram.

Variable E : env.

Lemma check_cloudflared_installed_fatal :
  raises fatal (check_cloudflared_installed E).
Proof. unfold check_cloudflared_installed. fatal_go. Qed.

Lemma choose_name_fatal a : raises fatal (choose_name E a).
Proof. unfold choose_name. fatal_go. Qed.

Lemma get_account_id_fatal : raises fatal (get_account_id E).
Proof. unfold get_account_id, sys_exit. fatal_go. Qed.

Lemma create_tunnel_with_credentials_fatal account_id tunnel_name debug :
  raises fatal (create_tunnel_with_credentials E account_id tunnel_name debug).
Proof. unfold create_tunnel_with_credentials, save_token, sys_exit. fatal_go. Qed.

Lemma create_tunnel_config_fatal account_id tunnel_id tunnel_name port
    local_addr custom_domain debug :
  raises fatal
    (create_tunnel_config E account_id tunnel_id tunnel_name port local_addr
       custom_domain debug).
Proof. unfold create_tunnel_config, get_account_domain. fatal_go. Qed.

Lemma delete_tunnel_and_dns_fatal account_id tunnel_id tunnel_name zone_id
    debug :
  raises fatal
    (delete_tunnel_and_dns E account_id tunnel_id tunnel_name zone_id debug).
Proof.
  unfold delete_tunnel_and_dns, delete_tunnel_and_dns_body, list_zones,
    read_all_zones, assign_all_zones, scan_zone, delete_exact,
    delete_prefixed, delete_record, count_deleted, delete_tunnel,
    assign_tunnel_deleted.
  fatal_go.
Qed.

Lemma cleanup_fatal c : raises fatal (cleanup E c).
Proof.
  unfold cleanup.
  apply raises_bind; [fatal_go|intros present].
  apply raises_bind; [fatal_go|intros _].
  apply raises_bind; [fatal_go|intros running].
  apply raises_bind; [fatal_go|intros _].
  apply raises_bind; [apply delete_tunnel_and_dns_fatal|intros n].
  fatal_go.
Qed.

End FatalProgram.

(** *** The steps before the launch *)

Section Stages.

Variable E : env.

Lemma stage_intro (P : event -> Prop) {X} (m : M world X) :
  emits P m -> (forall A B, keeps (handlers_are A B) m) -> raises fatal m ->
  stage P m.
Proof.
  intros He Hk Hr w. destruct (He w) as [evs [Htr HP]].
  exists evs. split; [exact Htr|]. split; [|split; [exact HP|apply Hr]].
  apply Hk. split; reflexivity.
Qed.

Lemma check_cloudflared_installed_stage :
  stage startup_event (check_cloudflared_installed E).
Proof.
  apply stage_intro.
  - apply check_cloudflared_installed_emits.
  - intros A B. apply check_cloudflared_installed_handlers.
  - apply check_cloudflared_installed_fatal.
Qed.

Lemma choose_name_stage a : stage startup_event (choose_name E a).
Proof.
  apply stage_intro.
  - apply choose_name_emits.
  - intros A B. apply choose_name_handlers.
  - apply choose_name_fatal.
Qed.

Lemma get_account_id_stage : stage startup_event (get_account_id E).
Proof.
  apply stage_intro.
  - apply get_account_id_emits.
  - intros A B. apply get_account_id_handlers.
  - apply get_account_id_fatal.
Qed.

Lemma create_tunnel_with_credentials_stage account_id tunnel_name debug :
  stage (create_event account_id)
    (create_tunnel_with_credentials E account_id tunnel_name debug).
Proof.
  apply stage_intro.
  - apply create_tunnel_with_credentials_emits.
  - intros A B. apply create_tunnel_with_credentials_handlers.
  - apply create_tunnel_with_credentials_fatal.
Qed.

Lemma create_tunnel_config_stage account_id tunnel_id tunnel_name port
    local_addr custom_domain debug :
  stage (config_event account_id tunnel_id tunnel_name port local_addr)
    (create_tunnel_config E account_id tunnel_id tunnel_name port local_addr
       custom_domain debug).
Proof.
  apply stage_intro.
  - apply create_tunnel_config_emits.
  - intros A B. apply create_tunnel_config_handlers.
  - apply create_tunnel_config_fatal.
Qed.

(** [create_tunnel_config], when it returns: three requests with the
    resolved headers. *)
Lemma create_tunnel_config_steps (account_id tunnel_id : json)
    (tunnel_name : string) (port : Z) (local_addr : string)
    (custom_domain : option string) (debug : bool) (w w' : world)
    (hostname : string) (config_file : option string) :
  create_tunnel_config E account_id tunnel_id tunnel_name port local_addr
    custom_domain debug w = (Ok (hostname, config_file), w') ->
  exists domain h a1 a2 a3,
    get_headers E = Ok h /\
    hostname = tunnel_name ++ "." ++ py_str domain /\
    w_trace w' =
      (w_trace w ++
       [EHttp GET (AccountZones account_id) h None a1;
        EHttp PUT (CfdTunnelConfigurations account_id tunnel_id) h
          (Some (ingress_config hostname local_addr port)) a2;
        EHttp POST (ZoneDnsRecords (JStr hardcoded_zone_id)) h
          (Some (dns_data tunnel_id tunnel_name)) a3])%list.
Proof.
  unfold create_tunnel_config. unfold bind at 1.
  destruct (get_headers E) as [h|e] eqn:Hh.
  2:{ unfold get_account_domain, bind, lift. rewrite Hh. discriminate. }
  destruct (get_account_domain_world E account_id debug w h Hh) as [Hw _].
  destruct (get_account_domain E account_id debug w) as [[domain|e] w1];
    [|discriminate].
  cbn in Hw. subst w1.
  unfold bind at 1. unfold lift at 1.
  unfold bind at 1. unfold request at 1.
  match goal with |- context [log (EHttp PUT ?ep ?hh ?d ?a) ?ww] =>
    set (w2 := log (EHttp PUT ep hh d a) ww); destruct a as [r2|k2] eqn:Ea2
  end; [|discriminate].
  unfold bind, try_except, request, ret.
  match goal with |- context [log (EHttp POST ?ep ?hh ?d ?a) ?ww] =>
    set (w3 := log (EHttp POST ep hh d a) ww); destruct a as [r3|k3] eqn:Ea3
  end; cbn; intros [= <- <- <-];
    (exists domain, h; do 3 eexists; split; [reflexivity|];
     split; [reflexivity|]; subst w3 w2; cbn;
     rewrite <- !app_assoc; cbn; rewrite ?Ea3; reflexivity).
Qed.

(** One execution of [cleanup]. *)
Lemma cleanup_teardown c (w : world) :
  exists t,
    w_trace (snd (cleanup E c w)) = (w_trace w ++ t)%list /\
    handlers_are (w_atexit w) (w_sigint w) (snd (cleanup E c w)) /\
    teardown_of c t /\
    (fst (cleanup E c w) = Ok tt -> tunnel_deletes t = 1%nat) /\
    (forall e, fst (cleanup E c w) = Raise e -> fatal e).
Proof.
  destruct (cleanup_once E c w) as [t [Htr [Hle Hone]]].
  destruct (cleanup_emits E c w) as [t' [Htr' Hev]].
  unfold trace_of, traced_world in *.
  assert (t' = t) as -> by (eapply app_inv_head; rewrite <- Htr, <- Htr'; reflexivity).
  exists t. split; [exact Htr|].
  split; [apply cleanup_handlers; split; reflexivity|].
  split; [|split; [exact (Hone tt)|apply cleanup_fatal]].
  split; [|split; [exact Hev|exact Hle]].
  clear Hle Hone Hev Htr'. revert Htr. unfold cleanup. rewrite bind_cases.
  change (path_exists E (c_token_file c) w)
    with (@Ok bool (env_exists E (w_trace w) (c_token_file c)),
          log (EExists (c_token_file c)
                 (env_exists E (w_trace w) (c_token_file c))) w).
  cbv iota beta.
  match goal with
  | |- context [snd (?k ?w1)] =>
      assert (Hk : emits (teardown_event c) k)
        by (apply emits_bind; [emits_go; constructor|intros _];
            apply emits_bind; [emits_go; constructor|intros ?];
            apply emits_bind; [emits_go; constructor|intros _];
            apply emits_bind; [apply delete_tunnel_and_dns_emits|intros ?];
            emits_go);
      destruct (Hk w1) as [rest [Hrest _]]
  end.
  unfold trace_of, traced_world in Hrest. rewrite Hrest, log_trace, <- app_assoc.
  intros Heq. apply app_inv_head in Heq. subst t.
  do 2 eexists. reflexivity.
Qed.

End Stages.

(** *** After the launch *)

Section Outline.

Variable E : env.

Lemma fatal_not_interrupt e : fatal e -> is_KeyboardInterrupt e = false.
Proof. destruct e; cbn; intros H; try reflexivity. contradiction. Qed.

(** The wait for the client, with teardown as the SIGINT handler. *)
Lemma process_wait_outcome c (A : list closure) (w : world) :
  handlers_are A (Some c) w ->
  let out := try_except (process_wait E) is_KeyboardInterrupt
               (fun _ => sys_exit 0) w in
  exists after,
    w_trace (snd out) = (w_trace w ++ after)%list /\
    handlers_are A (Some c) (snd out) /\
    waited c (fst out) after /\ after <> [].
Proof.
  intros [HA HB]. cbv zeta. rewrite try_cases. unfold process_wait.
  destruct (env_wait E (w_trace w)) as [code|].
  - cbn [fst snd]. exists [EWait (Exited code)].
    split; [reflexivity|]. split; [split; assumption|].
    split; [constructor|discriminate].
  - change (w_sigint (log (EWait Sigint) w)) with (w_sigint w). rewrite HB.
    unfold signal_handler. rewrite bind_cases.
    destruct (cleanup_teardown E c (log (EWait Sigint) w))
      as [t1 [Htr [Hh [Ht [Hone Hfatal]]]]].
    change (w_atexit (log (EWait Sigint) w)) with (w_atexit w) in Hh.
    change (w_sigint (log (EWait Sigint) w)) with (w_sigint w) in Hh.
    rewrite HA, HB in Hh. rewrite log_trace, <- app_assoc in Htr.
    destruct (cleanup E c (log (EWait Sigint) w)) as [[[]|e] w1];
      cbn [fst snd] in *.
    + unfold sys_exit, raise. cbn [is_KeyboardInterrupt fst snd].
      exists (EWait Sigint :: t1). split; [exact Htr|]. split; [exact Hh|].
      split; [|discriminate]. apply wt_interrupted; [exact Ht|].
      apply Hone. reflexivity.
    + rewrite (fatal_not_interrupt e (Hfatal e eq_refl)). cbn [fst snd].
      exists (EWait Sigint :: t1). split; [exact Htr|]. split; [exact Hh|].
      split; [|discriminate]. apply wt_interrupted_failed; [exact Ht|].
      apply Hfatal. reflexivity.
Qed.

Lemma provisioned_after (a : args) c (s pre : list event) :
  Forall startup_event s -> provisioned a c pre ->
  provisioned a c (s ++ pre).
Proof.
  intros Hs (s0 & h & r0 & secret & r1 & j1 & result & r2 & token & domain
             & a1 & a2 & a3 & Hs0 & -> & Hrest).
  exists (s ++ s0)%list, h, r0, secret, r1, j1, result, r2, token, domain,
    a1, a2, a3.
  split; [apply Forall_app; split; assumption|].
  split; [rewrite <- app_assoc; reflexivity|exact Hrest].
Qed.

Lemma provision_event_startup a (evs : list event) :
  Forall startup_event evs -> Forall (provision_event a) evs.
Proof. apply Forall_impl. intros ev. apply pv_startup. Qed.

(** [provision_and_run]: stopped before the client ran, with nothing
    registered, or launched. *)
Lemma provision_and_run_outcome (a : args) (tunnel_name : string) (w : world) :
  handlers_are [] None w ->
  let out := provision_and_run E a tunnel_name w in
  (exists pre l e,
     w_trace (snd out) = (w_trace w ++ pre ++ l)%list /\
     handlers_are [] None (snd out) /\
     Forall (provision_event a) pre /\ launch_failure l /\
     fst out = Raise e /\ fatal e) \/
  (exists c pre content rest after,
     w_trace (snd out)
       = (w_trace w ++ pre ++ ERead (c_token_file c) (ReadOk content)
            :: EPopen (client_command content) OsOk :: rest ++ after)%list /\
     handlers_are [c] (Some c) (snd out) /\
     provisioned a c pre /\ c_tunnel_name c = tunnel_name /\
     (if c_debug c then debug_look rest else rest = []) /\
     waited c (fst out) after).
Proof.
  intros Hw. cbv zeta. unfold provision_and_run. cbv zeta.
  rewrite bind_lift.
  destruct (get_api_key E) as [api_key|e] eqn:Hkey.
  2:{ left. exists [], [], e. cbn [fst snd app]. rewrite app_nil_r.
      split; [reflexivity|]. split; [exact Hw|].
      split; [constructor|]. split; [constructor|].
      split; [reflexivity|]. apply (get_api_key_fatal E). exact Hkey. }
  (* the account *)
  rewrite bind_cases.
  destruct (get_account_id_stage E w) as [s1 [T1 [H1 [P1 F1]]]].
  pose proof (get_account_id_returns E w) as R1.
  destruct (get_account_id E w) as [[account_id|e] w1]; cbn [fst snd] in *.
  2:{ left. exists s1, [], e. rewrite app_nil_r.
      split; [exact T1|]. destruct Hw as [-> ->] in H1. split; [exact H1|].
      split; [apply provision_event_startup, P1|].
      split; [constructor|]. split; [reflexivity|]. apply F1. reflexivity. }
  destruct (R1 w1 account_id eq_refl)
    as (h & r0 & j0 & accounts & first & Hh & -> & S0 & _).
  clear R1 s1 T1 P1 F1.
  assert (Hw1 : handlers_are [] None
                  (log (EHttp GET Accounts h None (Responds r0)) w)).
  { destruct Hw as [Ha Hs]. rewrite Ha, Hs in H1. exact H1. }
  clear H1.
  set (w1 := log (EHttp GET Accounts h None (Responds r0)) w) in *.
  assert (T1 : w_trace w1
               = (w_trace w ++ [EHttp GET Accounts h None (Responds r0)])%list)
    by reflexivity.
  assert (P1 : Forall (provision_event a)
                 [EHttp GET Accounts h None (Responds r0)]).
  { repeat constructor. }
  (* the tunnel *)
  rewrite bind_cases.
  destruct (create_tunnel_with_credentials_stage E account_id tunnel_name
              (arg_debug a) w1) as [s2 [T2 [H2 [P2 F2]]]].
  pose proof (create_tunnel_with_credentials_returns E account_id tunnel_name
                (arg_debug a) w1) as R2.
  destruct (create_tunnel_with_credentials E account_id tunnel_name
              (arg_debug a) w1) as [[[tunnel_id token_file]|e] w2];
    cbn [fst snd] in *.
  2:{ left. exists (EHttp GET Accounts h None (Responds r0) :: s2), [], e.
      rewrite app_nil_r.
      split; [rewrite T2, T1, <- app_assoc; reflexivity|].
      destruct Hw1 as [Ha Hs]. rewrite Ha, Hs in H2. split; [exact H2|].
      split.
      { constructor; [repeat constructor|].
        eapply Forall_impl; [|exact P2]. intros ev. apply pv_create. }
      split; [constructor|]. split; [reflexivity|]. apply F2. reflexivity. }
  destruct (R2 w2 tunnel_id token_file eq_refl)
    as (h2 & secret & r1 & j1 & result & r2 & j2 & token & Hh2 & Hfile & T2'
        & _ & _ & S1 & B1 & G1 & I1 & S2 & _ & _ & Htoken).
  rewrite Hh in Hh2. injection Hh2 as <-.
  clear R2 s2 T2 P2 F2.
  assert (Hw2 : handlers_are [] None w2).
  { destruct Hw1 as [Ha Hs]. rewrite Ha, Hs in H2. exact H2. }
  clear H2.
  (* the configuration *)
  rewrite bind_cases.
  destruct (create_tunnel_config_stage E account_id tunnel_id tunnel_name
              (arg_port a) (arg_local_addr a) (arg_domain a) (arg_debug a) w2)
    as [s3 [T3 [H3 [P3 F3]]]].
  pose proof (create_tunnel_config_steps E account_id tunnel_id tunnel_name
                (arg_port a) (arg_local_addr a) (arg_domain a) (arg_debug a)
                w2) as R3.
  assert (Pc : Forall (provision_event a)
                 [EUrandom secret;
                  EHttp POST (CfdTunnels account_id) h
                    (Some (tunnel_data tunnel_name secret)) (Responds r1);
                  EHttp GET (CfdTunnelToken account_id tunnel_id) h None
                    (Responds r2);
                  EWrite token_file token OsOk]).
  { repeat (apply Forall_cons; [apply (pv_create a account_id); constructor|]).
    apply Forall_nil. }
  destruct (create_tunnel_config E account_id tunnel_id tunnel_name
              (arg_port a) (arg_local_addr a) (arg_domain a) (arg_debug a) w2)
    as [[[hostname config_file]|e] w3]; cbn [fst snd] in *.
  2:{ left.
      exists ([EHttp GET Accounts h None (Responds r0)] ++
              [EUrandom secret;
               EHttp POST (CfdTunnels account_id) h
                 (Some (tunnel_data tunnel_name secret)) (Responds r1);
               EHttp GET (CfdTunnelToken account_id tunnel_id) h None
                 (Responds r2);
               EWrite token_file token OsOk] ++ s3)%list, [], e.
      rewrite app_nil_r.
      split; [rewrite T3, T2', T1, <- !app_assoc; reflexivity|].
      destruct Hw2 as [Ha Hs]. rewrite Ha, Hs in H3. split; [exact H3|].
      split.
      { apply Forall_app. split; [exact P1|].
        apply Forall_app. split; [exact Pc|].
        eapply Forall_impl; [|exact P3]. intros ev.
        apply (pv_config a account_id tunnel_id tunnel_name). }
      split; [constructor|]. split; [reflexivity|]. apply F3. reflexivity. }
  destruct (R3 w3 hostname config_file eq_refl)
    as (domain & h3 & a1 & a2 & a3 & Hh3 & Hhost & T3').
  rewrite Hh in Hh3. injection Hh3 as <-.
  clear R3 s3 T3 P3 F3.
  assert (Hw3 : handlers_are [] None w3).
  { destruct Hw2 as [Ha Hs]. rewrite Ha, Hs in H3. exact H3. }
  clear H3.
  set (c := closure_of token_file tunnel_id account_id tunnel_name (arg_debug a)).
  set (pre := ([EHttp GET Accounts h None (Responds r0)] ++
               [EUrandom secret;
                EHttp POST (CfdTunnels account_id) h
                  (Some (tunnel_data tunnel_name secret)) (Responds r1);
                EHttp GET (CfdTunnelToken account_id tunnel_id) h None
                  (Responds r2);
                EWrite token_file token OsOk] ++
               [EHttp GET (AccountZones account_id) h None a1;
                EHttp PUT (CfdTunnelConfigurations account_id tunnel_id) h
                  (Some (ingress_config hostname (arg_local_addr a) (arg_port a)))
                  a2;
                EHttp POST (ZoneDnsRecords (JStr hardcoded_zone_id)) h
                  (Some (dns_data tunnel_id tunnel_name)) a3])%list).
  assert (Tpre : w_trace w3 = (w_trace w ++ pre)%list).
  { subst pre. rewrite T3', T2', T1, <- !app_assoc. reflexivity. }
  assert (Ppre : Forall (provision_event a) pre).
  { subst pre. apply Forall_app. split; [exact P1|].
    apply Forall_app. split; [exact Pc|].
    apply Forall_cons;
      [apply (pv_config a account_id tunnel_id tunnel_name); constructor|].
    apply Forall_cons;
      [apply (pv_config a account_id tunnel_id tunnel_name);
       rewrite Hhost; constructor|].
    apply Forall_cons;
      [apply (pv_config a account_id tunnel_id tunnel_name); constructor|].
    apply Forall_nil. }
  (* the launch *)
  cbn [fst snd]. rewrite bind_cases.
  destruct (run_cloudflared_outcome E token_file None tunnel_id account_id
              tunnel_name (arg_debug a) w3 [] None Hw3)
    as [(content & rest & Tl & Hl & Hlook & Hres)|(k & Hres & Hl & Tl)];
    fold c in Hl, Hres, Tl.
  2:{ left.
      destruct (run_cloudflared E token_file None tunnel_id account_id
                  tunnel_name (arg_debug a) w3) as [r w4].
      cbn [fst snd] in *. subst r.
      assert (Hfail : exists l, w_trace w4 = (w_trace w3 ++ l)%list /\
                                launch_failure l).
      { destruct Tl as [Tl|[content Tl]]; rewrite Tl; eexists;
          (split; [reflexivity|constructor]). }
      destruct Hfail as [l [Hadd Hfail]].
      exists pre, l, (Error k). cbv beta iota. cbn [fst snd].
      split; [rewrite Hadd, Tpre, <- app_assoc; reflexivity|].
      split; [exact Hl|]. split; [exact Ppre|]. split; [exact Hfail|].
      split; [reflexivity|exact I]. }
  right.
  assert (Hprov : provisioned a c pre).
  { exists [], h, r0, secret, r1, j1, result, r2, token, domain, a1, a2, a3.
    subst pre c. unfold closure_of. cbn [c_token_file c_account_id
      c_tunnel_id c_tunnel_name c_debug app].
    split; [constructor|]. split; [rewrite Hhost; reflexivity|].
    auto 12. }
  destruct (run_cloudflared E token_file None tunnel_id account_id
              tunnel_name (arg_debug a) w3) as [r w4].
  cbn [fst snd] in *.
  exists c, pre, content, rest.
  destruct Hres as [->|[k [-> Hin]]]; cbv beta iota.
  - destruct (process_wait_outcome c [c] w4 Hl) as [after [Tw [Hh4 [Hwt _]]]].
    exists after.
    split.
    { rewrite Tw, Tl, Tpre, <- !app_assoc. reflexivity. }
    split; [exact Hh4|]. split; [exact Hprov|]. split; [reflexivity|].
    split; [exact Hlook|exact Hwt].
  - exists []. cbn [fst snd]. rewrite app_nil_r.
    split; [rewrite Tl, Tpre, <- !app_assoc; reflexivity|].
    split; [exact Hl|]. split; [exact Hprov|]. split; [reflexivity|].
    split; [exact Hlook|]. apply wt_debug_failed. exact I.
Qed.

(** The two [except] clauses of [main]: every ordinary exception becomes
    exit code 1; [SystemExit] passes. *)
Lemma main_handlers (r : result unit) (w : world) :
  match r with
  | Ok u => (Ok u, w)
  | Raise e =>
      if is_kind RequestException e then @sys_exit world unit 1 w
      else if is_Exception e then @sys_exit world unit 1 w
      else (Raise e, w)
  end
  = (match r with
     | Ok u => Ok u
     | Raise (Error _) => Raise (SystemExit 1)
     | Raise e => Raise e
     end, w).
Proof.
  destruct r as [u|[code| |k]]; cbn; try reflexivity.
  destruct k; reflexivity.
Qed.

Lemma fatal_exit_code e : fatal e -> exit_code (Raise e) = 1.
Proof. destruct e; cbn; intros H; [exact H|contradiction|reflexivity]. Qed.

Lemma fatal_handled e :
  fatal e ->
  exit_code (match e with
             | Error _ => Raise (SystemExit 1)
             | _ => Raise e
             end) = 1.
Proof. destruct e; cbn; intros H; [exact H|contradiction|reflexivity]. Qed.

(** A run that stopped before the launch. *)
Lemma stopped_outline (a : args) (r : result unit) (w : world)
    (pre l : list event) :
  w_trace w = (pre ++ l)%list -> handlers_are [] None w ->
  Forall (provision_event a) pre -> launch_failure l ->
  exit_code r = 1 ->
  outline a (exit_code r) (w_trace (run_atexit E (w_atexit w) w)).
Proof.
  intros Htr [Ha _] Hpre Hl Hcode. rewrite Ha, Hcode. cbn [run_atexit].
  rewrite Htr. apply ol_stopped; assumption.
Qed.

(** Every run has one of the shapes of [outline]. *)
Lemma run_outline (a : args) :
  outline a (fst (run E a)) (w_trace (snd (run E a))).
Proof.
  unfold run, main. rewrite bind_cases.
  destruct (check_cloudflared_installed_stage E initial_world)
    as [s1 [T1 [H1 [P1 F1]]]].
  cbn [initial_world w_trace w_atexit w_sigint app] in T1, H1.
  destruct (check_cloudflared_installed E initial_world)
    as [[installed|e] w1]; cbn [fst snd] in *.
  2:{ apply (stopped_outline a (Raise e) w1 s1 []).
      - rewrite app_nil_r. exact T1.
      - exact H1.
      - apply provision_event_startup, P1.
      - constructor.
      - apply fatal_exit_code, F1. reflexivity. }
  destruct installed; cbn [negb].
  2:{ unfold install_instructions, sys_exit. rewrite bind_raise.
      apply (stopped_outline a (Raise (SystemExit 1)) w1 s1 []).
      - rewrite app_nil_r. exact T1.
      - exact H1.
      - apply provision_event_startup, P1.
      - constructor.
      - reflexivity. }
  rewrite bind_ret, bind_cases.
  destruct (choose_name_stage E a w1) as [s2 [T2 [H2 [P2 F2]]]].
  destruct H1 as [Ha1 Hs1]. rewrite Ha1, Hs1 in H2. rewrite T1 in T2.
  assert (P12 : Forall startup_event (s1 ++ s2)).
  { apply Forall_app. split; assumption. }
  destruct (choose_name E a w1) as [[names|e] w2]; cbn [fst snd] in *.
  2:{ apply (stopped_outline a (Raise e) w2 (s1 ++ s2) []).
      - rewrite app_nil_r. exact T2.
      - exact H2.
      - apply provision_event_startup, P12.
      - constructor.
      - apply fatal_exit_code, F2. reflexivity. }
  unfold try_except2.
  destruct (provision_and_run_outcome a (snd names) w2 H2)
    as [(pre & l & e & T3 & H3 & P3 & L3 & R3 & F3)
       |(c & pre & content & rest & after & T3 & H3 & P3 & _ & D3 & W3)].
  - destruct (provision_and_run E a (snd names) w2) as [r w3].
    cbv beta iota. cbn [fst snd] in *. rewrite main_handlers. subst r.
    apply (stopped_outline a _ w3 ((s1 ++ s2) ++ pre) l).
    + rewrite T3, T2, <- !app_assoc. reflexivity.
    + exact H3.
    + apply Forall_app. split; [apply provision_event_startup, P12|exact P3].
    + exact L3.
    + apply fatal_handled, F3.
  - destruct (provision_and_run E a (snd names) w2) as [r w3].
    cbv beta iota. cbn [fst snd] in *. rewrite main_handlers.
    cbv beta iota. cbn [fst snd].
    destruct H3 as [Ha3 Hs3]. rewrite Ha3. cbn [run_atexit].
    destruct (cleanup_teardown E c w3) as [t2 [T4 [_ [Ht2 _]]]].
    rewrite T4, T3, T2.
    assert (Hshape : forall after',
              (((s1 ++ s2) ++ pre ++ ERead (c_token_file c) (ReadOk content)
                  :: EPopen (client_command content) OsOk :: rest ++ after)
               ++ after')%list
              = (((s1 ++ s2) ++ pre) ++ ERead (c_token_file c) (ReadOk content)
                  :: EPopen (client_command content) OsOk
                  :: rest ++ (after ++ after'))%list).
    { intros after'. rewrite <- !app_assoc. cbn [app].
      rewrite <- !app_assoc. reflexivity. }
    rewrite Hshape.
    assert (Hprov : provisioned a c ((s1 ++ s2) ++ pre)).
    { apply provisioned_after; assumption. }
    inversion W3 as [rc Hr Hafter|t1 Ht1 Hone Hr Hafter
                    |t1 e Ht1 Hf Hr Hafter|e Hf Hr Hafter]; subst.
    + apply ol_launched; [exact Hprov|exact D3|].
      apply en_exited. exact Ht2.
    + apply ol_launched; [exact Hprov|exact D3|].
      apply en_interrupted; assumption.
    + rewrite (fatal_handled e Hf).
      apply ol_launched; [exact Hprov|exact D3|].
      apply en_interrupted_failed; assumption.
    + rewrite (fatal_handled e Hf).
      apply ol_launched; [exact Hprov|exact D3|].
      apply en_debug_failed. exact Ht2.
Qed.

End Outline.

(* ================================================================== *)
(** ** What the outline of a run implies *)

Lemma app_eq_later {T} (f : T -> bool) (X Y pre post : list T) (ev : T) :
  (pre ++ ev :: post = X ++ Y)%list ->
  Forall (fun x => f x = false) X -> f ev = true ->
  exists Y1, pre = (X ++ Y1)%list /\ Y = (Y1 ++ ev :: post)%list.
Proof.
  revert pre. induction X as [|x X IH]; intros pre Heq HX Hev.
  - exists pre. split; [reflexivity|]. symmetry. exact Heq.
  - inversion HX as [|? ? Hx HX']; subst.
    destruct pre as [|p pre]; cbn in Heq.
    + injection Heq as -> _. congruence.
    + injection Heq as -> Heq.
      destruct (IH pre Heq HX' Hev) as [Y1 [-> ->]].
      exists Y1. split; reflexivity.
Qed.

Lemma provision_event_plain a ev :
  provision_event a ev ->
  undoes ev = false /\ is_launch ev = false /\ is_tunnel_delete ev = false.
Proof.
  intros H. inversion H as [? H1|? ? H1|? ? ? ? H1]; inversion H1;
    repeat split; reflexivity.
Qed.

Lemma launch_failure_plain l ev :
  launch_failure l -> In ev l ->
  undoes ev = false /\ is_launch ev = false /\ is_tunnel_delete ev = false.
Proof.
  intros H Hin. inversion H; subst; cbn in Hin;
    repeat match goal with
           | H : _ \/ _ |- _ => destruct H
           | H : False |- _ => destruct H
           end; subst; repeat split; reflexivity.
Qed.

Lemma debug_look_plain (debug : bool) rest ev :
  (if debug then debug_look rest else rest = []) -> In ev rest ->
  undoes ev = false /\ is_launch ev = false /\ is_tunnel_delete ev = false /\
  file_of ev = None.
Proof.
  intros H Hin. destruct debug; [|subst; destruct Hin].
  inversion H; subst; cbn in Hin;
    repeat match goal with
           | H : _ \/ _ |- _ => destruct H
           | H : False |- _ => destruct H
           end; subst; repeat split; reflexivity.
Qed.

Lemma startup_event_no_file ev : startup_event ev -> file_of ev = None.
Proof. intros H. inversion H; reflexivity. Qed.

Lemma provisioned_events a c pre :
  provisioned a c pre -> Forall (provision_event a) pre.
Proof.
  intros (s & h & r0 & secret & r1 & j1 & result & r2 & token & domain
          & a1 & a2 & a3 & Hs & -> & _).
  apply Forall_app. split; [apply provision_event_startup, Hs|].
  apply Forall_cons; [apply pv_startup; constructor|].
  do 4 (apply Forall_cons; [apply (pv_create a (c_account_id c)); constructor|]).
  do 3 (apply Forall_cons;
        [apply (pv_config a (c_account_id c) (c_tunnel_id c) (c_tunnel_name c));
         constructor|]).
  apply Forall_nil.
Qed.

Lemma teardown_event_plain c ev :
  teardown_event c ev -> is_launch ev = false.
Proof. intros H. inversion H; reflexivity. Qed.

Lemma ended_events c code after :
  ended c code after ->
  (code = 0 \/ code = 1) /\
  (code = 0 -> exists ans, In (EWait ans) after) /\
  Forall (fun ev => (exists ans, ev = EWait ans) \/ teardown_event c ev) after /\
  (tunnel_deletes after <= 2)%nat /\
  (~ In (EWait Sigint) after -> (tunnel_deletes after <= 1)%nat) /\
  exists t present rest,
    after = (t ++ EExists (c_token_file c) present :: rest)%list.
Proof.
  assert (Hw : forall ans, tunnel_deletes [EWait ans] = 0%nat) by reflexivity.
  assert (Hcons : forall ans t,
            tunnel_deletes (EWait ans :: t) = tunnel_deletes t) by reflexivity.
  assert (Ht : forall t, Forall (teardown_event c) t ->
            Forall (fun ev => (exists ans, ev = EWait ans) \/ teardown_event c ev) t).
  { intros t. apply Forall_impl. intros ev Hev. right. exact Hev. }
  intros H.
  inversion H as [rc t2 [[b2 [r2 E2]] [F2 L2]]
                 |t1 t2 [_ [F1 L1]] [[b2 [r2 E2]] [F2 L2]] Hone
                 |t1 t2 [_ [F1 L1]] [[b2 [r2 E2]] [F2 L2]]
                 |t2 [[b2 [r2 E2]] [F2 L2]]]; subst.
  - split; [left; reflexivity|]. split; [intros _; eexists; left; reflexivity|].
    split; [constructor; [left; eexists; reflexivity|apply Ht, F2]|].
    rewrite Hcons. split; [lia|]. split; [intros _; exact L2|].
    exists [EWait (Exited rc)], b2, r2. reflexivity.
  - split; [left; reflexivity|]. split; [intros _; eexists; left; reflexivity|].
    split.
    { constructor; [left; eexists; reflexivity|].
      apply Forall_app. split; apply Ht; assumption. }
    rewrite Hcons. unfold tunnel_deletes in *. rewrite occurrences_app.
    split; [lia|]. split.
    { intros Hno. exfalso. apply Hno. left. reflexivity. }
    exists (EWait Sigint :: t1), b2, r2. reflexivity.
  - split; [right; reflexivity|]. split; [discriminate|].
    split.
    { constructor; [left; eexists; reflexivity|].
      apply Forall_app. split; apply Ht; assumption. }
    rewrite Hcons. unfold tunnel_deletes in *. rewrite occurrences_app.
    split; [lia|]. split.
    { intros Hno. exfalso. apply Hno. left. reflexivity. }
    exists (EWait Sigint :: t1), b2, r2. reflexivity.
  - split; [right; reflexivity|]. split; [discriminate|].
    split; [apply Ht, F2|]. split; [lia|]. split; [intros _; exact L2|].
    exists [], b2, r2. reflexivity.
Qed.

Section RunCases.

Variable E : env.

(** The two kinds of run. *)
Lemma run_cases (a : args) :
  (fst (run E a) = 1 /\
   exists pre l,
     w_trace (snd (run E a)) = (pre ++ l)%list /\
     Forall (provision_event a) pre /\ launch_failure l) \/
  (exists c pre content rest after,
     w_trace (snd (run E a))
       = (pre ++ ERead (c_token_file c) (ReadOk content)
            :: EPopen (client_command content) OsOk :: rest ++ after)%list /\
     provisioned a c pre /\
     (if c_debug c then debug_look rest else rest = []) /\
     ended c (fst (run E a)) after).
Proof.
  pose proof (run_outline E a) as H.
  inversion H as [pre l Hpre Hl Hcode Htr
                 |c pre content rest code after Hprov Hlook Hend Hcode Htr].
  - left. split; [reflexivity|]. exists pre, l. auto.
  - right. exists c, pre, content, rest, after. auto.
Qed.

(** A run that stopped before the launch holds no event of these
    kinds. *)
Lemma stopped_plain (a : args) pre l ev :
  Forall (provision_event a) pre -> launch_failure l -> In ev (pre ++ l) ->
  undoes ev = false /\ is_launch ev = false /\ is_tunnel_delete ev = false.
Proof.
  intros Hpre Hl Hin. apply in_app_or in Hin. destruct Hin as [Hin|Hin].
  - rewrite Forall_forall in Hpre. apply (provision_event_plain a), Hpre, Hin.
  - apply (launch_failure_plain l); assumption.
Qed.

(** Up to the end of the launch nothing is taken back. *)
Lemma launched_plain (a : args) c pre content rest ev :
  provisioned a c pre ->
  (if c_debug c then debug_look rest else rest = []) ->
  In ev (pre ++ ERead (c_token_file c) (ReadOk content)
           :: EPopen (client_command content) OsOk :: rest) ->
  undoes ev = false /\ is_tunnel_delete ev = false /\
  (is_launch ev = true -> ev = EPopen (client_command content) OsOk).
Proof.
  intros Hprov Hlook Hin. apply in_app_or in Hin.
  destruct Hin as [Hin|[<-|[<-|Hin]]].
  - pose proof (provisioned_events a c pre Hprov) as Hpre.
    rewrite Forall_forall in Hpre.
    destruct (provision_event_plain a ev (Hpre ev Hin)) as [H1 [H2 H3]].
    split; [exact H1|]. split; [exact H3|]. congruence.
  - split; [reflexivity|]. split; [reflexivity|discriminate].
  - split; [reflexivity|]. split; [reflexivity|reflexivity].
  - destruct (debug_look_plain (c_debug c) rest ev Hlook Hin)
      as [H1 [H2 [H3 _]]].
    split; [exact H1|]. split; [exact H3|]. congruence.
Qed.

End RunCases.

(** X8.  A run ends with exit code 0 or 1, and with 0 only when the
    tunnel client was started and then waited for.  (SIGINT arrives while
    [main] waits for the client, where the installed handler runs.) *)
Theorem run_exit_code (E : env) (a : args) :
  (fst (run E a) = 0 \/ fst (run E a) = 1) /\
  (fst (run E a) = 0 ->
   exists pre content mid ans post,
     w_trace (snd (run E a))
       = (pre ++ EPopen (client_command content) OsOk
            :: mid ++ EWait ans :: post)%list).
Proof.
  destruct (run_cases E a)
    as [[Hcode _]|(c & pre & content & rest & after & Htr & _ & _ & Hend)].
  - split; [right; exact Hcode|]. rewrite Hcode. discriminate.
  - destruct (ended_events c _ after Hend) as [Hcode [Hwait _]].
    split; [exact Hcode|]. intros H0.
    destruct (Hwait H0) as [ans Hin].
    apply in_split in Hin. destruct Hin as [a1 [a2 ->]].
    exists (pre ++ [ERead (c_token_file c) (ReadOk content)])%list, content,
      (rest ++ a1)%list, ans, a2.
    rewrite Htr, <- !app_assoc. reflexivity.
Qed.

Lemma run_exit_code_witness :
  exists pre content mid ans post,
    w_trace (snd (run (Scenario.interrupted 0)
                    (Scenario.demo_args (Some "demo") false)))
      = (pre ++ EPopen (client_command content) OsOk
           :: mid ++ EWait ans :: post)%list.
Proof.
  apply (proj2 (run_exit_code (Scenario.interrupted 0)
                  (Scenario.demo_args (Some "demo") false))).
  vm_compute. reflexivity.
Defined.

(** X9.  Nothing is taken back before the client runs: every DELETE
    request, every removal of a file and every termination of the child in
    a run comes after a successful start of the tunnel client.  A run that
    stops earlier, even after it created the tunnel and the DNS record,
    leaves them in place. *)
Theorem nothing_undone_before_launch (E : env) (a : args)
    (pre post : list event) (ev : event) :
  w_trace (snd (run E a)) = (pre ++ ev :: post)%list ->
  undoes ev = true ->
  exists content, In (EPopen (client_command content) OsOk) pre.
Proof.
  intros Htr Hev.
  destruct (run_cases E a)
    as [[_ (pre0 & l & Htr0 & Hpre & Hl)]
       |(c & pre0 & content & rest & after & Htr0 & Hprov & Hlook & _)].
  - exfalso.
    assert (Hin : In ev (pre0 ++ l)).
    { rewrite <- Htr0, Htr. apply in_or_app. right. left. reflexivity. }
    destruct (stopped_plain a pre0 l ev Hpre Hl Hin) as [H _]. congruence.
  - exists content.
    assert (Heq : (pre ++ ev :: post
                   = (pre0 ++ ERead (c_token_file c) (ReadOk content)
                        :: EPopen (client_command content) OsOk :: rest)
                     ++ after)%list).
    { rewrite <- Htr, Htr0, <- app_assoc. reflexivity. }
    destruct (app_eq_later undoes _ _ _ _ _ Heq) as [Y1 [-> _]].
    + rewrite Forall_forall. intros x Hx.
      apply (launched_plain a c pre0 content rest x Hprov Hlook Hx).
    + exact Hev.
    + apply in_or_app. left. apply in_or_app. right. right. left. reflexivity.
Qed.

Lemma nothing_undone_before_launch_witness :
  exists content,
    In (EPopen (client_command content) OsOk)
       (firstn 14 (w_trace (snd (run (Scenario.interrupted 0)
                                   (Scenario.demo_args (Some "demo") false))))).
Proof.
  refine (nothing_undone_before_launch (Scenario.interrupted 0)
            (Scenario.demo_args (Some "demo") false) _
            (skipn 15 (w_trace (snd (run (Scenario.interrupted 0)
                                       (Scenario.demo_args (Some "demo") false)))))
            (ERemove "/tmp/cloudflared_token_tun1.txt" OsOk) _ _).
  - vm_compute. reflexivity.
  - reflexivity.
Defined.

(** X10.  A run sends the tunnel DELETE at most twice, and at most once
    unless it was interrupted; and every tunnel DELETE it sends is for the
    tunnel it created itself: the account and the id are those of its own
    creation request, answered 200. *)
Theorem run_deletes_its_tunnel (E : env) (a : args) :
  let tr := w_trace (snd (run E a)) in
  (tunnel_deletes tr <= 2)%nat /\
  (~ In (EWait Sigint) tr -> (tunnel_deletes tr <= 1)%nat) /\
  (forall account_id tunnel_id h d ans,
     In (EHttp DELETE (CfdTunnel account_id tunnel_id) h d ans) tr ->
     exists h' name secret r1 j1 result,
       In (EHttp POST (CfdTunnels account_id) h'
             (Some (tunnel_data name secret)) (Responds r1)) tr /\
       status_code r1 = 200 /\ body r1 = Some j1 /\
       py_get j1 "result" (JObj []) = Ok result /\
       py_get result "id" JNull = Ok tunnel_id).
Proof.
  cbv zeta.
  destruct (run_cases E a)
    as [[_ (pre0 & l & Htr & Hpre & Hl)]
       |(c & pre0 & content & rest & after & Htr & Hprov & Hlook & Hend)].
  - assert (Hnone : Forall (never is_tunnel_delete) (pre0 ++ l)).
    { rewrite Forall_forall. intros ev Hin.
      apply (stopped_plain a pre0 l ev Hpre Hl Hin). }
    rewrite Htr. unfold tunnel_deletes.
    rewrite (occurrences_none _ _ Hnone).
    split; [lia|]. split; [intros _; lia|].
    intros account_id tunnel_id h d ans Hin. exfalso.
    rewrite Forall_forall in Hnone. specialize (Hnone _ Hin). discriminate.
  - assert (Heq : w_trace (snd (run E a))
                  = ((pre0 ++ ERead (c_token_file c) (ReadOk content)
                        :: EPopen (client_command content) OsOk :: rest)
                     ++ after)%list).
    { rewrite Htr, <- app_assoc. reflexivity. }
    assert (Hnone : Forall (never is_tunnel_delete)
                      (pre0 ++ ERead (c_token_file c) (ReadOk content)
                         :: EPopen (client_command content) OsOk :: rest)).
    { rewrite Forall_forall. intros ev Hin.
      apply (launched_plain a c pre0 content rest ev Hprov Hlook Hin). }
    destruct (ended_events c _ after Hend)
      as [_ [_ [Hafter [Htwo [Hone _]]]]].
    rewrite Heq. unfold tunnel_deletes in *.
    rewrite occurrences_app, (occurrences_none _ _ Hnone). cbn [Nat.add].
    split; [exact Htwo|]. split.
    { intros Hno. apply Hone. intros Hin. apply Hno.
      apply in_or_app. right. exact Hin. }
    intros account_id tunnel_id h d ans Hin.
    apply in_app_or in Hin. destruct Hin as [Hin|Hin].
    { exfalso. rewrite Forall_forall in Hnone. specialize (Hnone _ Hin).
      discriminate. }
    rewrite Forall_forall in Hafter.
    destruct (Hafter _ Hin) as [[w Hw]|Ht]; [discriminate|].
    inversion Ht; subst.
    destruct Hprov as (s & h' & r0 & secret & r1 & j1 & result & r2 & token
                       & domain & a1 & a2 & a3 & _ & -> & _ & _ & _ & S1 & _
                       & B1 & G1 & I1 & _).
    exists h', (c_tunnel_name c), secret, r1, j1, result.
    split; [|auto].
    apply in_or_app. left. apply in_or_app. left. apply in_or_app. right.
    right. right. left. reflexivity.
Qed.

Lemma run_deletes_its_tunnel_witness :
  (tunnel_deletes
     (w_trace (snd (run exited (Scenario.demo_args (Some "demo") false))))
   <= 1)%nat /\
  (tunnel_deletes
     (w_trace (snd (run (Scenario.interrupted 0)
                      (Scenario.demo_args (Some "demo") false))))
   <= 2)%nat /\
  In (EHttp DELETE (CfdTunnel (JStr "acc1") (JStr "tun1"))
        (bearer_headers "tok") None
        (Responds {| status_code := 200; body := Some (JObj []) |}))
     (w_trace (snd (run exited (Scenario.demo_args (Some "demo") false)))) /\
  exists h' name secret r1 j1 result,
    In (EHttp POST (CfdTunnels (JStr "acc1")) h'
          (Some (tunnel_data name secret)) (Responds r1))
       (w_trace (snd (run exited (Scenario.demo_args (Some "demo") false)))) /\
    status_code r1 = 200 /\ body r1 = Some j1 /\
    py_get j1 "result" (JObj []) = Ok result /\
    py_get result "id" JNull = Ok (JStr "tun1").
Proof.
  assert (Hsent :
    In (EHttp DELETE (CfdTunnel (JStr "acc1") (JStr "tun1"))
          (bearer_headers "tok") None
          (Responds {| status_code := 200; body := Some (JObj []) |}))
       (w_trace (snd (run exited (Scenario.demo_args (Some "demo") false))))).
  { vm_compute. do 20 right. left. reflexivity. }
  split.
  { apply (proj1 (proj2 (run_deletes_its_tunnel exited
                           (Scenario.demo_args (Some "demo") false)))).
    vm_compute. intros H.
    repeat (destruct H as [H|H]; [discriminate H|]). exact H. }
  split.
  { apply (proj1 (run_deletes_its_tunnel (Scenario.interrupted 0)
                    (Scenario.demo_args (Some "demo") false))). }
  split; [exact Hsent|].
  exact (proj2 (proj2 (run_deletes_its_tunnel exited
                         (Scenario.demo_args (Some "demo") false)))
           (JStr "acc1") (JStr "tun1") (bearer_headers "tok") None
           (Responds {| status_code := 200; body := Some (JObj []) |}) Hsent).
Defined.

(** X11.  One token file per run.  In a run that started the client,
    every file event, the write of the token, the read before the launch,
    the look for the file and its removal in teardown, is about the same
    path, [/tmp/cloudflared_token_<id>.txt] for the id of the tunnel whose
    token was fetched. *)
Theorem one_token_file (E : env) (a : args) (cmd : list string) :
  let tr := w_trace (snd (run E a)) in
  In (EPopen cmd OsOk) tr ->
  exists account_id tunnel_id h r2,
    In (EHttp GET (CfdTunnelToken account_id tunnel_id) h None (Responds r2)) tr /\
    status_code r2 = 200 /\
    forall ev path, In ev tr -> file_of ev = Some path ->
      path = token_path tunnel_id.
Proof.
  cbv zeta. intros Hlaunch.
  destruct (run_cases E a)
    as [[_ (pre0 & l & Htr & Hpre & Hl)]
       |(c & pre0 & content & rest & after & Htr & Hprov & Hlook & Hend)].
  - exfalso. rewrite Htr in Hlaunch.
    destruct (stopped_plain a pre0 l _ Hpre Hl Hlaunch) as [_ [H _]].
    discriminate.
  - destruct (ended_events c _ after Hend) as [_ [_ [Hafter _]]].
    destruct Hprov as (s & h & r0 & secret & r1 & j1 & result & r2 & token
                       & domain & a1 & a2 & a3 & Hs & -> & Hfile & _ & _ & _
                       & S2 & _).
    exists (c_account_id c), (c_tunnel_id c), h, r2.
    split.
    { rewrite Htr. apply in_or_app. left. apply in_or_app. right.
      right. right. right. left. reflexivity. }
    split; [exact S2|].
    intros ev path Hin Hpath. rewrite <- Hfile.
    rewrite Htr in Hin. apply in_app_or in Hin. destruct Hin as [Hin|Hin].
    { apply in_app_or in Hin. destruct Hin as [Hin|Hin].
      - rewrite Forall_forall in Hs.
        rewrite (startup_event_no_file ev (Hs ev Hin)) in Hpath. discriminate.
      - cbn in Hin.
        repeat (destruct Hin as [<-|Hin]; [cbn in Hpath; congruence|]).
        destruct Hin. }
    destruct Hin as [<-|[<-|Hin]].
    { cbn in Hpath. congruence. }
    { discriminate. }
    apply in_app_or in Hin. destruct Hin as [Hin|Hin].
    { destruct (debug_look_plain (c_debug c) rest ev Hlook Hin)
        as [_ [_ [_ H]]]. congruence. }
    rewrite Forall_forall in Hafter.
    destruct (Hafter ev Hin) as [[w ->]|Ht]; [discriminate|].
    inversion Ht; subst; cbn in Hpath; congruence.
Qed.

Lemma one_token_file_witness :
  exists account_id tunnel_id h r2,
    In (EHttp GET (CfdTunnelToken account_id tunnel_id) h None (Responds r2))
       (w_trace (snd (run (Scenario.interrupted 0)
                        (Scenario.demo_args (Some "demo") false)))) /\
    status_code r2 = 200.
Proof.
  destruct (one_token_file (Scenario.interrupted 0)
              (Scenario.demo_args (Some "demo") false)
              (client_command "eyJhIjoi"))
    as (account_id & tunnel_id & h & r2 & Hin & Hs & _).
  - vm_compute. do 11 right. left. reflexivity.
  - exists account_id, tunnel_id, h, r2. split; assumption.
Defined.



(* ================================================================== *)
(** ** Runs that end at once *)

(** X13.  When the version probe of [cloudflared] raises, the run is over
    after that one call, with exit code 1: [FileNotFoundError] means the
    client is not installed and [install_instructions] exits; any other
    exception is not handled.  Nothing else has happened: no name was
    drawn, no request sent. *)
Theorem no_client_no_run (E : env) (a : args) (k : exc_kind) :
  env_version_probe E [] = OsRaises k ->
  check_cloudflared_installed E initial_world
    = ((if exc_kind_eqb FileNotFoundError k then Ok false else Raise (Error k)),
       log (EVersionProbe (OsRaises k)) initial_world) /\
  run E a = (1, log (EVersionProbe (OsRaises k)) initial_world).
Proof.
  intros Hprobe.
  assert (Hc : check_cloudflared_installed E initial_world
               = ((if exc_kind_eqb FileNotFoundError k then Ok false
                   else Raise (Error k)),
                  log (EVersionProbe (OsRaises k)) initial_world)).
  { unfold check_cloudflared_installed. rewrite try_cases, bind_cases.
    unfold version_probe. cbn [initial_world w_trace]. rewrite Hprobe.
    cbn [os_step is_kind]. destruct (exc_kind_eqb FileNotFoundError k);
      reflexivity. }
  split; [exact Hc|].
  unfold run, main. rewrite bind_cases, Hc.
  destruct (exc_kind_eqb FileNotFoundError k); reflexivity.
Qed.

Lemma no_client_no_run_witness :
  run no_client (Scenario.demo_args (Some "demo") false)
  = (1, log (EVersionProbe (OsRaises FileNotFoundError)) initial_world).
Proof.
  exact (proj2 (no_client_no_run no_client
                  (Scenario.demo_args (Some "demo") false) FileNotFoundError
                  eq_refl)).
Defined.

(** X14.  Without an API key, unset or empty, a run ends with exit code 1
    and sends no request at all: the key is checked before the first
    request, and [SystemExit] passes both [except] clauses of [main]. *)
Theorem no_key_no_request (E : env) (a : args) :
  env_api_key E = None \/ env_api_key E = Some "" ->
  fst (run E a) = 1 /\
  forall m ep h d ans, ~ In (EHttp m ep h d ans) (w_trace (snd (run E a))).
Proof.
  intros Hkey.
  assert (Hk : get_api_key E = Raise (SystemExit 1)).
  { unfold get_api_key. destruct Hkey as [->| ->]; reflexivity. }
  unfold run, main, check_cloudflared_installed, version_probe, os_step,
    install_instructions, choose_name, provision_and_run, random_choices,
    time_time, try_except, try_except2, sys_exit, raise, bind, ret, lift.
  rewrite Hk. cbn [initial_world w_trace].
  destruct (env_version_probe E []) as [|k]; [|destruct k];
    cbn; destruct (arg_tunnel_name a) as [base|];
    try destruct (arg_no_timestamp a); cbn;
    (split; [reflexivity|]; intros m ep h d ans Hin;
     repeat (destruct Hin as [Hin|Hin]; [discriminate Hin|]); exact Hin).
Qed.

Lemma no_key_no_request_witness :
  fst (run no_key (Scenario.demo_args (Some "demo") false)) = 1.
Proof.
  apply (no_key_no_request no_key (Scenario.demo_args (Some "demo") false)).
  left. reflexivity.
Defined.

(* ================================================================== *)
(** ** The earlier creation of a tunnel *)

Lemma pick_alnum (n : nat) :
  String.length (pick (Legacy.ascii_letters ++ Legacy.digits) n) = 1%nat /\
  all_chars Legacy.is_alnum (pick (Legacy.ascii_letters ++ Legacy.digits) n)
    = true.
Proof.
  unfold pick.
  assert (H : (n mod String.length (Legacy.ascii_letters ++ Legacy.digits)
               < 62)%nat)
    by (apply Nat.mod_upper_bound; discriminate).
  remember (n mod String.length (Legacy.ascii_letters ++ Legacy.digits))%nat
    as k eqn:Ek. clear Ek.
  do 62 (destruct k as [|k]; [vm_compute; auto|]). lia.
Qed.

Lemma concat_picks_in (population : string) (p : ascii -> bool) :
  (forall n, String.length (pick population n) = 1%nat /\
             all_chars p (pick population n) = true) ->
  forall (f : nat -> nat) (l : list nat),
    String.length (String.concat "" (map (fun i => pick population (f i)) l))
      = List.length l /\
    all_chars p (String.concat "" (map (fun i => pick population (f i)) l))
      = true.
Proof.
  intros Hpick f l.
  induction l as [|i l [IH1 IH2]]; [split; reflexivity|].
  destruct (Hpick (f i)) as [L C].
  cbn [map String.concat].
  destruct (map (fun i0 => pick population (f i0)) l) as [|y ys] eqn:Em.
  - destruct l; [|discriminate]. auto.
  - change (String.append EmptyString ?x) with x.
    rewrite length_append, all_chars_append, L, C.
    cbn [String.concat] in IH1, IH2.
    split; [simpl in *; lia | exact IH2].
Qed.

Section LegacyFacts.

Variable O : Legacy.oracle.

Lemma find_tunnel_first (tunnel_name : string) (before after : list json)
    (tunnel id : json) :
  Forall (Legacy.other_name tunnel_name) before ->
  py_get tunnel "name" JNull = Ok (JStr tunnel_name) ->
  py_item tunnel "id" = Ok id ->
  Legacy.find_tunnel (before ++ tunnel :: after) tunnel_name
    = Ok (Some (id, JStr tunnel_name)).
Proof.
  intros Hbefore Hname Hid.
  induction Hbefore as [|t before [n [Hn Hno]] _ IH]; cbn [app Legacy.find_tunnel].
  - rewrite Hname. cbn [Legacy.named]. rewrite String.eqb_refl, Hid.
    destruct tunnel as [| | | | |l]; try discriminate Hname.
    cbn in Hname, Hid |- *. destruct (lookup "name" l) as [v|].
    + injection Hname as ->. reflexivity.
    + discriminate Hname.
  - rewrite Hn, Hno. exact IH.
Qed.

Lemma find_tunnel_none (tunnel_name : string) (tunnels : list json) :
  Forall (Legacy.other_name tunnel_name) tunnels ->
  Legacy.find_tunnel tunnels tunnel_name = Ok None.
Proof.
  induction 1 as [|t tunnels [n [Hn Hno]] _ IH]; cbn [Legacy.find_tunnel].
  - reflexivity.
  - rewrite Hn, Hno. exact IH.
Qed.

(** What [find_tunnel] finds is a listed tunnel of that name. *)
Lemma find_tunnel_found (tunnel_name : string) (tunnels : list json)
    (id name : json) :
  Legacy.find_tunnel tunnels tunnel_name = Ok (Some (id, name)) ->
  name = JStr tunnel_name /\
  exists tunnel, In tunnel tunnels /\ py_item tunnel "id" = Ok id /\
                 py_item tunnel "name" = Ok (JStr tunnel_name).
Proof.
  induction tunnels as [|t tunnels IH]; cbn [Legacy.find_tunnel];
    [discriminate|].
  destruct (py_get t "name" JNull) as [n|e] eqn:Hn; [|discriminate].
  destruct (Legacy.named n tunnel_name) eqn:Hnamed.
  - destruct (py_item t "id") as [i|e] eqn:Hi; [|discriminate].
    destruct (py_item t "name") as [m|e] eqn:Hm; [|discriminate].
    intros [= <- <-].
    assert (m = JStr tunnel_name) as ->.
    { destruct t as [| | | | |l]; try discriminate Hn.
      cbn in Hn, Hm. destruct (lookup "name" l) as [v|]; [|discriminate Hm].
      injection Hn as <-. injection Hm as <-.
      destruct v; try discriminate Hnamed. cbn in Hnamed.
      apply String.eqb_eq in Hnamed. subst. reflexivity. }
    split; [reflexivity|]. exists t. split; [left; reflexivity|]. auto.
  - intros H. destruct (IH H) as [Hname [tunnel [Hin Hrest]]].
    split; [exact Hname|]. exists tunnel. split; [right; exact Hin|exact Hrest].
Qed.

End LegacyFacts.

(** X15.  [create_tunnel] reuses a tunnel by name.  When the listing of
    the account's tunnels is answered 200 and holds a tunnel of the wanted
    name, the function returns the id and the name of the first such
    tunnel after that single GET: no secret is drawn and nothing is
    created.  Conversely, whenever it returns after the listing alone, what
    it returns is the id of a listed tunnel of that name. *)
Theorem create_tunnel_reuses (O : Legacy.oracle) (account_id : json)
    (tunnel_name : string) (debug : bool) (tr : list Legacy.call)
    (h : headers) (r : response) (j listing : json) (items : list json) :
  get_headers (Legacy.o_env O) = Ok h ->
  Legacy.o_http O tr GET (Legacy.tunnels_url account_id) h None = Responds r ->
  status_code r = 200 -> body r = Some j ->
  py_get j "result" (JArr []) = Ok listing -> py_iter listing = Ok items ->
  let listed :=
    (tr ++ [Legacy.Http GET (Legacy.tunnels_url account_id) h None
              (Responds r)])%list in
  (forall before tunnel after id,
     items = (before ++ tunnel :: after)%list ->
     Forall (Legacy.other_name tunnel_name) before ->
     py_get tunnel "name" JNull = Ok (JStr tunnel_name) ->
     py_item tunnel "id" = Ok id ->
     Legacy.create_tunnel O account_id tunnel_name debug tr
       = (Ok (id, JStr tunnel_name), listed)) /\
  (forall id name,
     Legacy.create_tunnel O account_id tunnel_name debug tr
       = (Ok (id, name), listed) ->
     name = JStr tunnel_name /\
     exists tunnel, In tunnel items /\ py_item tunnel "id" = Ok id /\
                    py_item tunnel "name" = Ok (JStr tunnel_name)).
Proof.
  intros Hh Ha Hs Hb Hl Hi. cbv zeta.
  assert (Hstep : forall found,
    Legacy.find_tunnel items tunnel_name = Ok (Some found) ->
    Legacy.create_tunnel O account_id tunnel_name debug tr
    = (Ok found,
       (tr ++ [Legacy.Http GET (Legacy.tunnels_url account_id) h None
                 (Responds r)])%list)).
  { intros found Hf. unfold Legacy.create_tunnel.
    rewrite bind_lift, Hh. cbv beta iota. rewrite bind_cases.
    unfold Legacy.request at 1. rewrite Ha. cbv beta iota zeta.
    rewrite Hs. cbn [Z.eqb Pos.eqb negb].
    rewrite bind_lift. unfold response_json. rewrite Hb. cbv beta iota.
    rewrite bind_lift, Hl. cbv beta iota.
    rewrite bind_lift, Hi. cbv beta iota.
    rewrite bind_lift, Hf. reflexivity. }
  split.
  - intros before tunnel after id -> Hbefore Hname Hid.
    apply Hstep. apply find_tunnel_first; assumption.
  - intros id name.
    destruct (Legacy.find_tunnel items tunnel_name) as [[found|]|e] eqn:Hf.
    + rewrite (Hstep found eq_refl). intros [= ->].
      apply (find_tunnel_found tunnel_name items id name). exact Hf.
    + unfold Legacy.create_tunnel.
      rewrite bind_lift, Hh. cbv beta iota. rewrite bind_cases.
      unfold Legacy.request at 1. rewrite Ha. cbv beta iota zeta.
      rewrite Hs. cbn [Z.eqb Pos.eqb negb].
      rewrite bind_lift. unfold response_json. rewrite Hb. cbv beta iota.
      rewrite bind_lift, Hl. cbv beta iota.
      rewrite bind_lift, Hi. cbv beta iota.
      rewrite bind_lift, Hf. cbv beta iota.
      rewrite bind_cases. unfold Legacy.random_choices at 1. cbv beta iota zeta.
      rewrite bind_cases. unfold Legacy.request at 1.
      match goal with
      | |- context [Legacy.o_http O ?t POST ?u ?hh ?d] =>
          destruct (Legacy.o_http O t POST u hh d) as [r2|k2]
      end; cbv beta iota zeta.
      2:{ discriminate. }
      intros Hrun. exfalso.
      match type of Hrun with
      | ?m ?t = _ =>
          assert (Hp : pure m) by (unfold sys_exit; pure_go);
          pose proof (f_equal (@List.length Legacy.call) (Hp t)) as Hlen
      end.
      rewrite Hrun in Hlen. cbn [snd] in Hlen.
      rewrite !length_app in Hlen. cbn in Hlen. lia.
    + unfold Legacy.create_tunnel.
      rewrite bind_lift, Hh. cbv beta iota. rewrite bind_cases.
      unfold Legacy.request at 1. rewrite Ha. cbv beta iota zeta.
      rewrite Hs. cbn [Z.eqb Pos.eqb negb].
      rewrite bind_lift. unfold response_json. rewrite Hb. cbv beta iota.
      rewrite bind_lift, Hl. cbv beta iota.
      rewrite bind_lift, Hi. cbv beta iota.
      rewrite bind_lift, Hf. discriminate.
Qed.

Lemma create_tunnel_reuses_witness :
  Legacy.create_tunnel
    (Legacy.account_with
       [JObj [("id", JStr "t1"); ("name", JStr "other")];
        JObj [("id", JStr "t2"); ("name", JStr "demo")]])
    (JStr "acc1") "demo" false []
  = (Ok (JStr "t2", JStr "demo"),
     [Legacy.Http GET (Legacy.tunnels_url (JStr "acc1")) (bearer_headers "tok")
        None
        (Scenario.ok
           (JObj [("result",
                   JArr [JObj [("id", JStr "t1"); ("name", JStr "other")];
                         JObj [("id", JStr "t2"); ("name", JStr "demo")]])]))]).
Proof.
  refine (proj1 (create_tunnel_reuses
                   (Legacy.account_with
                      [JObj [("id", JStr "t1"); ("name", JStr "other")];
                       JObj [("id", JStr "t2"); ("name", JStr "demo")]])
                   (JStr "acc1") "demo" false []
                   (bearer_headers "tok") _ _ _ _
                   eq_refl eq_refl eq_refl eq_refl eq_refl eq_refl)
            [JObj [("id", JStr "t1"); ("name", JStr "other")]]
            (JObj [("id", JStr "t2"); ("name", JStr "demo")]) []
            (JStr "t2") eq_refl _ eq_refl eq_refl).
  constructor; [|constructor]. exists (JStr "other"). split; reflexivity.
Defined.

(** X16.  [create_tunnel] creates a tunnel only when the listing,
    answered 200, holds no tunnel of the wanted name.  It then draws a
    secret of 32 letters and digits and sends one POST with the name and
    that secret, and nothing else.  When the POST is answered 200 with a
    truthy id it returns that id together with the name the answer
    carries, which need not be the name asked for; another status ends the
    process with code 1. *)
Theorem create_tunnel_creates (O : Legacy.oracle) (account_id : json)
    (tunnel_name : string) (debug : bool) (tr : list Legacy.call)
    (h : headers) (r : response) (j listing : json) (items : list json) :
  get_headers (Legacy.o_env O) = Ok h ->
  Legacy.o_http O tr GET (Legacy.tunnels_url account_id) h None = Responds r ->
  status_code r = 200 -> body r = Some j ->
  py_get j "result" (JArr []) = Ok listing -> py_iter listing = Ok items ->
  Forall (Legacy.other_name tunnel_name) items ->
  let out := Legacy.create_tunnel O account_id tunnel_name debug tr in
  exists secret ans,
    snd out
      = (tr ++
         [Legacy.Http GET (Legacy.tunnels_url account_id) h None (Responds r);
          Legacy.Choices secret;
          Legacy.Http POST (Legacy.tunnels_url account_id) h
            (Some (tunnel_data tunnel_name secret)) ans])%list /\
    String.length secret = 32%nat /\
    all_chars Legacy.is_alnum secret = true /\
    (forall r2 j2 result tunnel_id,
       ans = Responds r2 -> status_code r2 = 200 -> body r2 = Some j2 ->
       py_get j2 "result" (JObj []) = Ok result ->
       py_get result "id" JNull = Ok tunnel_id -> truthy tunnel_id = true ->
       exists stored,
         py_get result "name" JNull = Ok stored /\
         fst out = Ok (tunnel_id, stored)) /\
    (forall r2, ans = Responds r2 -> status_code r2 <> 200 ->
       fst out = Raise (SystemExit 1)).
Proof.
  intros Hh Ha Hs Hb Hl Hi Hnone out.
  pose proof (find_tunnel_none tunnel_name items Hnone) as Hf.
  assert (Hout : out = Legacy.create_tunnel O account_id tunnel_name debug tr)
    by reflexivity.
  clearbody out.
  unfold Legacy.create_tunnel in Hout.
  rewrite bind_lift, Hh in Hout. cbv beta iota in Hout.
  rewrite bind_cases in Hout.
  unfold Legacy.request at 1 in Hout. rewrite Ha in Hout.
  cbv beta iota zeta in Hout.
  rewrite Hs in Hout. cbn [Z.eqb Pos.eqb negb] in Hout.
  rewrite bind_lift in Hout. unfold response_json at 1 in Hout.
  rewrite Hb in Hout. cbv beta iota in Hout.
  rewrite bind_lift, Hl in Hout. cbv beta iota in Hout.
  rewrite bind_lift, Hi in Hout. cbv beta iota in Hout.
  rewrite bind_lift, Hf in Hout. cbv beta iota in Hout.
  rewrite bind_cases in Hout. unfold Legacy.random_choices at 1 in Hout.
  cbv beta iota zeta in Hout.
  match type of Hout with
  | context [Legacy.Choices ?s] => set (secret := s) in Hout
  end.
  assert (Hsecret : String.length secret = 32%nat /\
                    all_chars Legacy.is_alnum secret = true).
  { subst secret.
    destruct (concat_picks_in (Legacy.ascii_letters ++ Legacy.digits)
                Legacy.is_alnum pick_alnum
                (Legacy.o_random O
                   (tr ++ [Legacy.Http GET (Legacy.tunnels_url account_id) h
                             None (Responds r)])%list)
                (seq 0 32)) as [HL HC].
    split; [rewrite HL; reflexivity|exact HC]. }
  destruct Hsecret as [HL HC]. clearbody secret.
  rewrite bind_cases in Hout. unfold Legacy.request at 1 in Hout.
  match type of Hout with
  | context [Legacy.o_http O ?t POST ?u ?hh ?d] =>
      destruct (Legacy.o_http O t POST u hh d) as [r2|k2] eqn:Hpost
  end; cbv beta iota zeta in Hout.
  { exists secret, (Responds r2).
    split.
    { rewrite Hout.
      match goal with
      | |- snd (?m ?t) = _ =>
          assert (Hp : pure m) by (unfold sys_exit; pure_go); rewrite (Hp t)
      end.
      rewrite <- !app_assoc. reflexivity. }
    split; [exact HL|]. split; [exact HC|]. split.
    - intros r2' j2 result tunnel_id [= <-] Hs2 Hb2 Hres Hid Htruthy.
      rewrite Hs2 in Hout. cbn [Z.eqb Pos.eqb negb] in Hout.
      rewrite bind_lift in Hout. unfold response_json in Hout.
      rewrite Hb2 in Hout. cbv beta iota in Hout.
      rewrite bind_lift, Hres in Hout. cbv beta iota in Hout.
      rewrite bind_lift, Hid in Hout. cbv beta iota in Hout.
      destruct result as [| | | | |l]; try discriminate Hid.
      rewrite bind_lift in Hout. cbn [py_get] in Hout. cbv beta iota in Hout.
      rewrite Htruthy in Hout. cbn [negb] in Hout.
      eexists. split; [reflexivity|]. rewrite Hout. reflexivity.
    - intros r2' [= <-] Hs2.
      apply Z.eqb_neq in Hs2. rewrite Hs2 in Hout. rewrite Hout.
      reflexivity. }
  exists secret, (HttpRaises k2). rewrite Hout. cbn [fst snd].
  split; [rewrite <- !app_assoc; reflexivity|].
  split; [exact HL|]. split; [exact HC|].
  split; [discriminate|discriminate].
Qed.

Lemma create_tunnel_creates_witness :
  exists secret ans,
    snd (Legacy.create_tunnel
           (Legacy.account_with
              [JObj [("id", JStr "t1"); ("name", JStr "other")]])
           (JStr "acc1") "demo" false [])
    = [Legacy.Http GET (Legacy.tunnels_url (JStr "acc1")) (bearer_headers "tok")
         None
         (Scenario.ok
            (JObj [("result",
                    JArr [JObj [("id", JStr "t1"); ("name", JStr "other")]])]));
       Legacy.Choices secret;
       Legacy.Http POST (Legacy.tunnels_url (JStr "acc1")) (bearer_headers "tok")
         (Some (tunnel_data "demo" secret)) ans]
    /\ String.length secret = 32%nat.
Proof.
  destruct (create_tunnel_creates
              (Legacy.account_with
                 [JObj [("id", JStr "t1"); ("name", JStr "other")]])
              (JStr "acc1") "demo" false [] (bearer_headers "tok") _ _ _ _
              eq_refl eq_refl eq_refl eq_refl eq_refl eq_refl)
    as (secret & ans & Htr & HL & _).
  - constructor; [|constructor]. exists (JStr "other"). split; reflexivity.
  - exists secret, ans. split; [exact Htr|exact HL].
Defined.

(* ================================================================== *)
(** ** The zones that teardown scans *)

Section ScannedZones.

Variable E : env.
Variables (account_id tunnel_id : json) (tunnel_name : string) (h : headers).

Lemma scan_zone_within (zones : list json) (zone : json) :
  In zone zones -> emits (within zones) (scan_zone E tunnel_name h zone).
Proof.
  intros Hin. unfold scan_zone.
  apply emits_bind_lift. intros zid Hid.
  apply emits_bind; [apply emits_lift|intros _].
  unfold delete_exact, delete_prefixed, delete_record, count_deleted.
  emits_go;
    (intros z Hz; cbn in Hz; injection Hz as <-; exists zone; split; assumption).
Qed.

(** After the zones are known: the scan of each, then the tunnel. *)
Lemma scan_and_delete_within (items : list json) :
  emits (within items)
    (for_each items (scan_zone E tunnel_name h) ;;
     delete_tunnel E account_id tunnel_id h ;;
     l <- get_locals ;;
     ret (dns_records_deleted l)).
Proof.
  apply emits_bind.
  { apply emits_for_each_in. intros zone Hin. apply scan_zone_within, Hin. }
  intros _. apply emits_bind.
  { unfold delete_tunnel, assign_tunnel_deleted.
    emits_go; intros z Hz; discriminate Hz. }
  intros _. emits_go.
Qed.

(** The zones [list_zones] settles on, when one was given: the listing
    when it names zones, else the given zone alone. *)
Lemma list_zones_settles (zone_id : option string) (l : locals) (w : world) :
  given zone_id = true ->
  let ans := env_http E (w_trace w) GET (AccountZones account_id) h None in
  exists zones,
    list_zones E account_id zone_id h (l, w)
      = (Ok tt,
         ({| all_zones := Some zones;
             dns_records_deleted := dns_records_deleted l;
             tunnel_deleted := tunnel_deleted l |},
          log (EHttp GET (AccountZones account_id) h None ans) w)) /\
    (no_zones ans -> zones = single_zone zone_id) /\
    (forall r j, ans = Responds r -> status_code r = 200 -> body r = Some j ->
       forall listed, py_get j "result" (JArr []) = Ok listed ->
         truthy listed = true -> zones = listed).
Proof.
  intros Hg. cbv zeta.
  unfold list_zones, read_all_zones, assign_all_zones. rewrite Hg.
  rewrite bind_cases, try_cases, bind_in_world_request.
  destruct (env_http E (w_trace w) GET (AccountZones account_id) h None)
    as [r|k] eqn:Ea; cbv beta iota; cbn [is_Exception].
  2:{ unfold set_locals. cbn. eexists. split; [reflexivity|].
      split; [reflexivity|]. intros r j Hr. discriminate Hr. }
  rewrite bind_set_locals.
  destruct (Z.eqb_spec (status_code r) 200) as [Hs|Hs].
  2:{ unfold set_locals. cbn. eexists. split; [reflexivity|].
      split; [reflexivity|]. intros r' j [= <-] Hs'. contradiction. }
  rewrite bind_lift. unfold response_json.
  destruct (body r) as [j|] eqn:Hb; cbv beta iota; cbn [is_Exception].
  2:{ unfold set_locals. cbn. eexists. split; [reflexivity|].
      split; [reflexivity|]. intros r' j [= <-] _ Hb'. congruence. }
  rewrite bind_lift.
  destruct (py_get j "result" (JArr [])) as [listed|e] eqn:Hr; cbv beta iota.
  2:{ rewrite (py_get_ordinary _ _ _ _ Hr).
      unfold set_locals. cbn. eexists. split; [reflexivity|].
      split; [reflexivity|].
      intros r' j' [= <-] _ Hb' listed' Hl'. congruence. }
  unfold set_locals. cbn.
  destruct (truthy listed) eqn:Ht; cbn.
  - eexists. split; [reflexivity|]. split.
    + intros Hno. exfalso.
      inversion Hno as [|r' Hs'|r' _ Hb'|r' j' e _ Hb' Hr'
                       |r' j' zones _ Hb' Hr' Ht']; subst; try congruence;
        rewrite Hb in Hb'; injection Hb' as <-; rewrite Hr in Hr';
        try discriminate Hr'; injection Hr' as <-; congruence.
    + intros r' j' [= <-] _ Hb' listed' Hl' _. congruence.
  - eexists. split; [reflexivity|]. split; [reflexivity|].
    intros r' j' [= <-] _ Hb' listed' Hl' Ht'. congruence.
Qed.

End ScannedZones.

(** X17.  Which zones teardown scans, when a zone id is given (as the
    [cleanup] of [run_cloudflared] gives the hard-coded one).  When the
    listing of the account's zones is answered 200 with a non-empty
    result, every request about DNS records is about a zone of that
    listing: the given zone is scanned only if the listing holds it.  When
    the listing names no zone (the request raises, another status, no
    JSON, no result), every such request is about the given zone. *)
Theorem teardown_scans_listed_zones (E : env) (account_id tunnel_id : json)
    (tunnel_name : string) (z : string) (debug : bool) (w : world)
    (h : headers) :
  get_headers E = Ok h -> z <> "" ->
  let ans := env_http E (w_trace w) GET (AccountZones account_id) h None in
  let evs := added w (snd (delete_tunnel_and_dns E account_id tunnel_id
                             tunnel_name (Some z) debug w)) in
  (forall r j listed items,
     ans = Responds r -> status_code r = 200 -> body r = Some j ->
     py_get j "result" (JArr []) = Ok listed -> truthy listed = true ->
     py_iter listed = Ok items ->
     Forall (within items) evs) /\
  (no_zones ans ->
   forall ev zid, In ev evs -> zone_of ev = Some zid -> zid = JStr z).
Proof.
  intros Hh Hz. cbv zeta.
  assert (Hg : given (Some z) = true).
  { cbn. destruct (String.eqb_spec z ""); [contradiction|reflexivity]. }
  destruct (list_zones_settles E account_id h (Some z) no_locals w Hg)
    as [zones [Hlist [Hfallback Hlisted]]].
  assert (Hrun : forall items, py_iter zones = Ok items ->
            Forall (within items)
              (added w (snd (delete_tunnel_and_dns E account_id tunnel_id
                               tunnel_name (Some z) debug w)))).
  { intros items Hitems.
    unfold delete_tunnel_and_dns, call, delete_tunnel_and_dns_body.
    rewrite bind_lift, Hh. cbv beta iota.
    rewrite bind_cases, Hlist. cbv beta iota.
    unfold read_all_zones. rewrite bind_bind, bind_get_locals.
    cbn [all_zones]. rewrite bind_ret, bind_lift, Hitems. cbv beta iota.
    match goal with
    | |- context [?m (?l1, ?w1)] =>
        lazymatch m with
        | bind (for_each _ _) _ =>
            destruct (scan_and_delete_within E account_id tunnel_id
                        tunnel_name h items (l1, w1)) as [evs [Htr Hev]];
            destruct (m (l1, w1)) as [res [l2 w2]]
        end
    end.
    unfold trace_of, traced_locals in Htr. cbn [fst snd] in *.
    rewrite log_trace, <- app_assoc in Htr.
    rewrite (added_app _ _ _ Htr).
    constructor; [intros zid Hzid; discriminate Hzid|exact Hev]. }
  split.
  - intros r j listed items Ha Hs Hb Hr Ht Hitems.
    apply Hrun. rewrite (Hlisted r j Ha Hs Hb listed Hr Ht). exact Hitems.
  - intros Hno ev zid Hin Hzone.
    pose proof (Hrun [JObj [("id", JStr z); ("name", JStr "unknown")]])
      as Hone.
    rewrite (Hfallback Hno) in Hone. specialize (Hone eq_refl).
    rewrite Forall_forall in Hone.
    destruct (Hone ev Hin zid Hzone) as [zone [[<-|[]] Hid]].
    cbn in Hid. congruence.
Qed.

Lemma teardown_scans_listed_zones_witness :
  Forall (within [JObj [("id", JStr "z1"); ("name", JStr "example.com")]])
    (added initial_world
       (snd (delete_tunnel_and_dns (Scenario.interrupted 0) (JStr "acc1")
               (JStr "tun1") "demo-1700000000" (Some hardcoded_zone_id) false
               initial_world))).
Proof.
  refine (proj1 (teardown_scans_listed_zones (Scenario.interrupted 0)
                   (JStr "acc1") (JStr "tun1") "demo-1700000000"
                   hardcoded_zone_id false initial_world
                   (bearer_headers "tok") eq_refl _)
            _ _ _ _ eq_refl eq_refl eq_refl eq_refl eq_refl eq_refl).
  discriminate.
Defined.

(* ================================================================== *)
(** ** Arguments without effect *)

(** X18.  The [domain] argument of the command line has no effect.
    [main] hands it to [create_tunnel_config] as [custom_domain], which
    never reads it: the hostname, every request and the whole run are the
    same whatever domain is given.  Likewise [run_cloudflared] never reads
    its [config_file]. *)
Theorem domain_argument_is_ignored (E : env) (a : args)
    (domain : option string) :
  (forall account_id tunnel_id tunnel_name port local_addr debug w,
     create_tunnel_config E account_id tunnel_id tunnel_name port local_addr
       domain debug w
     = create_tunnel_config E account_id tunnel_id tunnel_name port local_addr
         None debug w) /\
  (forall token_file config_file tunnel_id account_id tunnel_name debug w,
     run_cloudflared E token_file config_file tunnel_id account_id
       tunnel_name debug w
     = run_cloudflared E token_file None tunnel_id account_id tunnel_name
         debug w) /\
  run E (with_domain a domain) = run E a.
Proof.
  split; [|split].
  - intros. reflexivity.
  - intros. reflexivity.
  - unfold run, main, choose_name, provision_and_run, with_domain.
    cbn [arg_tunnel_name arg_port arg_domain arg_debug arg_local_addr
         arg_no_timestamp].
    reflexivity.
Qed.

(* ================================================================== *)
(** ** The interrupt clause of [main] *)

(** X19.  The [except KeyboardInterrupt] around [process.wait()] never
    fires.  Once [run_cloudflared] has returned, SIGINT is handled by
    [signal_handler], which runs [cleanup] and ends in [SystemExit(0)], or
    in what [cleanup] raised: the wait never raises [KeyboardInterrupt],
    and the [try] around it changes nothing. *)
Theorem interrupt_clause_is_dead (E : env) (token_file : string)
    (config_file : option string) (tunnel_id account_id : json)
    (tunnel_name : string) (debug : bool) (w : world) :
  let out := run_cloudflared E token_file config_file tunnel_id account_id
               tunnel_name debug w in
  fst out = Ok tt ->
  fst (process_wait E (snd out)) <> Raise KeyboardInterrupt /\
  try_except (process_wait E) is_KeyboardInterrupt (fun _ => sys_exit 0)
    (snd out)
  = process_wait E (snd out).
Proof.
  cbv zeta. intros Hok.
  destruct (run_cloudflared_outcome E token_file config_file tunnel_id
              account_id tunnel_name debug w (w_atexit w) (w_sigint w))
    as [(content & rest & _ & [_ Hs] & _)|(k & Hr & _)];
    [split; reflexivity| |congruence].
  set (c := closure_of token_file tunnel_id account_id tunnel_name debug) in *.
  set (w1 := snd (run_cloudflared E token_file config_file tunnel_id
                    account_id tunnel_name debug w)) in *.
  assert (Hwait : forall e, fst (process_wait E w1) = Raise e ->
                    is_KeyboardInterrupt e = false).
  { intros e. unfold process_wait.
    destruct (env_wait E (w_trace w1)) as [code|]; [discriminate|].
    change (w_sigint (log (EWait Sigint) w1)) with (w_sigint w1). rewrite Hs.
    unfold signal_handler. rewrite bind_cases.
    pose proof (cleanup_fatal E c (log (EWait Sigint) w1)) as Hf.
    destruct (cleanup E c (log (EWait Sigint) w1)) as [[u|e'] w2];
      cbn [fst snd] in *.
    - intros [= <-]. reflexivity.
    - intros [= <-]. apply fatal_not_interrupt, Hf. reflexivity. }
  split.
  - intros H. specialize (Hwait _ H). discriminate.
  - rewrite try_cases.
    destruct (process_wait E w1) as [[u|e] w2]; [reflexivity|].
    rewrite (Hwait e eq_refl). reflexivity.
Qed.

Lemma interrupt_clause_is_dead_witness :
  fst (process_wait (Scenario.interrupted 0)
         (snd (run_cloudflared (Scenario.interrupted 0)
                 "/tmp/cloudflared_token_tun1.txt" None (JStr "tun1")
                 (JStr "acc1") "demo" false
                 (log (EWrite "/tmp/cloudflared_token_tun1.txt" "eyJhIjoi" OsOk)
                    initial_world))))
  <> Raise KeyboardInterrupt.
Proof.
  apply (interrupt_clause_is_dead (Scenario.interrupted 0)
           "/tmp/cloudflared_token_tun1.txt" None (JStr "tun1") (JStr "acc1")
           "demo" false
           (log (EWrite "/tmp/cloudflared_token_tun1.txt" "eyJhIjoi" OsOk)
              initial_world)).
  vm_compute. reflexivity.
Defined.

(* ================================================================== *)
(** ** Answers that are never looked at *)

(** X20.  [create_tunnel_config] does not look at the answers of the
    configuration PUT and of the DNS record POST.  Once the domain is
    known and the PUT is answered at all, with whatever status, the
    function returns the hostname, [<tunnel name>.<domain>], whatever
    the DNS POST is answered, and also when the DNS POST raises.  Only an
    exception of the PUT itself leaves the function, before the DNS POST
    is sent. *)
Theorem configuration_answers_unchecked (E : env)
    (account_id tunnel_id : json) (tunnel_name : string) (port : Z)
    (local_addr : string) (custom_domain : option string) (debug : bool)
    (w : world) (h : headers) (domain : json) :
  get_headers E = Ok h ->
  fst (get_account_domain E account_id debug w) = Ok domain ->
  let w1 := snd (get_account_domain E account_id debug w) in
  let hostname := tunnel_name ++ "." ++ py_str domain in
  let put := EHttp PUT (CfdTunnelConfigurations account_id tunnel_id) h
               (Some (ingress_config hostname local_addr port)) in
  let out := create_tunnel_config E account_id tunnel_id tunnel_name port
               local_addr custom_domain debug w in
  (forall r,
     env_http E (w_trace w1) PUT (CfdTunnelConfigurations account_id tunnel_id)
       h (Some (ingress_config hostname local_addr port)) = Responds r ->
     fst out = Ok (hostname, None) /\
     exists ans,
       snd out
       = log (EHttp POST (ZoneDnsRecords (JStr hardcoded_zone_id)) h
                (Some (dns_data tunnel_id tunnel_name)) ans)
           (log (put (Responds r)) w1)) /\
  (forall k,
     env_http E (w_trace w1) PUT (CfdTunnelConfigurations account_id tunnel_id)
       h (Some (ingress_config hostname local_addr port)) = HttpRaises k ->
     out = (Raise (Error k), log (put (HttpRaises k)) w1)).
Proof.
  intros Hh Hd. cbv zeta.
  unfold create_tunnel_config. rewrite bind_cases.
  destruct (get_account_domain E account_id debug w) as [[d|e] w1];
    cbn [fst snd] in *; [|discriminate].
  injection Hd as ->.
  rewrite bind_lift, Hh. cbv beta iota. rewrite bind_request.
  split.
  - intros r Hput. rewrite Hput. cbv beta iota.
    rewrite bind_cases, try_cases, bind_request.
    match goal with
    | |- context [env_http E ?t POST ?ep ?hh ?dd] =>
        destruct (env_http E t POST ep hh dd) as [r3|k3]
    end; cbn [is_Exception ret fst snd];
      (split; [reflexivity|eexists; reflexivity]).
  - intros k Hput. rewrite Hput. reflexivity.
Qed.

Lemma configuration_answers_unchecked_witness :
  fst (create_tunnel_config config_refused (JStr "acc1") (JStr "tun1") "demo"
         8080 "localhost" None false initial_world)
  = Ok ("demo.example.com", None).
Proof.
  refine (proj1 (proj1 (configuration_answers_unchecked config_refused
                          (JStr "acc1") (JStr "tun1") "demo" 8080 "localhost"
                          None false initial_world (bearer_headers "tok")
                          (JStr "example.com") eq_refl eq_refl) _ eq_refl)).
Defined.

(** X21.  The client is started only after provisioning went through,
    step by step: the account found, the tunnel created, its token
    fetched and written (each answered 200), then the zones listed, the
    configuration PUT and the DNS record POST sent, with the ids, the
    name and the hostname handed on from one step to the next; then the
    token file is read, and the command that runs is
    [cloudflared tunnel run --token <its content>]. *)
Theorem launch_follows_provisioning (E : env) (a : args) (cmd : list string) :
  In (EPopen cmd OsOk) (w_trace (snd (run E a))) ->
  exists c pre content post,
    w_trace (snd (run E a))
      = (pre ++ ERead (c_token_file c) (ReadOk content)
           :: EPopen cmd OsOk :: post)%list /\
    provisioned a c pre /\
    cmd = client_command content.
Proof.
  intros Hlaunch.
  destruct (run_cases E a)
    as [[_ (pre0 & l & Htr & Hpre & Hl)]
       |(c & pre0 & content & rest & after & Htr & Hprov & Hlook & Hend)].
  - exfalso. rewrite Htr in Hlaunch.
    destruct (stopped_plain a pre0 l _ Hpre Hl Hlaunch) as [_ [H _]].
    discriminate.
  - assert (Hcmd : cmd = client_command content).
    { rewrite Htr in Hlaunch.
      assert (Hcut : (pre0 ++ ERead (c_token_file c) (ReadOk content)
                        :: EPopen (client_command content) OsOk
                        :: rest ++ after
                      = (pre0 ++ ERead (c_token_file c) (ReadOk content)
                           :: EPopen (client_command content) OsOk :: rest)
                        ++ after)%list).
      { rewrite <- !app_assoc. reflexivity. }
      rewrite Hcut in Hlaunch. apply in_app_or in Hlaunch.
      destruct Hlaunch as [Hin|Hin].
      - destruct (launched_plain a c pre0 content rest _ Hprov Hlook Hin)
          as [_ [_ H]].
        specialize (H eq_refl). injection H as ->. reflexivity.
      - exfalso. destruct (ended_events c _ after Hend) as [_ [_ [Hafter _]]].
        rewrite Forall_forall in Hafter.
        destruct (Hafter _ Hin) as [[x Hx]|Ht]; [discriminate|].
        apply teardown_event_plain in Ht. discriminate. }
    exists c, pre0, content, (rest ++ after)%list.
    rewrite Hcmd. split; [exact Htr|]. split; [exact Hprov|reflexivity].
Qed.

Lemma launch_follows_provisioning_witness :
  exists c pre content post,
    w_trace (snd (run (Scenario.interrupted 0)
                    (Scenario.demo_args (Some "demo") false)))
      = (pre ++ ERead (c_token_file c) (ReadOk content)
           :: EPopen (client_command "eyJhIjoi") OsOk :: post)%list /\
    provisioned (Scenario.demo_args (Some "demo") false) c pre.
Proof.
  destruct (launch_follows_provisioning (Scenario.interrupted 0)
              (Scenario.demo_args (Some "demo") false)
              (client_command "eyJhIjoi"))
    as (c & pre & content & post & Htr & Hprov & _).
  - vm_compute. do 11 right. left. reflexivity.
  - exists c, pre, content, post. split; assumption.
Defined.

(* ================================================================== *)
(** ** Teardown, run twice *)

Section Settled.

Variable tunnel_name : string.

Lemma settled_nil : settled tunnel_name [].
Proof. intros pre ev post zid h d Heq. destruct pre; discriminate Heq. Qed.

Lemma settled_app (evs1 evs2 : list event) :
  settled tunnel_name evs1 -> settled tunnel_name evs2 ->
  settled tunnel_name (evs1 ++ evs2).
Proof.
  intros H1 H2 pre ev post zid h d Heq Ho.
  apply app_eq_app in Heq. destruct Heq as [l [[-> Hl]|[-> ->]]].
  - destruct l as [|x l]; cbn in Hl.
    + subst evs2. rewrite app_nil_r in H1.
      exact (H2 [] ev post zid h d eq_refl Ho).
    + injection Hl as Hx Hp. subst x post.
      destruct (H1 pre ev l zid h d eq_refl Ho) as [ans Hin].
      exists ans. apply in_or_app. left. exact Hin.
  - exact (H2 l ev post zid h d eq_refl Ho).
Qed.

Lemma settled_quiet (evs : list event) :
  Forall (owes_nothing tunnel_name) evs -> settled tunnel_name evs.
Proof.
  intros Hq pre ev post zid h d -> Ho. exfalso.
  rewrite Forall_forall in Hq.
  apply (Hq ev (in_elt ev pre post) zid h d Ho).
Qed.

(** A listing followed by the DELETEs it calls for. *)
Lemma settled_block (ev : event) (evs : list event) :
  Forall (owes_nothing tunnel_name) evs ->
  (forall zid h d, owed tunnel_name ev zid h d ->
     exists ans, In (EHttp DELETE (ZoneDnsRecord zid d) h None ans) evs) ->
  settled tunnel_name (ev :: evs).
Proof.
  intros Hq Hev pre ev' post zid h d Heq Ho.
  destruct pre as [|x pre]; cbn in Heq.
  - injection Heq as Hx Hp. subst ev' post. apply Hev. exact Ho.
  - injection Heq as _ Hp. subst evs. exfalso. rewrite Forall_forall in Hq.
    apply (Hq ev' (in_elt ev' pre post) zid h d Ho).
Qed.

Section Compose.

Context {St : Type} {T : Traced St}.

Lemma yields_ret {A} (a : A) : yields (settled tunnel_name) (@ret St A a).
Proof. intros s. exists []. cbn. rewrite app_nil_r. split; [reflexivity|apply settled_nil]. Qed.

Lemma yields_lift {A} (r : result A) : yields (settled tunnel_name) (@lift St A r).
Proof. intros s. exists []. cbn. rewrite app_nil_r. split; [reflexivity|apply settled_nil]. Qed.

Lemma yields_quiet {A} (m : M St A) :
  emits (owes_nothing tunnel_name) m -> yields (settled tunnel_name) m.
Proof.
  intros Hm s. destruct (Hm s) as [evs [Htr Hq]].
  exists evs. split; [exact Htr|apply settled_quiet, Hq].
Qed.

Lemma yields_bind {A B} (m : M St A) (f : A -> M St B) :
  yields (settled tunnel_name) m ->
  (forall a, yields (settled tunnel_name) (f a)) ->
  yields (settled tunnel_name) (bind m f).
Proof.
  intros Hm Hf s. unfold bind.
  destruct (Hm s) as [evs1 [E1 C1]].
  destruct (m s) as [[a|e] s1]; cbn [fst snd] in *.
  - destruct (Hf a s1) as [evs2 [E2 C2]].
    exists (evs1 ++ evs2)%list. rewrite E2, E1, app_assoc.
    split; [reflexivity|apply settled_app; assumption].
  - exists evs1. split; assumption.
Qed.

Lemma yields_try_except {A} (m : M St A) c (h : exn -> M St A) :
  yields (settled tunnel_name) m ->
  (forall e, yields (settled tunnel_name) (h e)) ->
  yields (settled tunnel_name) (try_except m c h).
Proof.
  intros Hm Hh s. unfold try_except.
  destruct (Hm s) as [evs1 [E1 C1]].
  destruct (m s) as [[a|e] s1]; cbn [fst snd] in *.
  - exists evs1. split; assumption.
  - destruct (c e).
    + destruct (Hh e s1) as [evs2 [E2 C2]].
      exists (evs1 ++ evs2)%list. rewrite E2, E1, app_assoc.
      split; [reflexivity|apply settled_app; assumption].
    + exists evs1. split; assumption.
Qed.

Lemma yields_for_each {A} (l : list A) (body : A -> M St unit) :
  (forall x, yields (settled tunnel_name) (body x)) ->
  yields (settled tunnel_name) (for_each l body).
Proof.
  intros Hb. induction l as [|x l IH]; cbn [for_each].
  - apply yields_ret.
  - apply yields_bind; [apply Hb|intros _; exact IH].
Qed.

End Compose.

Lemma yields_call {A} (init : locals) (m : M (locals * world) A) :
  yields (settled tunnel_name) m -> yields (settled tunnel_name) (call init m).
Proof.
  intros Hm w. unfold call.
  destruct (Hm (init, w)) as [evs HE].
  destruct (m (init, w)) as [r s']. exists evs. exact HE.
Qed.

End Settled.

Section Finds.

Context {St : Type} {T : Traced St}.
Variable P : event -> Prop.

Lemma finds_after {A B} (m : M St A) (k : A -> M St B) :
  emits (fun _ => True) m -> (forall a, finds P (k a)) -> finds P (bind m k).
Proof.
  intros Hm Hk s b. unfold bind.
  destruct (Hm s) as [evs1 [E1 _]].
  destruct (m s) as [[a|e] s1]; cbn [fst snd] in *; [|discriminate].
  intros Hb. destruct (Hk a s1 b Hb) as [evs2 [E2 X2]].
  exists (evs1 ++ evs2)%list. rewrite E2, E1, app_assoc.
  split; [reflexivity|]. apply Exists_app. right. exact X2.
Qed.

Lemma finds_before {A B} (m : M St A) (k : A -> M St B) :
  finds P m -> (forall a, emits (fun _ => True) (k a)) -> finds P (bind m k).
Proof.
  intros Hm Hk s b. unfold bind. specialize (Hm s).
  destruct (m s) as [[a|e] s1]; cbn [fst snd] in *; [|discriminate].
  intros Hb. destruct (Hm a eq_refl) as [evs1 [E1 X1]].
  destruct (Hk a s1) as [evs2 [E2 _]].
  exists (evs1 ++ evs2)%list. rewrite E2, E1, app_assoc.
  split; [reflexivity|]. apply Exists_app. left. exact X1.
Qed.

End Finds.

Section Again.

Variable E : env.

(** The answers to the zones request: no zone, or a listing to scan. *)
Lemma no_zones_or_listed (ans : http_answer) :
  no_zones ans \/
  exists r j listed,
    ans = Responds r /\ status_code r = 200 /\ body r = Some j /\
    py_get j "result" (JArr []) = Ok listed /\ truthy listed = true.
Proof.
  destruct ans as [r|k]; [|left; constructor].
  destruct (Z.eq_dec (status_code r) 200) as [Hs|Hs];
    [|left; apply nz_status; exact Hs].
  destruct (body r) as [j|] eqn:Hb; [|left; apply nz_body; assumption].
  destruct (py_get j "result" (JArr [])) as [listed|e] eqn:Hr;
    [|left; eapply nz_shape; eassumption].
  destruct (truthy listed) eqn:Ht; [|left; eapply nz_empty; eassumption].
  right. exists r, j, listed. auto.
Qed.

(** With a zone id given there is always a zone to scan. *)
Lemma list_zones_some (account_id : json) (z : string) (h : headers)
    (w : world) (items : list json) :
  zones_carry_ids E -> z <> "" ->
  all_zones (fst (snd (list_zones E account_id (Some z) h (no_locals, w))))
    = Some (JArr items) ->
  exists zone id, In zone items /\ py_item zone "id" = Ok id.
Proof.
  intros Hids Hz Haz.
  assert (Hg : given (Some z) = true).
  { cbn. destruct (String.eqb_spec z ""); [contradiction|reflexivity]. }
  destruct (list_zones_settles E account_id h (Some z) no_locals w Hg)
    as [zones [Hlist [Hfallback Hlisted]]].
  rewrite Hlist in Haz. cbn [fst snd all_zones] in Haz. injection Haz as ->.
  destruct (no_zones_or_listed
              (env_http E (w_trace w) GET (AccountZones account_id) h None))
    as [Hno|(r & j & listed & Ha & Hs & Hb & Hr & Ht)].
  - specialize (Hfallback Hno). injection Hfallback as ->.
    eexists. exists (JStr z). split; [left; reflexivity|reflexivity].
  - pose proof (Hlisted r j Ha Hs Hb listed Hr Ht) as <-.
    destruct (Hids _ _ _ _ _ _ Ha Hs Hb Hr Ht) as [items' [Heq Hall]].
    injection Heq as <-.
    destruct items as [|zone items]; [discriminate Ht|].
    inversion Hall as [|? ? [id Hid] _]; subst.
    exists zone, id. split; [left; reflexivity|exact Hid].
Qed.

Lemma delete_tunnel_and_dns_finds (c : closure) (h : headers) :
  get_headers E = Ok h -> zones_carry_ids E ->
  finds (is_name_query (c_tunnel_name c) h)
    (delete_tunnel_and_dns E (c_account_id c) (c_tunnel_id c)
       (c_tunnel_name c) (Some hardcoded_zone_id) (c_debug c)).
Proof.
  intros Hh Hids w n _.
  destruct (delete_tunnel_and_dns_completes E (c_account_id c) (c_tunnel_id c)
              (c_tunnel_name c) (c_debug c) w h Hh Hids)
    as [n' [w' [items [evs [ans [Hrun [Haz [Htr Hall]]]]]]]].
  destruct (list_zones_some (c_account_id c) hardcoded_zone_id h w items
              Hids (hardcoded_zone_id_given) Haz) as [zone [id [Hin Hid]]].
  destruct (Hall zone id Hin Hid) as [a Ha].
  rewrite Hrun. cbn [snd].
  exists (evs ++ [EHttp DELETE (CfdTunnel (c_account_id c) (c_tunnel_id c))
                    h None ans])%list.
  split; [exact Htr|]. apply Exists_app. left.
  apply Exists_exists. eexists. split; [exact Ha|].
  exists id, a. reflexivity.
Qed.

(** An execution of [cleanup] that returns has scanned a zone. *)
Lemma cleanup_finds (c : closure) (h : headers) :
  get_headers E = Ok h -> zones_carry_ids E ->
  finds (is_name_query (c_tunnel_name c) h) (cleanup E c).
Proof.
  intros Hh Hids. unfold cleanup.
  apply finds_after; [emits_go; exact I|intros present].
  apply finds_after; [emits_go; exact I|intros _].
  apply finds_after; [emits_go; exact I|intros running].
  apply finds_after; [emits_go; exact I|intros _].
  apply finds_before; [apply delete_tunnel_and_dns_finds; assumption|].
  intros n. emits_go.
Qed.

Hypothesis Hanswered : deletes_answered E.

Lemma delete_exact_settled tunnel_name zid h :
  yields (settled tunnel_name) (delete_exact E zid tunnel_name h).
Proof.
  intros [l w].
  assert (Hshape : exists evs,
    w_trace (snd (snd (delete_exact E zid tunnel_name h (l, w))))
    = (w_trace w ++
       EHttp GET (ZoneDnsRecordsNamed zid tunnel_name) h None
         (env_http E (w_trace w) GET (ZoneDnsRecordsNamed zid tunnel_name) h None)
       :: evs)%list /\
    Forall (owes_nothing tunnel_name) evs).
  { unfold delete_exact. rewrite bind_in_world_request.
    destruct (env_http E (w_trace w) GET (ZoneDnsRecordsNamed zid tunnel_name)
                h None) as [r|k].
    - match goal with
      | |- context [snd (snd (?K (l, ?w1)))] =>
          assert (HK : emits (owes_nothing tunnel_name) K);
          [|destruct (HK (l, w1)) as [evs [Htr Hq]]]
      end.
      { unfold delete_record, count_deleted.
        emits_go; intros ? ? ? Ho; inversion Ho. }
      exists evs. split; [|exact Hq].
      unfold trace_of, traced_locals in Htr. cbn [snd] in Htr.
      rewrite Htr, log_trace, <- app_assoc. reflexivity.
    - exists []. split; [reflexivity|constructor]. }
  destruct Hshape as [evs [Htr Hq]].
  eexists. split; [exact Htr|].
  apply settled_block; [exact Hq|].
  intros zid' h' d Ho. inversion Ho; subst.
  match goal with
  | H : Responds _ = env_http _ _ _ _ _ _ |- _ => symmetry in H
  end.
  match goal with
  | H : env_http E _ GET (ZoneDnsRecordsNamed ?z _) ?hh None = Responds _ |- _ =>
      edestruct (delete_exact_all E tunnel_name hh Hanswered z l w)
        as [ans Hans]; try eassumption
  end.
  rewrite (added_app _ _ _ Htr) in Hans.
  destruct Hans as [Hx|Hans]; [discriminate Hx|].
  exists ans. exact Hans.
Qed.

Lemma delete_prefixed_settled tunnel_name zid h :
  yields (settled tunnel_name) (delete_prefixed E zid tunnel_name h).
Proof.
  intros [l w].
  destruct (contains "." tunnel_name) eqn:Hdot.
  { rewrite delete_prefixed_dotted by exact Hdot.
    exists []. cbn. rewrite app_nil_r. split; [reflexivity|apply settled_nil]. }
  assert (Hshape : exists evs,
    w_trace (snd (snd (delete_prefixed E zid tunnel_name h (l, w))))
    = (w_trace w ++
       EHttp GET (ZoneDnsRecords zid) h None
         (env_http E (w_trace w) GET (ZoneDnsRecords zid) h None)
       :: evs)%list /\
    Forall (owes_nothing tunnel_name) evs).
  { unfold delete_prefixed. rewrite Hdot. cbn [negb].
    rewrite bind_in_world_request.
    destruct (env_http E (w_trace w) GET (ZoneDnsRecords zid) h None) as [r|k].
    - match goal with
      | |- context [snd (snd (?K (l, ?w1)))] =>
          assert (HK : emits (owes_nothing tunnel_name) K);
          [|destruct (HK (l, w1)) as [evs [Htr Hq]]]
      end.
      { unfold delete_record, count_deleted.
        emits_go; intros ? ? ? Ho; inversion Ho. }
      exists evs. split; [|exact Hq].
      unfold trace_of, traced_locals in Htr. cbn [snd] in Htr.
      rewrite Htr, log_trace, <- app_assoc. reflexivity.
    - exists []. split; [reflexivity|constructor]. }
  destruct Hshape as [evs [Htr Hq]].
  eexists. split; [exact Htr|].
  apply settled_block; [exact Hq|].
  intros zid' h' d Ho. inversion Ho; subst.
  match goal with
  | H : Responds _ = env_http _ _ _ _ _ _ |- _ => symmetry in H
  end.
  match goal with
  | H : env_http E _ GET (ZoneDnsRecords ?z) ?hh None = Responds _ |- _ =>
      edestruct (delete_prefixed_all E tunnel_name hh Hanswered z l w)
        as [ans Hans]; try eassumption
  end.
  rewrite (added_app _ _ _ Htr) in Hans.
  destruct Hans as [Hx|Hans]; [discriminate Hx|].
  exists ans. exact Hans.
Qed.

Lemma scan_zone_settled tunnel_name h zone :
  yields (settled tunnel_name) (scan_zone E tunnel_name h zone).
Proof.
  unfold scan_zone.
  apply yields_bind; [apply yields_lift|intros zid].
  apply yields_bind; [apply yields_lift|intros zone_name].
  apply yields_try_except; [|intros e; apply yields_ret].
  apply yields_bind; [apply delete_exact_settled|intros _].
  apply delete_prefixed_settled.
Qed.

Lemma delete_tunnel_and_dns_settled account_id tunnel_id tunnel_name zone_id
    debug :
  yields (settled tunnel_name)
    (delete_tunnel_and_dns E account_id tunnel_id tunnel_name zone_id debug).
Proof.
  unfold delete_tunnel_and_dns, delete_tunnel_and_dns_body.
  apply yields_call.
  apply yields_bind; [apply yields_lift|intros h].
  apply yields_bind.
  { apply yields_quiet. unfold list_zones, read_all_zones, assign_all_zones.
    emits_go; intros ? ? ? Ho; inversion Ho. }
  intros _. apply yields_bind.
  { apply yields_quiet. unfold read_all_zones. emits_go. }
  intros zones. apply yields_bind; [apply yields_lift|intros items].
  apply yields_bind.
  { apply yields_for_each. intros zone. apply scan_zone_settled. }
  intros _. apply yields_bind.
  { apply yields_quiet. unfold delete_tunnel, assign_tunnel_deleted.
    emits_go; intros ? ? ? Ho; inversion Ho. }
  intros _. apply yields_quiet. emits_go.
Qed.

(** One execution of [cleanup] deletes every record its listings show. *)
Lemma cleanup_settled (c : closure) :
  yields (settled (c_tunnel_name c)) (cleanup E c).
Proof.
  unfold cleanup.
  apply yields_bind;
    [apply yields_quiet; emits_go; intros ? ? ? Ho; inversion Ho|intros present].
  apply yields_bind;
    [apply yields_quiet; emits_go; intros ? ? ? Ho; inversion Ho|intros _].
  apply yields_bind;
    [apply yields_quiet; emits_go; intros ? ? ? Ho; inversion Ho|intros running].
  apply yields_bind;
    [apply yields_quiet; emits_go; intros ? ? ? Ho; inversion Ho|intros _].
  apply yields_bind; [apply delete_tunnel_and_dns_settled|intros n].
  apply yields_ret.
Qed.

End Again.

(** C1 (as the code has it).  [cleanup] has no one-shot guard: it runs once in
    [signal_handler] and once more from [atexit].  Each execution sends the
    tunnel DELETE at most once, and exactly once when it returns, so both
    together send it at most twice, and exactly twice when both return.
    The DNS records are scanned anew by each execution: with usable headers
    and zones that carry ids, an execution that returns queries a zone for
    the records named after the tunnel; and, where record DELETEs are
    answered, every listing that either execution receives with status 200
    and well-formed records is followed, in that same execution, by a DELETE
    for each record it holds that the code matches, so a record that is
    still listed the second time is deleted a second time. *)
Theorem teardown_once_per_trigger (E : env) (c : closure) (w : world) :
  let w1 := snd (signal_handler E c w) in
  let w2 := run_atexit E [c] w1 in
  ((tunnel_deletes (added w (snd (cleanup E c w))) <= 1)%nat /\
   (fst (cleanup E c w) = Ok tt ->
    tunnel_deletes (added w (snd (cleanup E c w))) = 1%nat)) /\
  (tunnel_deletes (added w w2) <= 2)%nat /\
  (fst (cleanup E c w) = Ok tt -> fst (cleanup E c w1) = Ok tt ->
   tunnel_deletes (added w w2) = 2%nat) /\
  (forall h, get_headers E = Ok h -> zones_carry_ids E ->
     (fst (cleanup E c w) = Ok tt ->
      Exists (is_name_query (c_tunnel_name c) h) (added w w1)) /\
     (fst (cleanup E c w1) = Ok tt ->
      Exists (is_name_query (c_tunnel_name c) h) (added w1 w2))) /\
  (deletes_answered E ->
     settled (c_tunnel_name c) (added w w1) /\
     settled (c_tunnel_name c) (added w1 w2)).
Proof.
  intros w1 w2.
  destruct (cleanup_twice_tunnel E c w) as [Hone [Hmost Htwo]].
  split; [exact Hone|]. split; [exact Hmost|]. split; [exact Htwo|].
  assert (Hw1 : w1 = snd (cleanup E c w)).
  { unfold w1, signal_handler. rewrite bind_cases.
    destruct (cleanup E c w) as [[u|e] w']; reflexivity. }
  assert (Hw2 : w2 = snd (cleanup E c w1)) by reflexivity.
  split.
  - intros h Hh Hids. split; intros Hok.
    + destruct (cleanup_finds E c h Hh Hids w tt Hok) as [evs [Htr Hx]].
      rewrite Hw1, (added_app _ _ _ Htr). exact Hx.
    + destruct (cleanup_finds E c h Hh Hids w1 tt Hok) as [evs [Htr Hx]].
      rewrite Hw2, (added_app _ _ _ Htr). exact Hx.
  - intros Ha. split.
    + destruct (cleanup_settled E Ha c w) as [evs [Htr Hs]].
      rewrite Hw1, (added_app _ _ _ Htr). exact Hs.
    + destruct (cleanup_settled E Ha c w1) as [evs [Htr Hs]].
      rewrite Hw2, (added_app _ _ _ Htr). exact Hs.
Qed.

(** Where the record DELETE fails, the record is still listed when
    [atexit] runs [cleanup] again: the second execution sends the tunnel
    DELETE again, queries the zone again, and sends the record's DELETE
    again. *)
Lemma teardown_once_per_trigger_witness :
  tunnel_deletes (added initial_world after_exit) = 2%nat /\
  Exists (is_name_query "demo-1700000000" (bearer_headers "tok"))
    (added after_interrupt after_exit) /\
  exists ans,
    In (EHttp DELETE (ZoneDnsRecord (JStr "z1") (JStr "r1"))
          (bearer_headers "tok") None ans)
       (added after_interrupt after_exit).
Proof.
  pose proof (teardown_once_per_trigger record_stays demo_closure
                initial_world) as H.
  cbv zeta in H. destruct H as [_ [_ [Htwo [Hscan Hset]]]].
  assert (Hzones : zones_carry_ids record_stays).
  { intros tr account_id h r j zones Ha Hs Hb Hr _.
    cbn in Ha. injection Ha as <-. cbn in Hb. injection Hb as <-.
    cbn in Hr. injection Hr as <-.
    eexists. split; [reflexivity|]. repeat constructor.
    exists (JStr "z1"). reflexivity. }
  assert (Hanswered : deletes_answered record_stays).
  { intros tr zone_id dns_id h. eexists. reflexivity. }
  split; [apply Htwo; reflexivity|]. split.
  - apply (proj2 (Hscan (bearer_headers "tok") eq_refl Hzones)). reflexivity.
  - destruct (proj2 (Hset Hanswered)
                (firstn 4 (added after_interrupt after_exit))
                (EHttp GET (ZoneDnsRecords (JStr "z1")) (bearer_headers "tok")
                   None
                   (Responds
                      {| status_code := 200;
                         body := Some (JObj [("result", JArr [demo_record])]) |}))
                (skipn 5 (added after_interrupt after_exit))
                (JStr "z1") (bearer_headers "tok") (JStr "r1"))
      as [ans Hans].
    + vm_compute. reflexivity.
    + eapply (ow_listed _ _ _ _ _ [demo_record] demo_record
                "demo-1700000000.example.com"); try reflexivity.
      * constructor; [|constructor].
        split; [exists (JStr "r1"); reflexivity|].
        exists "demo-1700000000.example.com". reflexivity.
      * left. reflexivity.
    + exists ans.
      rewrite <- (firstn_skipn 5 (added after_interrupt after_exit)).
      apply in_or_app. right. exact Hans.
Defined.
